(** * Image viewer: sessions, reconciliation, grid navigation, export

    A shallow embedding of the browser image viewer
    (App.tsx, utils/database.ts, utils/fileSystem.ts) and the properties
    of its session store, folder reconciliation, keyboard navigation,
    full-resolution cache and bulk export.

    JavaScript numbers that the program only uses as integers (indices,
    pages, row ids, timestamps) are [Z]; array positions are [nat];
    optional fields ([string | undefined], SQL NULL) are [option]. *)

From Stdlib Require Import ZArith Lia Bool Ascii.
From stdpp Require Import gmap strings list fin_maps sorting pretty.

Local Open Scope Z_scope.

(* ===================================================================== *)
(** ** JavaScript value conventions used by the sources                   *)
(* ===================================================================== *)

Module Js.

(** A thrown value: [Some m] is an [Error] instance with message [m],
    [None] any other thrown value. *)
Definition Thrown := option string.

(** [x || undefined] (also [x || null]) on an optional string: the empty
    string is falsy, exactly like [null] and [undefined]. *)
Definition or_undefined (x : option string) : option string :=
  match x with
  | Some s => if decide (s = ""%string) then None else x
  | None => None
  end.

(** Truthiness of an optional string ([if (img.fullResUrl)]). *)
Definition truthy (x : option string) : bool :=
  match or_undefined x with Some _ => true | None => false end.

(** Truthiness of an optional number ([currentSessionId && ...]):
    [null] and [0] are falsy. *)
Definition truthy_num (x : option Z) : bool :=
  match x with Some n => negb (n =? 0) | None => false end.

(** [error instanceof Error ? error.message : 'Unknown error'] *)
Definition message_of (e : Thrown) : string :=
  match e with Some m => m | None => "Unknown error"%string end.

(** [s.startsWith(p)] *)
Definition startsWith (p s : string) : bool := String.prefix p s.

End Js.

(* ===================================================================== *)
(** ** utils/database.ts                                                  *)
(* ===================================================================== *)

Module Database.

(** Row of table [sessions]. *)
Record SessionRow := mkSessionRow {
  id : Z;
  folderName : string;
  createdAt : Z;
  lastAccessed : Z;
  gridMode : string;
  currentPage : Z;
  focusedIndex : Z
}.

(** Row of table [images]; [selected] is the INTEGER column. *)
Record ImageRow := mkImageRow {
  row_id : Z;
  row_sessionId : Z;
  row_fileName : string;
  row_filePath : string;
  row_size : Z;
  row_lastModified : Z;
  row_selected : Z;
  row_thumbnailData : option string
}.

(** The sql.js database: the two tables and their AUTOINCREMENT
    counters. *)
Record Db := mkDb {
  sessions : list SessionRow;
  images : list ImageRow;
  sessions_seq : Z;
  images_seq : Z
}.

(** Module state: [let db: Database | null] and the snapshot stored in
    IndexedDB under key ['sqliteDb']. *)
Record Store := mkStore {
  db : option Db;
  idb : option Db
}.

Definition emptyDb : Db := mkDb [] [] 0 0.

(** Object returned by [getSessionImages] / [getSelectedImages]. *)
Record SavedImage := mkSavedImage {
  sv_id : Z;
  sv_sessionId : Z;
  fileName : string;
  filePath : string;
  size : Z;
  lastModified : Z;
  selected : bool;
  thumbnailData : option string
}.

(** Argument object of [saveImage]. *)
Record NewImage := mkNewImage {
  ni_fileName : string;
  ni_filePath : string;
  ni_size : Z;
  ni_lastModified : Z;
  ni_selected : bool;
  ni_thumbnailData : option string
}.

Inductive Exn := JsError (message : string).

Definition notInitialized : Exn :=
  JsError "Database not initialized. Call initDatabase() first.".

(** Outcome of a call: a returned value or a thrown exception. *)
Inductive result (A : Type) :=
| Ok (a : A)
| Throw (e : Exn).
Arguments Ok {A} a.
Arguments Throw {A} e.

(** Synchronous store code: state passing with exceptions. The state
    after a throw is whatever had been written before it. *)
Definition M (A : Type) := Store -> result A * Store.

Definition ret {A} (a : A) : M A := fun st => (Ok a, st).
Definition throw {A} (e : Exn) : M A := fun st => (Throw e, st).
Definition bind {A B} (m : M A) (k : A -> M B) : M B :=
  fun st =>
    match m st with
    | (Ok a, st') => k a st'
    | (Throw e, st') => (Throw e, st')
    end.

Notation "'do' x <- m ; k" := (bind m (fun x => k))
  (at level 10, x name, m at level 100, k at level 200).
Notation "'exec' m ; k" := (bind m (fun _ => k))
  (at level 10, m at level 100, k at level 200).

(** [try { m } catch (error) { console.error(...) }] *)
Definition try_catch (m : M unit) : M unit :=
  fun st => match m st with (_, st') => (Ok tt, st') end.

(** [saveToIndexedDB]: returns silently when there is no database;
    otherwise the exported bytes are put under ['sqliteDb']. The put is
    asynchronous and its failure is caught and logged; the model records
    the snapshot of a put that completes. *)
Definition saveToIndexedDB : M unit :=
  fun st =>
    match db st with
    | None => (Ok tt, st)
    | Some d => (Ok tt, mkStore (Some d) (Some d))
    end.

(** [initDatabase]: reuse an open database, else load the IndexedDB
    snapshot or start empty (CREATE TABLE IF NOT EXISTS keeps loaded
    rows), then save. *)
Definition initDatabase : M Db :=
  fun st =>
    match db st with
    | Some d => (Ok d, st)
    | None =>
        let d := match idb st with Some saved => saved | None => emptyDb end in
        (Ok d, mkStore (Some d) (Some d))
    end.

Definition getDatabase : M Db :=
  fun st =>
    match db st with
    | None => (Throw notInitialized, st)
    | Some d => (Ok d, st)
    end.

Definition closeDatabase : M unit :=
  fun st =>
    match db st with
    | Some _ => (Ok tt, mkStore None (idb st))
    | None => (Ok tt, st)
    end.

(** [db.run(...)]: replace the open database by [f d]. *)
Definition run (f : Db -> Db) : M unit :=
  fun st =>
    match db st with
    | Some d => (Ok tt, mkStore (Some (f d)) (idb st))
    | None => (Ok tt, st)
    end.

(** *** Session operations *)

Definition insertSession (folder : string) (now : Z) (mode : string) (d : Db) : Db :=
  let newId := sessions_seq d + 1 in
  mkDb (sessions d ++ [mkSessionRow newId folder now now mode 0 0])
       (images d) newId (images_seq d).

Definition createSession (folder : string) (mode : string) (now : Z) : M Z :=
  do _ <- getDatabase ;
  exec run (insertSession folder now mode) ;
  do d <- getDatabase ;
  exec saveToIndexedDB ;
  ret (sessions_seq d).

Definition setSession (sessionId : Z) (mode : string) (page : Z)
    (focused : option Z) (now : Z) (s : SessionRow) : SessionRow :=
  if id s =? sessionId then
    match focused with
    | Some fi =>
        mkSessionRow (id s) (folderName s) (createdAt s) now mode page fi
    | None =>
        mkSessionRow (id s) (folderName s) (createdAt s) now mode page (focusedIndex s)
    end
  else s.

Definition updateSessionRows (sessionId : Z) (mode : string) (page : Z)
    (focused : option Z) (now : Z) (d : Db) : Db :=
  mkDb (map (setSession sessionId mode page focused now) (sessions d))
       (images d) (sessions_seq d) (images_seq d).

Definition updateSession (sessionId : Z) (mode : string) (page : Z)
    (focused : option Z) (now : Z) : M unit :=
  do _ <- getDatabase ;
  exec run (updateSessionRows sessionId mode page focused now) ;
  saveToIndexedDB.

Definition getSession (sessionId : Z) : M (option SessionRow) :=
  do d <- getDatabase ;
  ret (head (filter (fun s => id s = sessionId) (sessions d))).

(** [ORDER BY]: the rows sorted on the key [R]; rows with equal keys
    stay in the order of the table (rowid order), as the sorter of
    SQLite returns them. *)
Fixpoint insertRow {A : Type} (R : relation A) `{!RelDecision R}
    (x : A) (l : list A) : list A :=
  match l with
  | [] => [x]
  | y :: l' => if decide (R x y) then x :: y :: l' else y :: insertRow R x l'
  end.

Definition orderBy {A : Type} (R : relation A) `{!RelDecision R} (l : list A) : list A :=
  foldr (insertRow R) [] l.

Definition by_lastAccessed_desc (a b : SessionRow) : Prop :=
  lastAccessed b <= lastAccessed a.

#[global] Instance by_lastAccessed_desc_dec : RelDecision by_lastAccessed_desc :=
  fun a b => decide (lastAccessed b <= lastAccessed a).


Definition findSessionByFolderName (folder : string) : M (option SessionRow) :=
  do d <- getDatabase ;
  ret (head (orderBy by_lastAccessed_desc
               (filter (fun s => folderName s = folder) (sessions d)))).

(** *** Image operations *)

Definition insertImage (sessionId : Z) (image : NewImage) (d : Db) : Db :=
  let newId := images_seq d + 1 in
  mkDb (sessions d)
       (images d ++ [mkImageRow newId sessionId (ni_fileName image)
                       (ni_filePath image) (ni_size image)
                       (ni_lastModified image)
                       (if ni_selected image then 1 else 0)
                       (Js.or_undefined (ni_thumbnailData image))])
       (sessions_seq d) newId.

Definition saveImage (sessionId : Z) (image : NewImage) : M unit :=
  do _ <- getDatabase ;
  run (insertImage sessionId image).

Definition setThumbnail (sessionId : Z) (path : string) (data : string)
    (r : ImageRow) : ImageRow :=
  if (row_sessionId r =? sessionId) && bool_decide (row_filePath r = path) then
    mkImageRow (row_id r) (row_sessionId r) (row_fileName r) (row_filePath r)
               (row_size r) (row_lastModified r) (row_selected r) (Some data)
  else r.

Definition updateImageThumbnail (sessionId : Z) (path : string) (data : string) : M unit :=
  do _ <- getDatabase ;
  run (fun d => mkDb (sessions d) (map (setThumbnail sessionId path data) (images d))
                     (sessions_seq d) (images_seq d)).

Definition setSelection (sessionId : Z) (path : string) (sel : bool)
    (r : ImageRow) : ImageRow :=
  if (row_sessionId r =? sessionId) && bool_decide (row_filePath r = path) then
    mkImageRow (row_id r) (row_sessionId r) (row_fileName r) (row_filePath r)
               (row_size r) (row_lastModified r) (if sel then 1 else 0)
               (row_thumbnailData r)
  else r.

Definition updateImageSelection (sessionId : Z) (path : string) (sel : bool) : M unit :=
  do _ <- getDatabase ;
  exec run (fun d => mkDb (sessions d) (map (setSelection sessionId path sel) (images d))
                          (sessions_seq d) (images_seq d)) ;
  saveToIndexedDB.

Definition saveImagesToDatabase : M unit := saveToIndexedDB.

(** ORDER BY file_name (binary collation). *)
Definition by_fileName (a b : ImageRow) : Prop :=
  String.leb (row_fileName a) (row_fileName b) = true.

#[global] Instance by_fileName_dec : RelDecision by_fileName :=
  fun a b => decide (String.leb (row_fileName a) (row_fileName b) = true).

Definition toSavedImage (r : ImageRow) : SavedImage :=
  mkSavedImage (row_id r) (row_sessionId r) (row_fileName r) (row_filePath r)
               (row_size r) (row_lastModified r) (row_selected r =? 1)
               (row_thumbnailData r).

Definition sessionRows (sessionId : Z) (d : Db) : list ImageRow :=
  filter (fun r => row_sessionId r = sessionId) (images d).

Definition getSessionImages (sessionId : Z) : M (list SavedImage) :=
  do d <- getDatabase ;
  ret (map toSavedImage (orderBy by_fileName (sessionRows sessionId d))).

Definition toSelectedImage (r : ImageRow) : SavedImage :=
  mkSavedImage (row_id r) (row_sessionId r) (row_fileName r) (row_filePath r)
               (row_size r) (row_lastModified r) true (row_thumbnailData r).

Definition getSelectedImages (sessionId : Z) : M (list SavedImage) :=
  do d <- getDatabase ;
  ret (map toSelectedImage
         (filter (fun r => row_sessionId r = sessionId /\ row_selected r = 1) (images d))).

(** DELETE FROM sessions WHERE id = ?; the program never switches
    foreign-key enforcement on, so the statement touches [sessions]
    only. *)
Definition deleteSession (sessionId : Z) : M unit :=
  do _ <- getDatabase ;
  run (fun d => mkDb (filter (fun s => id s <> sessionId) (sessions d))
                     (images d) (sessions_seq d) (images_seq d)).


(** [importDatabase]: closes an open database and opens the given one. *)
Definition importDatabase (data : Db) : M unit :=
  fun st => (Ok tt, mkStore (Some data) (idb st)).

End Database.

(* ===================================================================== *)
(** ** utils/fileSystem.ts                                                *)
(* ===================================================================== *)

Module FileSystem.

(** A [FileSystemFileHandle], opaque to the program. *)
Definition FileHandle := nat.

(** [ImageItem] with the optional [fullResUrl] that App.tsx adds. *)
Record ImageItem := mkImageItem {
  id : string;
  fileHandle : FileHandle;
  fileName : string;
  path : string;
  size : Z;
  thumbnailUrl : option string;
  fullResUrl : option string;
  lastModified : Z;
  selected : bool
}.

(** What the browser answers during one export. *)
Record ExportEnv := mkExportEnv {
  (** [window.showDirectoryPicker]: a destination, or the rejection. *)
  showDirectoryPicker : Js.Thrown + string;
  (** Body of the loop's [try] up to [writable.close()], for the file
      behind a handle written under a name: [None] when every await
      succeeds, else the thrown value. *)
  copyFile : FileHandle -> string -> option Js.Thrown
}.

(** [onProgress?]: the callback returns normally ([None]) or throws. *)
Definition ProgressCallback := option (nat -> nat -> option Js.Thrown).

Inductive Effect :=
| PromptDestination
| Copied (name : string)
| Progress (current total : nat)
| ConsoleError (msg : string).

Record ExportResult := mkExportResult {
  success : nat;
  failed : nat;
  errors : list string
}.

Definition errorMsg (image : ImageItem) (e : Js.Thrown) : string :=
  ("Failed to copy " ++ fileName image ++ ": " ++ Js.message_of e)%string.

(** The [catch] block of the loop. *)
Definition recordFailure (image : ImageItem) (e : Js.Thrown)
    (acc : ExportResult * list Effect) : ExportResult * list Effect :=
  let '(r, tr) := acc in
  (mkExportResult (success r) (S (failed r)) (errors r ++ [errorMsg image e]),
   tr ++ [ConsoleError (errorMsg image e)]).

(** One iteration [i] of the [for] loop over [selectedImages]. *)
Definition exportOne (env : ExportEnv) (onProgress : ProgressCallback)
    (total i : nat) (image : ImageItem)
    (acc : ExportResult * list Effect) : ExportResult * list Effect :=
  match copyFile env (fileHandle image) (fileName image) with
  | Some e => recordFailure image e acc
  | None =>
      let '(r, tr) := acc in
      let acc1 := (mkExportResult (S (success r)) (failed r) (errors r),
                   tr ++ [Copied (fileName image)]) in
      match onProgress with
      | None => acc1
      | Some cb =>
          match cb (S i) total with
          | None => (fst acc1, snd acc1 ++ [Progress (S i) total])
          | Some e => recordFailure image e acc1
          end
      end
  end.

Fixpoint exportLoop (env : ExportEnv) (onProgress : ProgressCallback)
    (total i : nat) (rest : list ImageItem)
    (acc : ExportResult * list Effect) : ExportResult * list Effect :=
  match rest with
  | [] => acc
  | image :: rest' =>
      exportLoop env onProgress total (S i) rest'
                 (exportOne env onProgress total i image acc)
  end.

(** [exportSelectedImages]: the promise's outcome (rejection or result)
    and the effects performed, in order. *)
Definition exportSelectedImages (env : ExportEnv) (images : list ImageItem)
    (onProgress : ProgressCallback) : (Js.Thrown + ExportResult) * list Effect :=
  let selectedImages := filter (fun img => selected img = true) images in
  if (length selectedImages =? 0)%nat then
    (inl (Some "No images selected"%string), [])
  else
    match showDirectoryPicker env with
    | inl e => (inl e, [PromptDestination])
    | inr _ =>
        let '(r, tr) :=
          exportLoop env onProgress (length selectedImages) 0 selectedImages
                     (mkExportResult 0 0 [], [PromptDestination]) in
        (inr r, tr)
    end.

(** *** Vocabulary for the export properties *)

(** The items [exportSelectedImages] works on. *)
Definition selectedOf (images : list ImageItem) : list ImageItem :=
  filter (fun img => selected img = true) images.

(** The itemized message of an item whose copy fails. *)
Definition copyError (env : ExportEnv) (image : ImageItem) : option string :=
  errorMsg image <$> copyFile env (fileHandle image) (fileName image).

(** A progress callback that always returns normally. *)
Definition quiet (onProgress : ProgressCallback) : Prop :=
  forall cb i n, onProgress = Some cb -> cb i n = None.

End FileSystem.

(* ===================================================================== *)
(** ** App.tsx                                                            *)
(* ===================================================================== *)

Module App.

Import FileSystem.

Inductive Key :=
| ArrowUp | ArrowDown | ArrowLeft | ArrowRight
| Space | Enter | Escape | OtherKey.

Inductive Direction := Prev | Next.

(** The component's state, the module state of utils/database.ts it
    drives, and the log of URLs handed to [URL.revokeObjectURL].
    Flags that only drive rendering (export progress, the resume
    notification) are left out. *)
Record AppState := mkApp {
  images : list ImageItem;
  currentPage : Z;
  gridMode : string;
  isLoading : bool;
  isSupported : bool;
  currentSessionId : option Z;
  dbInitialized : bool;
  lightboxImageId : option string;
  focusedIndex : Z;
  store : Database.Store;
  revoked : list string
}.

Definition setImages (v : list ImageItem) (st : AppState) : AppState :=
  mkApp v (currentPage st) (gridMode st) (isLoading st) (isSupported st)
        (currentSessionId st) (dbInitialized st) (lightboxImageId st)
        (focusedIndex st) (store st) (revoked st).

Definition setCurrentPage (v : Z) (st : AppState) : AppState :=
  mkApp (images st) v (gridMode st) (isLoading st) (isSupported st)
        (currentSessionId st) (dbInitialized st) (lightboxImageId st)
        (focusedIndex st) (store st) (revoked st).

Definition setGridMode (v : string) (st : AppState) : AppState :=
  mkApp (images st) (currentPage st) v (isLoading st) (isSupported st)
        (currentSessionId st) (dbInitialized st) (lightboxImageId st)
        (focusedIndex st) (store st) (revoked st).

Definition setIsLoading (v : bool) (st : AppState) : AppState :=
  mkApp (images st) (currentPage st) (gridMode st) v (isSupported st)
        (currentSessionId st) (dbInitialized st) (lightboxImageId st)
        (focusedIndex st) (store st) (revoked st).

Definition setCurrentSessionId (v : option Z) (st : AppState) : AppState :=
  mkApp (images st) (currentPage st) (gridMode st) (isLoading st) (isSupported st)
        v (dbInitialized st) (lightboxImageId st)
        (focusedIndex st) (store st) (revoked st).

Definition setLightboxImageId (v : option string) (st : AppState) : AppState :=
  mkApp (images st) (currentPage st) (gridMode st) (isLoading st) (isSupported st)
        (currentSessionId st) (dbInitialized st) v
        (focusedIndex st) (store st) (revoked st).

Definition setFocusedIndex (v : Z) (st : AppState) : AppState :=
  mkApp (images st) (currentPage st) (gridMode st) (isLoading st) (isSupported st)
        (currentSessionId st) (dbInitialized st) (lightboxImageId st)
        v (store st) (revoked st).

Definition setStore (v : Database.Store) (st : AppState) : AppState :=
  mkApp (images st) (currentPage st) (gridMode st) (isLoading st) (isSupported st)
        (currentSessionId st) (dbInitialized st) (lightboxImageId st)
        (focusedIndex st) v (revoked st).

Definition revokeObjectURLs (urls : list string) (st : AppState) : AppState :=
  mkApp (images st) (currentPage st) (gridMode st) (isLoading st) (isSupported st)
        (currentSessionId st) (dbInitialized st) (lightboxImageId st)
        (focusedIndex st) (store st) (revoked st ++ urls).

(** *** Values derived on every render *)

Definition is5x5 (mode : string) : bool := bool_decide (mode = "5x5"%string).

Definition pageSize (mode : string) : Z := if is5x5 mode then 25 else 24.

Definition itemCount (st : AppState) : Z := Z.of_nat (length (images st)).

(** [Math.ceil(a / b)] for a positive divisor. *)
Definition ceilDiv (a b : Z) : Z := - ((- a) / b).

Definition imagesPerPage (st : AppState) : Z := pageSize (gridMode st).
Definition totalPages (st : AppState) : Z := ceilDiv (itemCount st) (imagesPerPage st).
Definition startIdx (st : AppState) : Z := currentPage st * imagesPerPage st.
Definition endIdx (st : AppState) : Z := startIdx st + imagesPerPage st.

(** [images[i]] for a JavaScript index. *)
Definition imageAt (l : list ImageItem) (i : Z) : option ImageItem :=
  if (0 <=? i) then l !! Z.to_nat i else None.

(** [images.findIndex(img => img.id === x)], [-1] when absent. *)
Fixpoint findIndexFrom (x : string) (l : list ImageItem) (i : Z) : Z :=
  match l with
  | [] => -1
  | img :: l' => if bool_decide (id img = x) then i else findIndexFrom x l' (i + 1)
  end.

Definition findIndex (x : string) (l : list ImageItem) : Z := findIndexFrom x l 0.

(** *** Calls into the store *)

(** [if (currentSessionId && dbInitialized) { try { op } catch { log } }] *)
Definition withSession (op : Z -> Database.M unit) (st : AppState) : AppState :=
  match currentSessionId st with
  | Some sid =>
      if Js.truthy_num (Some sid) && dbInitialized st
      then setStore (snd (Database.try_catch (op sid) (store st))) st
      else st
  | None => st
  end.

(** *** Selection *)

Definition toggleSelected (img : ImageItem) : ImageItem :=
  mkImageItem (id img) (fileHandle img) (fileName img) (path img) (size img)
              (thumbnailUrl img) (fullResUrl img) (lastModified img)
              (negb (selected img)).

Definition toggleIfId (x : string) (img : ImageItem) : ImageItem :=
  if bool_decide (id img = x) then toggleSelected img else img.

(** The store write made inside the updater for a matching item. *)
Definition persistToggle (x : string) (st : AppState) (img : ImageItem) : AppState :=
  if bool_decide (id img = x)
  then withSession (fun sid =>
         Database.updateImageSelection sid (path img) (negb (selected img))) st
  else st.

Definition handleSelectImage (x : string) (st : AppState) : AppState :=
  let prev := images st in
  setImages (map (toggleIfId x) prev) (foldl (persistToggle x) st prev).

(** *** Grid mode and page buttons *)

Definition handleToggleGridMode (now : Z) (st : AppState) : AppState :=
  let newMode := if is5x5 (gridMode st) then "6x4"%string else "5x5"%string in
  let st1 := withSession (fun sid => Database.updateSession sid newMode 0 None now) st in
  setCurrentPage 0 (setGridMode newMode st1).

Definition handlePreviousPage (now : Z) (st : AppState) : AppState :=
  let newPage := Z.max 0 (currentPage st - 1) in
  let st1 := withSession (fun sid =>
               Database.updateSession sid (gridMode st) newPage None now) st in
  setCurrentPage newPage st1.

Definition handleNextPage (now : Z) (st : AppState) : AppState :=
  let newPage := Z.min (totalPages st - 1) (currentPage st + 1) in
  let st1 := withSession (fun sid =>
               Database.updateSession sid (gridMode st) newPage None now) st in
  setCurrentPage newPage st1.

(** *** Full-resolution images *)

Definition setFullResUrl (url : option string) (img : ImageItem) : ImageItem :=
  mkImageItem (id img) (fileHandle img) (fileName img) (path img) (size img)
              (thumbnailUrl img) url (lastModified img) (selected img).

(** [loadFullResImage]: [closure] is the [images] value the handler was
    created with (used for the lookup and the already-loaded test),
    [cur] the list the functional update applies to. [createObjectURL]
    answers for [getFile()] followed by [URL.createObjectURL]: [None]
    when the read is rejected. *)
Definition loadFullResImage (createObjectURL : FileHandle -> option string)
    (closure : list ImageItem) (imageId : string)
    (cur : list ImageItem) : list ImageItem :=
  match find (fun img => bool_decide (id img = imageId)) closure with
  | None => cur
  | Some image =>
      if Js.truthy (fullResUrl image) then cur
      else
        match createObjectURL (fileHandle image) with
        | None => cur
        | Some url =>
            map (fun item =>
                   if bool_decide (id item = imageId)
                   then setFullResUrl (Some url) item else item) cur
        end
  end.

(** Load the neighbours of the image at [index]: the previous one, then
    the next one. *)
Definition preloadAdjacent (createObjectURL : FileHandle -> option string)
    (closure : list ImageItem) (index : Z)
    (cur : list ImageItem) : list ImageItem :=
  let len := Z.of_nat (length closure) in
  let cur1 :=
    if 0 <? index then
      match imageAt closure (index - 1) with
      | Some img => loadFullResImage createObjectURL closure (id img) cur
      | None => cur
      end
    else cur in
  if index <? len - 1 then
    match imageAt closure (index + 1) with
    | Some img => loadFullResImage createObjectURL closure (id img) cur1
    | None => cur1
    end
  else cur1.

Definition handleLongPress (createObjectURL : FileHandle -> option string)
    (x : string) (st : AppState) : AppState :=
  let closure := images st in
  let cur := loadFullResImage createObjectURL closure x closure in
  let currentIndex := findIndex x closure in
  setImages (preloadAdjacent createObjectURL closure currentIndex cur)
            (setLightboxImageId (Some x) st).

Definition handleCloseLightbox (st : AppState) : AppState :=
  setLightboxImageId None st.

Definition handleNavigateLightbox (createObjectURL : FileHandle -> option string)
    (now : Z) (direction : Direction) (st : AppState) : AppState :=
  match Js.or_undefined (lightboxImageId st) with
  | None => st
  | Some lb =>
      let closure := images st in
      let len := Z.of_nat (length closure) in
      let currentIndex := findIndex lb closure in
      if currentIndex =? -1 then st
      else
        let newIndex :=
          match direction with
          | Prev => if 0 <? currentIndex then currentIndex - 1 else currentIndex
          | Next => if currentIndex <? len - 1 then currentIndex + 1 else currentIndex
          end in
        let st1 :=
          if newIndex =? currentIndex then st
          else setLightboxImageId (option_map id (imageAt closure newIndex)) st in
        let st2 := setFocusedIndex newIndex st1 in
        let st3 := withSession (fun sid =>
                     Database.updateSession sid (gridMode st) (currentPage st)
                                            (Some newIndex) now) st2 in
        let cur :=
          match imageAt closure newIndex with
          | Some img => loadFullResImage createObjectURL closure (id img) closure
          | None => closure
          end in
        setImages (preloadAdjacent createObjectURL closure newIndex cur) st3
  end.

(** *** Keyboard navigation *)

Definition cols (mode : string) : Z := if is5x5 mode then 5 else 6.
Definition rows (mode : string) : Z := if is5x5 mode then 5 else 4.

Definition indexInPage (st : AppState) : Z :=
  Z.rem (focusedIndex st) (cols (gridMode st) * rows (gridMode st)).
Definition row (st : AppState) : Z := indexInPage st / cols (gridMode st).
Definition col (st : AppState) : Z := Z.rem (indexInPage st) (cols (gridMode st)).

(** Each arrow case yields [newIndex] and the argument of
    [setCurrentPage] when the case calls it. *)
Definition arrowUp (st : AppState) : Z * option Z :=
  let c := cols (gridMode st) in
  let r := rows (gridMode st) in
  if 0 <? row st then (focusedIndex st - c, None)
  else if 0 <? currentPage st then
    let newPage := currentPage st - 1 in
    let newPageStartIdx := newPage * (c * r) in
    let lastRowStart := newPageStartIdx + (r - 1) * c in
    (Z.min (lastRowStart + col st) (itemCount st - 1), Some newPage)
  else (focusedIndex st, None).

Definition arrowDown (st : AppState) : Z * option Z :=
  let c := cols (gridMode st) in
  let r := rows (gridMode st) in
  if (row st <? r - 1) && (focusedIndex st + c <? itemCount st) then
    let potentialIndex := focusedIndex st + c in
    if potentialIndex <? Z.min (startIdx st + c * r) (itemCount st)
    then (potentialIndex, None)
    else (focusedIndex st, None)
  else if currentPage st <? totalPages st - 1 then
    let newPage := currentPage st + 1 in
    let newPageStartIdx := newPage * (c * r) in
    (Z.min (newPageStartIdx + col st) (itemCount st - 1), Some newPage)
  else (focusedIndex st, None).

Definition arrowLeft (st : AppState) : Z * option Z :=
  if 0 <? col st then (focusedIndex st - 1, None)
  else if 0 <? focusedIndex st then
    let newIndex := focusedIndex st - 1 in
    if (newIndex <? startIdx st) && (0 <? currentPage st)
    then (newIndex, Some (currentPage st - 1))
    else (newIndex, None)
  else (focusedIndex st, None).

Definition arrowRight (st : AppState) : Z * option Z :=
  let c := cols (gridMode st) in
  let r := rows (gridMode st) in
  if (col st <? c - 1) && (focusedIndex st + 1 <? itemCount st) then
    let potentialIndex := focusedIndex st + 1 in
    if potentialIndex <? Z.min (startIdx st + c * r) (itemCount st)
    then (potentialIndex, None)
    else (focusedIndex st, None)
  else if focusedIndex st + 1 <? itemCount st then
    let newIndex := focusedIndex st + 1 in
    if (endIdx st <=? newIndex) && (currentPage st <? totalPages st - 1)
    then (newIndex, Some (currentPage st + 1))
    else (newIndex, None)
  else (focusedIndex st, None).

Definition applyPage (p : option Z) (st : AppState) : AppState :=
  match p with Some v => setCurrentPage v st | None => st end.

(** The code after the [switch]: [closure] is the state the listener was
    created with, [st] the state after the case's own updates. *)
Definition commitFocus (now : Z) (closure : AppState) (newIndex : Z)
    (st : AppState) : AppState :=
  if (0 <=? newIndex) && (newIndex <? itemCount closure) then
    let st1 := setFocusedIndex newIndex st in
    if negb (newIndex =? focusedIndex closure) then
      withSession (fun sid =>
        Database.updateSession sid (gridMode closure) (currentPage closure)
                               (Some newIndex) now) st1
    else st1
  else st.

Definition isArrow (key : Key) : bool :=
  match key with
  | ArrowUp | ArrowDown | ArrowLeft | ArrowRight => true
  | _ => false
  end.

Definition handleKeyDown (createObjectURL : FileHandle -> option string)
    (now : Z) (key : Key) (st : AppState) : AppState :=
  if itemCount st =? 0 then st
  else
    let arrow (m : Z * option Z) := commitFocus now st (fst m) (applyPage (snd m) st) in
    let focusedInRange := (0 <=? focusedIndex st) && (focusedIndex st <? itemCount st) in
    match key with
    | ArrowUp => arrow (arrowUp st)
    | ArrowDown => arrow (arrowDown st)
    | ArrowLeft => arrow (arrowLeft st)
    | ArrowRight => arrow (arrowRight st)
    | Space =>
        commitFocus now st (focusedIndex st)
          (match imageAt (images st) (focusedIndex st) with
           | Some img => if focusedInRange then handleLongPress createObjectURL (id img) st else st
           | None => st
           end)
    | Enter =>
        commitFocus now st (focusedIndex st)
          (match imageAt (images st) (focusedIndex st) with
           | Some img => if focusedInRange then handleSelectImage (id img) st else st
           | None => st
           end)
    | Escape | OtherKey => st
    end.

(** *** Effects run after a render *)

(** [new Set([currentPage - 1, currentPage, currentPage + 1])] *)
Definition pagesToKeep (st : AppState) : gset Z :=
  {[ currentPage st - 1; currentPage st; currentPage st + 1 ]}.

(** Page of the item at array position [index]. *)
Definition imagePage (st : AppState) (index : nat) : Z :=
  Z.of_nat index / imagesPerPage st.

Definition mustRelease (st : AppState) (index : nat) (img : ImageItem) : bool :=
  negb (bool_decide (imagePage st index ∈ pagesToKeep st)) && Js.truthy (fullResUrl img).

Definition release (st : AppState) (index : nat) (img : ImageItem) : ImageItem :=
  if mustRelease st index img then setFullResUrl None img else img.

Definition releasedBlob (st : AppState) (index : nat) (img : ImageItem) : option string :=
  if mustRelease st index img then
    match fullResUrl img with
    | Some url => if Js.startsWith "blob:" url then Some url else None
    | None => None
    end
  else None.

(** Effect "Cleanup fullResUrl for images not on current or adjacent
    pages", dependencies [currentPage, images.length, imagesPerPage]. *)
Definition cleanupFullRes (st : AppState) : AppState :=
  if itemCount st =? 0 then st
  else
    revokeObjectURLs (omap (fun x => x) (imap (releasedBlob st) (images st)))
                     (setImages (imap (release st) (images st)) st).

(** Effect "Initialize focused index when first loading", dependency
    [images.length]. *)
Definition initFocusedIndex (st : AppState) : AppState :=
  if (0 <? itemCount st) && (focusedIndex st =? 0)
     && negb (Js.truthy_num (currentSessionId st))
  then setFocusedIndex (startIdx st) st
  else st.

(** The two effects above, each run when one of its dependencies differs
    between the previous render [before] and the new state [after]. (The
    thumbnail-generation effect only fills [thumbnailUrl] and is not
    modelled.) *)
Definition runEffects (before after : AppState) : AppState :=
  let lengthChanged := negb (itemCount before =? itemCount after) in
  let after1 := if lengthChanged then initFocusedIndex after else after in
  if negb (currentPage before =? currentPage after1)
     || lengthChanged
     || negb (imagesPerPage before =? imagesPerPage after1)
  then cleanupFullRes after1
  else after1.

(** *** User events *)

Inductive Event :=
| KeyPress (key : Key)
| ClickThumbnail (x : string)
| LongPressThumbnail (x : string)
| ClickToggleGrid
| ClickPrevious
| ClickNext
| LightboxNavigate (direction : Direction)
| LightboxClose.

(** Bound of [Array.prototype.slice]: a negative index counts from the
    end, and both ends are clamped to the array. *)
Definition sliceBound (len i : Z) : nat :=
  Z.to_nat (if i <? 0 then Z.max (len + i) 0 else Z.min i len).

(** [images.slice(startIdx, endIdx)], the cells the grid renders. *)
Definition currentImages (st : AppState) : list ImageItem :=
  let from := sliceBound (itemCount st) (startIdx st) in
  let to := sliceBound (itemCount st) (endIdx st) in
  take (to - from) (drop from (images st)).

Definition onCurrentPage (x : string) (st : AppState) : bool :=
  existsb (fun img => bool_decide (id img = x)) (currentImages st).

(** [lightboxImage]: the lightbox is mounted when the id is found. *)
Definition lightboxOpen (st : AppState) : bool :=
  match Js.or_undefined (lightboxImageId st) with
  | Some lb => negb (findIndex lb (images st) =? -1)
  | None => false
  end.

(** Route an event to its handler; an event whose control is disabled or
    not rendered leaves the state alone. With [lightboxImageId] set the
    grid's key listener is not installed and the lightbox's own listener
    (Escape, ArrowLeft, ArrowRight) answers. *)
Definition dispatch (createObjectURL : FileHandle -> option string)
    (now : Z) (ev : Event) (st : AppState) : AppState :=
  match ev with
  | KeyPress key =>
      if Js.truthy (lightboxImageId st) then
        if lightboxOpen st then
          let currentIndex :=
            findIndex (default ""%string (lightboxImageId st)) (images st) in
          match key with
          | Escape => handleCloseLightbox st
          | ArrowLeft =>
              if 0 <? currentIndex
              then handleNavigateLightbox createObjectURL now Prev st else st
          | ArrowRight =>
              if currentIndex <? itemCount st - 1
              then handleNavigateLightbox createObjectURL now Next st else st
          | _ => st
          end
        else st
      else handleKeyDown createObjectURL now key st
  | ClickThumbnail x =>
      if onCurrentPage x st then handleSelectImage x st else st
  | LongPressThumbnail x =>
      if onCurrentPage x st then handleLongPress createObjectURL x st else st
  | ClickToggleGrid =>
      if 0 <? itemCount st then handleToggleGridMode now st else st
  | ClickPrevious =>
      if (0 <? itemCount st) && negb (currentPage st =? 0)
      then handlePreviousPage now st else st
  | ClickNext =>
      if (0 <? itemCount st) && negb (currentPage st =? totalPages st - 1)
      then handleNextPage now st else st
  | LightboxNavigate direction =>
      if lightboxOpen st
      then handleNavigateLightbox createObjectURL now direction st else st
  | LightboxClose =>
      if lightboxOpen st then handleCloseLightbox st else st
  end.

(** One event: the handler, then the effects of the re-render. *)
Definition step (createObjectURL : FileHandle -> option string)
    (now : Z) (ev : Event) (st : AppState) : AppState :=
  runEffects st (dispatch createObjectURL now ev st).

(** States reached from [st0] by any finite sequence of events. *)
Inductive reachable (createObjectURL : FileHandle -> option string)
    (st0 : AppState) : AppState -> Prop :=
| reach_start : reachable createObjectURL st0 st0
| reach_step st now ev :
    reachable createObjectURL st0 st ->
    reachable createObjectURL st0 (step createObjectURL now ev st).

(** *** Folder selection and reconciliation *)

(** [new Map(savedImages.map(img => [img.filePath, {...}]))]: entries are
    set in order, a later row with the same path replaces an earlier one. *)
Definition savedDataMap (savedImages : list Database.SavedImage)
    : gmap string (bool * option string) :=
  foldl (fun m img =>
           <[Database.filePath img :=
               (Database.selected img, Database.thumbnailData img)]> m)
        ∅ savedImages.

Definition mergeImage (m : gmap string (bool * option string))
    (img : ImageItem) : ImageItem :=
  let savedData := m !! path img in
  mkImageItem (id img) (fileHandle img) (fileName img) (path img) (size img)
              (Js.or_undefined (savedData ≫= snd))
              (fullResUrl img) (lastModified img)
              (match savedData with Some d => fst d | None => false end).

Definition toNewImage (img : ImageItem) : Database.NewImage :=
  Database.mkNewImage (fileName img) (path img) (size img) (lastModified img)
                      (selected img) None.

Fixpoint forEach {A : Type} (f : A -> Database.M unit) (l : list A) : Database.M unit :=
  match l with
  | [] => Database.ret tt
  | x :: l' => Database.bind (f x) (fun _ => forEach f l')
  end.

(** Branch "Restore existing session". *)
Definition restoreSession (existingSession : Database.SessionRow)
    (scannedImages : list ImageItem) (now : Z) (st : AppState) : AppState :=
  let sessionId := Database.id existingSession in
  let st1 :=
    setFocusedIndex (Database.focusedIndex existingSession)
      (setCurrentPage (Database.currentPage existingSession)
         (setGridMode (Database.gridMode existingSession)
            (setCurrentSessionId (Some sessionId) st))) in
  match Database.getSessionImages sessionId (store st1) with
  | (Database.Throw _, _) => st1
  | (Database.Ok savedImages, _) =>
      let mergedImages := map (mergeImage (savedDataMap savedImages)) scannedImages in
      let st2 := setImages mergedImages st1 in
      setStore (snd (Database.updateSession sessionId
                       (Database.gridMode existingSession)
                       (Database.currentPage existingSession)
                       (Some (Database.focusedIndex existingSession)) now
                       (store st2))) st2
  end.

(** Branch "Create new session". *)
Definition createNewSession (folderName : string)
    (scannedImages : list ImageItem) (now : Z) (st : AppState) : AppState :=
  let st1 := setCurrentPage 0 (setImages scannedImages st) in
  if dbInitialized st then
    match Database.createSession folderName (gridMode st) now (store st1) with
    | (Database.Throw _, s) => setStore s st1
    | (Database.Ok sessionId, s) =>
        let st2 := setCurrentSessionId (Some sessionId) (setStore s st1) in
        let save :=
          Database.bind
            (forEach (fun img => Database.saveImage sessionId (toNewImage img))
                     scannedImages)
            (fun _ => Database.saveImagesToDatabase) in
        setStore (snd (save (store st2))) st2
    end
  else st1.

(** [handleSelectFolder]. [picked] is the name of the directory the
    picker returned ([None]: the picker rejected), [scanned] the result of
    [scanFolder] on it ([None]: the scan rejected). Every rejection or
    throw inside the [try] lands in the [catch], which clears
    [isLoading]. *)
Definition handleSelectFolder (picked : option string)
    (scanned : option (list ImageItem)) (now : Z) (st : AppState) : AppState :=
  if negb (isSupported st) then st
  else
    match picked with
    | None => setIsLoading false st
    | Some folderName =>
        let st1 := setIsLoading true st in
        let found :=
          if dbInitialized st
          then fst (Database.findSessionByFolderName folderName (store st))
          else Database.Ok None in
        match found, scanned with
        | Database.Throw _, _ => setIsLoading false st1
        | Database.Ok _, None => setIsLoading false st1
        | Database.Ok existingSession, Some scannedImages =>
            match existingSession with
            | Some es =>
                if dbInitialized st
                then setIsLoading false (restoreSession es scannedImages now st1)
                else setIsLoading false (createNewSession folderName scannedImages now st1)
            | None =>
                setIsLoading false (createNewSession folderName scannedImages now st1)
            end
        end
    end.

(** *** Vocabulary for the properties *)

(** The cursor designates an item. *)
Definition focusInRange (st : AppState) : Prop :=
  0 <= focusedIndex st < itemCount st.

(** Row of the item at absolute index [i] inside its page. *)
Definition rowOf (mode : string) (i : Z) : Z :=
  Z.rem i (cols mode * rows mode) / cols mode.

(** The first page is on display and the cursor is in its first row. *)
Definition inFirstRowOfFirstPage (st : AppState) : Prop :=
  currentPage st = 0 /\ row st = 0.

(** The last page is on display and the cursor is in its last row: the
    bottom row of the grid, or, on a partly filled page, the row of the
    last item. *)
Definition inLastRowOfLastPage (st : AppState) : Prop :=
  currentPage st = totalPages st - 1 /\
  (row st = rows (gridMode st) - 1 \/
   (startIdx st <= focusedIndex st < itemCount st /\
    rowOf (gridMode st) (focusedIndex st) = rowOf (gridMode st) (itemCount st - 1))).

(** The cursor designates an item of the page on display. *)
Definition focusOnDisplayedPage (st : AppState) : Prop :=
  focusInRange st /\ startIdx st <= focusedIndex st < endIdx st.

(** Every item that holds a full-resolution URL lies on the previous,
    the current or the next page. *)
Definition fullResWithinWindow (st : AppState) : Prop :=
  forall (i : nat) (img : ImageItem),
    images st !! i = Some img ->
    Js.truthy (fullResUrl img) = true ->
    imagePage st i ∈ pagesToKeep st.

(** Number of items holding a full-resolution URL. *)
Definition fullResCount (st : AppState) : nat :=
  length (filter (fun img => Js.truthy (fullResUrl img) = true) (images st)).

End App.

(* ===================================================================== *)
(** ** The store's exported operations as one call interface             *)
(* ===================================================================== *)

Module StoreApi.

Import Database.







End StoreApi.

(* ===================================================================== *)
(** ** Sample data                                                        *)
(* ===================================================================== *)

Module Samples.

Import FileSystem.

(** Item number [n] of a scanned folder: file ["n"], nothing cached. *)
Definition item (n : nat) : ImageItem :=
  mkImageItem (pretty n) n (pretty n) (pretty n) 1024 None None 0 false.

Definition items (count : nat) : list ImageItem := map item (seq 0 count).

Definition selectedItem (n : nat) : ImageItem :=
  mkImageItem (pretty n) n (pretty n) (pretty n) 1024 None None 0 true.

(** Every read succeeds and yields a fresh blob URL. *)
Definition blobOf (h : FileHandle) : option string :=
  Some ("blob:" ++ pretty h)%string.

(** The destination is granted; only the source behind handle 1 cannot
    be read. *)
Definition oneUnreadable : ExportEnv :=
  mkExportEnv (inr "export"%string)
              (fun h _ => if (h =? 1)%nat then Some (Some "read failed"%string) else None).

(** The progress callback App.tsx passes: a state setter. *)
Definition setExportProgress : ProgressCallback := Some (fun _ _ => None).

Definition closedStore : Database.Store := Database.mkStore None None.

Definition openStore : Database.Store :=
  Database.mkStore (Some Database.emptyDb) (Some Database.emptyDb).

(** A freshly mounted component showing [count] items in grid [mode] at
    [page], cursor at [focus], no session. *)
Definition viewing (count : nat) (mode : string) (page focus : Z) : App.AppState :=
  App.mkApp (items count) page mode false true None false None focus closedStore [].

(** [count] items of which the first [loaded] hold a full-resolution
    URL, shown in grid [mode] at [page]. *)
Definition browsing (count loaded : nat) (mode : string) (page focus : Z) : App.AppState :=
  App.mkApp
    (map (fun n => if (n <? loaded)%nat
                   then App.setFullResUrl (blobOf n) (item n) else item n)
         (seq 0 count))
    page mode false true None false None focus closedStore [].

(** Long press on the first thumbnail of 100 items, then [n] times
    ArrowRight in the lightbox. *)
Definition lightboxWalk (n : nat) : App.AppState :=
  Nat.iter n (App.step blobOf 0 (App.KeyPress App.ArrowRight))
           (App.step blobOf 0 (App.LongPressThumbnail "0") (viewing 100 "5x5" 0 0)).

(** 70 items in the 5x5 grid with the cursor on item 2 (first row of
    the first page), after a click on Next: page 1 is on display. *)
Definition pagedAway : App.AppState :=
  App.step blobOf 0 App.ClickNext (viewing 70 "5x5" 0 2).

(** The same items with the cursor on item 67 (last row of the last
    page), after a click on Previous: page 1 is on display. *)
Definition pagedBack : App.AppState :=
  App.step blobOf 0 App.ClickPrevious (viewing 70 "5x5" 2 67).

(** A scanned file [name], last modified at time 5. *)
Definition photo (name : string) : ImageItem :=
  mkImageItem (name ++ "-5") 0%nat name name 10 None None 5 false.

(** A store holding one session for folder "holiday": a.jpg selected
    with a thumbnail, b.jpg untouched, gone.jpg selected with a
    thumbnail. *)
Definition holidayDb : Database.Db :=
  Database.mkDb
    [Database.mkSessionRow 1 "holiday" 100 200 "5x5" 0 0]
    [Database.mkImageRow 1 1 "a.jpg" "a.jpg" 10 5 1 (Some "data:a"%string);
     Database.mkImageRow 2 1 "b.jpg" "b.jpg" 10 5 0 None;
     Database.mkImageRow 3 1 "gone.jpg" "gone.jpg" 10 5 1 (Some "data:gone"%string)]
    1 3.

Definition holidayStore : Database.Store :=
  Database.mkStore (Some holidayDb) (Some holidayDb).

(** The component after [initDatabase], before a folder is chosen. *)
Definition resumed : App.AppState :=
  App.mkApp [] 0 "5x5" false true None true None 0 holidayStore [].

(** The folder as found on the rescan: gone.jpg was removed, c.jpg is
    new. *)
Definition rescan : list ImageItem := [photo "a.jpg"; photo "b.jpg"; photo "c.jpg"].

(** The "holiday" session beside an older session "archive" whose rows
    have the same paths with other flags and thumbnails: there a.jpg is
    unselected and c.jpg selected. *)
Definition sharedDb : Database.Db :=
  Database.mkDb
    [Database.mkSessionRow 1 "holiday" 100 200 "5x5" 0 0;
     Database.mkSessionRow 2 "archive" 50 60 "6x4" 0 0]
    [Database.mkImageRow 1 1 "a.jpg" "a.jpg" 10 5 1 (Some "data:a"%string);
     Database.mkImageRow 2 2 "a.jpg" "a.jpg" 10 5 0 (Some "data:old"%string);
     Database.mkImageRow 3 1 "b.jpg" "b.jpg" 10 5 0 None;
     Database.mkImageRow 4 2 "c.jpg" "c.jpg" 10 5 1 (Some "data:c"%string);
     Database.mkImageRow 5 1 "gone.jpg" "gone.jpg" 10 5 1 (Some "data:gone"%string)]
    2 5.

Definition resumedShared : App.AppState :=
  App.mkApp [] 0 "5x5" false true None true None 0
            (Database.mkStore (Some sharedDb) (Some sharedDb)) [].

End Samples.

(* ===================================================================== *)
(** ** utils/fileSystem.ts: scanning a folder                             *)
(* ===================================================================== *)

Module Scan.

Import FileSystem.

Definition IMAGE_EXTENSIONS : list string :=
  ["jpg"; "jpeg"; "png"; "gif"; "webp"; "bmp"]%string.

(** [s.split(sep)] for a one-character separator: the pieces between
    the separators, at least one. *)
Fixpoint split (sep : Ascii.ascii) (s : string) : list string :=
  match s with
  | EmptyString => [EmptyString]
  | String c s' =>
      if decide (c = sep) then EmptyString :: split sep s'
      else
        match split sep s' with
        | piece :: pieces => String c piece :: pieces
        | [] => [String c EmptyString]
        end
  end.

(** [toLowerCase] on the letters A-Z; file names are taken as ASCII. *)
Definition lowerChar (c : Ascii.ascii) : Ascii.ascii :=
  let n := Ascii.nat_of_ascii c in
  if ((65 <=? n) && (n <=? 90))%nat then Ascii.ascii_of_nat (n + 32) else c.

Fixpoint toLowerCase (s : string) : string :=
  match s with
  | EmptyString => EmptyString
  | String c s' => String (lowerChar c) (toLowerCase s')
  end.

(** [fileName.split('.').pop()?.toLowerCase()], then
    [ext ? IMAGE_EXTENSIONS.includes(ext) : false]. *)
Definition isImageFile (fileName : string) : bool :=
  match last (split "."%char fileName) with
  | Some piece =>
      let ext := toLowerCase piece in
      if decide (ext = EmptyString) then false
      else bool_decide (ext ∈ IMAGE_EXTENSIONS)
  | None => false
  end.

Inductive EntryKind := KindFile | KindDirectory.

(** What [entry.getFile()] resolves to. *)
Record FileInfo := mkFileInfo {
  file_size : Z;
  file_lastModified : Z
}.

(** One value of [dirHandle.values()]; [getFile] is [None] when the read
    is rejected. *)
Record DirEntry := mkDirEntry {
  kind : EntryKind;
  name : string;
  handle : FileHandle;
  getFile : option FileInfo
}.

(** The object pushed for an image entry; the template literal prints
    the integer timestamp in decimal. *)
Definition itemOf (entry : DirEntry) (file : FileInfo) : ImageItem :=
  mkImageItem (name entry ++ "-" ++ pretty (file_lastModified file))
              (handle entry) (name entry) (name entry) (file_size file)
              None None (file_lastModified file) false.

Definition isImageEntry (entry : DirEntry) : bool :=
  match kind entry with
  | KindFile => isImageFile (name entry)
  | KindDirectory => false
  end.

(** The async iterator [dirHandle.values()]: it yields entries one by
    one and then either ends or rejects (the directory can no longer be
    read). *)
Inductive Listing :=
| Done
| Rejected
| Yield (entry : DirEntry) (rest : Listing).

(** The [for await] loop: [None] when the iterator or a [getFile()] is
    rejected. *)
Fixpoint collect (values : Listing) : option (list ImageItem) :=
  match values with
  | Done => Some []
  | Rejected => None
  | Yield entry rest =>
      if isImageEntry entry then
        match getFile entry with
        | None => None
        | Some file => cons (itemOf entry file) <$> collect rest
        end
      else collect rest
  end.

(** [Array.prototype.sort] with a consistent comparator is a stable
    sort; [le a b] stands for [a.localeCompare(b) <= 0]. *)
Fixpoint insertSorted (le : string -> string -> bool) (x : ImageItem)
    (l : list ImageItem) : list ImageItem :=
  match l with
  | [] => [x]
  | y :: l' =>
      if le (fileName x) (fileName y) then x :: y :: l'
      else y :: insertSorted le x l'
  end.

Definition sortByName (le : string -> string -> bool) (l : list ImageItem) : list ImageItem :=
  foldr (insertSorted le) [] l.

Definition scanFolder (le : string -> string -> bool) (values : Listing)
    : option (list ImageItem) :=
  sortByName le <$> collect values.

(** *** Vocabulary *)

(** The entries a listing yields, and whether it ends without
    rejecting. *)
Fixpoint yielded (values : Listing) : list DirEntry :=
  match values with
  | Done | Rejected => []
  | Yield entry rest => entry :: yielded rest
  end.

Fixpoint completes (values : Listing) : bool :=
  match values with
  | Done => true
  | Rejected => false
  | Yield _ rest => completes rest
  end.

(** The listing that yields [entries] and then ends ([ok]) or
    rejects. *)
Definition listing (entries : list DirEntry) (ok : bool) : Listing :=
  foldr Yield (if ok then Done else Rejected) entries.

(** The string holds no ['.']. *)
Fixpoint noDot (s : string) : Prop :=
  match s with
  | EmptyString => True
  | String c s' => c <> "."%char /\ noDot s'
  end.

(** The export's effects that wrote a file, and its progress calls. *)
Definition copiedNames (tr : list Effect) : list string :=
  omap (fun e => match e with Copied n => Some n | _ => None end) tr.

Definition progressCalls (tr : list Effect) : list (nat * nat) :=
  omap (fun e => match e with Progress i n => Some (i, n) | _ => None end) tr.

Definition copies (env : ExportEnv) (image : ImageItem) : bool :=
  match copyFile env (fileHandle image) (fileName image) with
  | None => true
  | Some _ => false
  end.

(** A progress callback that throws [e] on every call. *)
Definition throwing (e : Js.Thrown) : ProgressCallback := Some (fun _ _ => Some e).

End Scan.

Module ScanSamples.

Import FileSystem Scan.

(** A folder with two pictures, a text file, a sub-directory whose name
    ends in .png, and an unreadable file that is not an image. *)
Definition mixedFolder : list DirEntry :=
  [ mkDirEntry KindFile "B.PNG" 1%nat (Some (mkFileInfo 20 7));
    mkDirEntry KindFile "notes.txt" 2%nat (Some (mkFileInfo 5 8));
    mkDirEntry KindDirectory "old.png" 3%nat None;
    mkDirEntry KindFile "locked.doc" 4%nat None;
    mkDirEntry KindFile "a.jpg" 5%nat (Some (mkFileInfo 10 9)) ].

(** [a.localeCompare(b) <= 0] on names like the ones above, which
    differ in a letter: letters compare without regard to case, so
    a.jpg comes before B.PNG (byte order would put B.PNG first). *)
Definition ignoringCase (a b : string) : bool :=
  String.leb (toLowerCase a) (toLowerCase b).

End ScanSamples.

(* ===================================================================== *)
(** ** Vocabulary for the component's further properties                  *)
(* ===================================================================== *)

Module AppProps.

Import FileSystem App.

(** The [switch] case an arrow key selects. *)
Definition arrowCase (key : Key) (st : AppState) : Z * option Z :=
  match key with
  | ArrowUp => arrowUp st
  | ArrowDown => arrowDown st
  | ArrowLeft => arrowLeft st
  | _ => arrowRight st
  end.

(** The displayed page exists. *)
Definition pageInRange (st : AppState) : Prop :=
  0 <= currentPage st < totalPages st.

(** Two items that differ at most in [fullResUrl]. *)
Definition sameButFullRes (a b : ImageItem) : Prop :=
  id a = id b /\ fileHandle a = fileHandle b /\ fileName a = fileName b /\
  path a = path b /\ size a = size b /\ thumbnailUrl a = thumbnailUrl b /\
  lastModified a = lastModified b /\ selected a = selected b.

(** [closure] and [cur] hold the same items up to [fullResUrl], and [cur]
    has a URL wherever [closure] has one. *)
Definition ahead (closure cur : list ImageItem) : Prop :=
  Forall2 (fun c u => sameButFullRes c u /\
                      (Js.truthy (fullResUrl c) = true ->
                       Js.truthy (fullResUrl u) = true)) closure cur.

(** Where the lightbox goes from position [i] of [len] items. *)
Definition lightboxTarget (direction : Direction) (i len : nat) : nat :=
  match direction with
  | Prev => if (0 <? i)%nat then (i - 1)%nat else i
  | Next => if (S i <? len)%nat then S i else i
  end.

(** Positions [j] and [i] are equal or adjacent. *)
Definition near (i j : nat) : Prop := j = i \/ S j = i \/ j = S i.

(** Every file can be read and gets a non-empty URL. *)
Definition allReadable (createObjectURL : FileHandle -> option string) : Prop :=
  forall h, exists url, createObjectURL h = Some url /\ url <> ""%string.

(** The rows of session [sid] mirror the item list: same paths in the
    same order, and the stored flag equal to the item's [selected]. *)
Definition synced (sid : Z) (d : Database.Db) (imgs : list ImageItem) : Prop :=
  Forall2 (fun r img =>
             Database.row_filePath r = path img /\
             (Database.row_selected r =? 1) = selected img)
          (Database.sessionRows sid d) imgs.

(** What the store writes of one selection toggle do to a row: for
    each item with id [x], in list order, the row update
    [updateImageSelection] makes for it. *)
Definition toggleWrites (sid : Z) (x : string) (l : list ImageItem)
    (r : Database.ImageRow) : Database.ImageRow :=
  foldl (fun r img =>
           if bool_decide (id img = x)
           then Database.setSelection sid (path img) (negb (selected img)) r
           else r) r l.

(** No image row belongs to a session id the counter has not reached. *)
Definition imageOwnersBounded (d : Database.Db) : Prop :=
  forall r, r ∈ Database.images d ->
            Database.row_sessionId r <= Database.sessions_seq d.

End AppProps.

(* ===================================================================== *)
(** ** Vocabulary for the store's round trips                             *)
(* ===================================================================== *)

Module StoreProps.

Import Database.

(** AUTOINCREMENT keeps the counter at or above every id in the table. *)
Definition sessionIdsBounded (d : Db) : Prop :=
  forall s, s ∈ sessions d -> id s <= sessions_seq d.

(** The order of [ORDER BY file_name] on the returned objects. *)
Definition byName (a b : SavedImage) : Prop :=
  String.leb (fileName a) (fileName b) = true.

(** A page reload: the module variable is reset, then [initDatabase]
    runs again. *)
Definition reload : M Db := bind closeDatabase (fun _ => initDatabase).

(** A returned image object with its [selected] replaced when its path
    is [path]. *)
Definition withSelection (path : string) (sel : bool) (sv : SavedImage) : SavedImage :=
  if decide (filePath sv = path)
  then mkSavedImage (sv_id sv) (sv_sessionId sv) (fileName sv) (filePath sv)
                    (size sv) (lastModified sv) sel (thumbnailData sv)
  else sv.

(** A returned image object with its [thumbnailData] replaced when its
    path is [path]. *)
Definition withThumbnail (path data : string) (sv : SavedImage) : SavedImage :=
  if decide (filePath sv = path)
  then mkSavedImage (sv_id sv) (sv_sessionId sv) (fileName sv) (filePath sv)
                    (size sv) (lastModified sv) (selected sv) (Some data)
  else sv.

(** The object [getSessionImages] returns for an image saved with
    [saveImage] under row id [rowId]. *)
Definition savedAs (rowId sessionId : Z) (image : NewImage) : SavedImage :=
  mkSavedImage rowId sessionId (ni_fileName image) (ni_filePath image)
               (ni_size image) (ni_lastModified image) (ni_selected image)
               (Js.or_undefined (ni_thumbnailData image)).

End StoreProps.

(* ===================================================================== *)
(** ** Store: calls before and after initialisation                       *)
(* ===================================================================== *)

Section StoreFacts.

Import Database StoreApi.


Lemma getDatabase_open (st : Store) (d : Db) :
  db st = Some d -> getDatabase st = (Ok d, st).
Proof. intros H. unfold getDatabase. now rewrite H. Qed.


Lemma run_open (f : Db -> Db) (st : Store) (d : Db) :
  db st = Some d -> run f st = (Ok tt, mkStore (Some (f d)) (idb st)).
Proof. intros H. unfold run. now rewrite H. Qed.






End StoreFacts.

(* ===================================================================== *)
(** ** Bulk export                                                        *)
(* ===================================================================== *)

Section ExportFacts.

Import FileSystem.

Lemma selectedOf_nil (images : list ImageItem) :
  (forall img, img ∈ images -> selected img = false) -> selectedOf images = [].
Proof.
  intros H. unfold selectedOf. induction images as [|a l IH]; [reflexivity|].
  rewrite filter_cons. destruct (decide (selected a = true)) as [Ha|Ha].
  - rewrite (H a) in Ha by constructor. discriminate Ha.
  - apply IH. intros img Hin. apply H. now constructor.
Qed.

(** C8: when no item of the list is selected, the export is rejected
    with "No images selected" and has performed no effect at all; in
    particular the destination picker was never opened. *)
Theorem export_without_selection_fails_before_prompt
    (env : ExportEnv) (images : list ImageItem) (onProgress : ProgressCallback) :
  (forall img, img ∈ images -> selected img = false) ->
  exportSelectedImages env images onProgress
    = (inl (Some "No images selected"%string), []) /\
  PromptDestination ∉ snd (exportSelectedImages env images onProgress).
Proof.
  intros H. unfold exportSelectedImages.
  fold (selectedOf images). rewrite (selectedOf_nil images H). cbn.
  split; [reflexivity | apply not_elem_of_nil].
Qed.

Lemma export_without_selection_fails_before_prompt_witness :
  exportSelectedImages Samples.oneUnreadable (Samples.items 3) Samples.setExportProgress
    = (inl (Some "No images selected"%string), []).
Proof.
  refine (proj1 (export_without_selection_fails_before_prompt
                   Samples.oneUnreadable (Samples.items 3) Samples.setExportProgress _)).
  intros img Hin. unfold Samples.items in Hin. cbn in Hin.
  repeat (apply elem_of_cons in Hin as [->|Hin]; [reflexivity|]).
  now apply elem_of_nil in Hin.
Defined.

(** One iteration with a callback that returns normally adds exactly one
    to [success] or to [failed], and one message in the second case. *)
Lemma exportOne_quiet (env : ExportEnv) (onProgress : ProgressCallback)
    (total i : nat) (image : ImageItem) (acc : ExportResult * list Effect) :
  quiet onProgress ->
  let r := fst acc in
  let r' := fst (exportOne env onProgress total i image acc) in
  match copyError env image with
  | Some msg =>
      success r' = success r /\ failed r' = S (failed r) /\
      errors r' = errors r ++ [msg]
  | None =>
      success r' = S (success r) /\ failed r' = failed r /\
      errors r' = errors r
  end.
Proof.
  intros Hq. destruct acc as [r tr]. unfold exportOne, copyError. cbn.
  destruct (copyFile env (fileHandle image) (fileName image)) as [e|]; cbn.
  - auto.
  - destruct onProgress as [cb|]; cbn; [|auto].
    rewrite (Hq cb (S i) total eq_refl). cbn. auto.
Qed.

Lemma exportLoop_quiet (env : ExportEnv) (onProgress : ProgressCallback)
    (total : nat) (rest : list ImageItem) :
  quiet onProgress ->
  forall (i : nat) (acc : ExportResult * list Effect),
    let r := fst acc in
    let r' := fst (exportLoop env onProgress total i rest acc) in
    (success r' + failed r' = success r + failed r + length rest)%nat /\
    errors r' = errors r ++ omap (copyError env) rest /\
    (failed r' = failed r + length (omap (copyError env) rest))%nat.
Proof.
  intros Hq. induction rest as [|image rest IH]; intros i acc; cbn.
  - rewrite app_nil_r. repeat split; lia.
  - specialize (IH (S i) (exportOne env onProgress total i image acc)).
    cbn in IH. destruct IH as (IH1 & IH2 & IH3).
    pose proof (exportOne_quiet env onProgress total i image acc Hq) as H1.
    cbn in H1. rewrite IH1, IH2, IH3.
    destruct (copyError env image) as [msg|];
      destruct H1 as (Hs & Hf & He); rewrite Hs, Hf, He; cbn.
    + rewrite <- app_assoc. cbn. repeat split; lia.
    + repeat split; lia.
Qed.

(** C9 (as amended): with a destination granted, at least one item
    selected and a progress callback that returns normally (or none),
    the export returns a result (no per-item failure rejects it), and in
    that result [success + failed] is the number of selected items,
    [errors] holds exactly the messages of the items whose copy failed,
    in order, one per failed item. *)
Theorem export_aggregates_item_failures
    (env : ExportEnv) (images : list ImageItem) (onProgress : ProgressCallback)
    (destination : string) :
  quiet onProgress ->
  showDirectoryPicker env = inr destination ->
  selectedOf images <> [] ->
  exists r tr,
    exportSelectedImages env images onProgress = (inr r, tr) /\
    (success r + failed r = length (selectedOf images))%nat /\
    errors r = omap (copyError env) (selectedOf images) /\
    length (errors r) = failed r.
Proof.
  intros Hq Hpick Hne. unfold exportSelectedImages. fold (selectedOf images).
  destruct (selectedOf images) as [|a l] eqn:Hsel; [congruence|].
  rewrite Hpick.
  change ((length (a :: l) =? 0)%nat) with false. cbv iota.
  pose proof (exportLoop_quiet env onProgress (length (a :: l)) (a :: l) Hq 0%nat
                (mkExportResult 0 0 [], [PromptDestination])) as H.
  cbn [fst success failed errors] in H.
  destruct (exportLoop env onProgress (length (a :: l)) 0 (a :: l)
              (mkExportResult 0 0 [], [PromptDestination])) as [r tr].
  cbn [fst] in H. destruct H as (H1 & H2 & H3).
  exists r, tr. split; [reflexivity|].
  rewrite H2. cbn [app]. repeat split; [lia | lia].
Qed.

(** Three selected items, the source of the second unreadable: two
    copied, one failed, one message. *)
Lemma export_aggregates_item_failures_witness :
  exists r tr,
    exportSelectedImages Samples.oneUnreadable
      [Samples.selectedItem 0; Samples.selectedItem 1; Samples.item 7; Samples.selectedItem 2]
      Samples.setExportProgress = (inr r, tr) /\
    success r = 2%nat /\ failed r = 1%nat /\
    errors r = ["Failed to copy 1: read failed"%string].
Proof.
  destruct (export_aggregates_item_failures Samples.oneUnreadable
              [Samples.selectedItem 0; Samples.selectedItem 1; Samples.item 7;
               Samples.selectedItem 2]
              Samples.setExportProgress "export"%string)
    as (r & tr & Hrun & Hsum & Herr & Hlen).
  - intros cb i n Hcb. injection Hcb as <-. reflexivity.
  - reflexivity.
  - discriminate.
  - exists r, tr. split; [exact Hrun|].
    assert (He : errors r = ["Failed to copy 1: read failed"%string])
      by (rewrite Herr; reflexivity).
    rewrite He in Hlen. cbn in Hlen.
    change (length (selectedOf _)) with 3%nat in Hsum.
    repeat split; [lia | lia | exact He].
Defined.

(** C9 (as stated) fails for a progress callback that throws: the call
    sits in the same [try] as the copy, after [success++]. Three
    selected items with one failing source read then give success = 2
    and failed = 3 with three messages, so [success + failed] is 5 for 3
    selected items. *)
Lemma export_counts_item_twice_when_callback_throws :
  exists r tr,
    exportSelectedImages Samples.oneUnreadable
      [Samples.selectedItem 0; Samples.selectedItem 1; Samples.selectedItem 2]
      (Scan.throwing (Some "progress failed"%string)) = (inr r, tr) /\
    success r = 2%nat /\ failed r = 3%nat /\
    errors r = ["Failed to copy 0: progress failed";
                "Failed to copy 1: read failed";
                "Failed to copy 2: progress failed"]%string /\
    (success r + failed r)%nat
      <> length (selectedOf [Samples.selectedItem 0; Samples.selectedItem 1;
                             Samples.selectedItem 2]).
Proof.
  do 2 eexists. split; [vm_compute; reflexivity|].
  cbn [success failed errors]. repeat split. vm_compute. discriminate.
Qed.

End ExportFacts.

(* ===================================================================== *)
(** ** Component state: what each handler leaves alone                    *)
(* ===================================================================== *)

Section AppFacts.

Import FileSystem App.

Lemma withSession_frame (op : Z -> Database.M unit) (st : AppState) :
  images (withSession op st) = images st /\
  currentPage (withSession op st) = currentPage st /\
  gridMode (withSession op st) = gridMode st /\
  focusedIndex (withSession op st) = focusedIndex st /\
  currentSessionId (withSession op st) = currentSessionId st /\
  dbInitialized (withSession op st) = dbInitialized st /\
  lightboxImageId (withSession op st) = lightboxImageId st.
Proof.
  unfold withSession. destruct (currentSessionId st) as [sid|] eqn:E; [|now rewrite E].
  destruct (Js.truthy_num (Some sid) && dbInitialized st); cbn; now rewrite ?E.
Qed.

Lemma setFocusedIndex_same (st : AppState) : setFocusedIndex (focusedIndex st) st = st.
Proof. now destruct st. Qed.

Lemma itemCount_images (st st' : AppState) :
  images st' = images st -> itemCount st' = itemCount st.
Proof. unfold itemCount. now intros ->. Qed.

Lemma applyPage_frame (p : option Z) (st : AppState) :
  images (applyPage p st) = images st /\
  focusedIndex (applyPage p st) = focusedIndex st.
Proof. now destruct p. Qed.

Lemma commitFocus_frame (now : Z) (closure : AppState) (newIndex : Z) (st : AppState) :
  images (commitFocus now closure newIndex st) = images st /\
  currentPage (commitFocus now closure newIndex st) = currentPage st /\
  focusedIndex (commitFocus now closure newIndex st)
    = (if (0 <=? newIndex) && (newIndex <? itemCount closure)
       then newIndex else focusedIndex st).
Proof.
  unfold commitFocus.
  destruct ((0 <=? newIndex) && (newIndex <? itemCount closure)); [|easy].
  destruct (negb (newIndex =? focusedIndex closure)); [|easy].
  pose proof (withSession_frame
    (fun sid => Database.updateSession sid (gridMode closure)
                  (currentPage closure) (Some newIndex) now)
    (setFocusedIndex newIndex st)) as (H1 & H2 & _ & H4 & _).
  now rewrite H1, H2, H4.
Qed.

(** What pressing an arrow key does: the page change of the case, then
    the guarded cursor update. *)
Lemma handleKeyDown_arrow (createObjectURL : FileHandle -> option string)
    (now : Z) (key : Key) (st : AppState) :
  isArrow key = true -> itemCount st <> 0 ->
  exists m : Z * option Z,
    handleKeyDown createObjectURL now key st
      = commitFocus now st (fst m) (applyPage (snd m) st).
Proof.
  intros Hk Hn. unfold handleKeyDown.
  destruct (itemCount st =? 0) eqn:E; [apply Z.eqb_eq in E; contradiction|].
  destruct key; try discriminate Hk; eauto.
Qed.

End AppFacts.

(* ===================================================================== *)
(** ** Selection toggle                                                   *)
(* ===================================================================== *)

Section SelectionFacts.

Import FileSystem App.

Lemma toggleIfId_twice (x : string) (img : ImageItem) :
  toggleIfId x (toggleIfId x img) = img.
Proof.
  unfold toggleIfId. destruct (bool_decide (id img = x)) eqn:E.
  - cbn [toggleSelected id]. rewrite E. destruct img. unfold toggleSelected. cbn.
    now rewrite negb_involutive.
  - now rewrite E.
Qed.

Lemma images_handleSelectImage (x : string) (st : AppState) :
  images (handleSelectImage x st) = map (toggleIfId x) (images st).
Proof. reflexivity. Qed.

(** C10: toggling the selection of an id twice gives back the original
    item list; one toggle keeps the length and the position of every
    item, negates [selected] on the items with that id and changes no
    other field of them and nothing in any other item. *)
Theorem toggle_selection_is_involution (x : string) (st : AppState) :
  images (handleSelectImage x (handleSelectImage x st)) = images st /\
  length (images (handleSelectImage x st)) = length (images st) /\
  forall (i : nat) (img : ImageItem),
    images st !! i = Some img ->
    exists m,
      images (handleSelectImage x st) !! i = Some m /\
      id m = id img /\ fileHandle m = fileHandle img /\
      fileName m = fileName img /\ path m = path img /\ size m = size img /\
      thumbnailUrl m = thumbnailUrl img /\ fullResUrl m = fullResUrl img /\
      lastModified m = lastModified img /\
      selected m = (if bool_decide (id img = x)
                    then negb (selected img) else selected img) /\
      (id img <> x -> m = img).
Proof.
  rewrite !images_handleSelectImage. split; [|split].
  - rewrite <- list_fmap_compose. rewrite <- (list_fmap_id (images st)) at 2.
    apply list_fmap_ext. intros i img _. apply toggleIfId_twice.
  - apply length_fmap.
  - intros i img Hi. exists (toggleIfId x img). split.
    + now rewrite list_lookup_fmap, Hi.
    + unfold toggleIfId. destruct (bool_decide (id img = x)) eqn:E; cbn.
      * apply bool_decide_eq_true in E. repeat split; congruence.
      * repeat split; reflexivity.
Qed.

(** Three items, the second toggled: it becomes selected, and a second
    toggle restores the list. *)
Lemma toggle_selection_is_involution_witness :
  images (handleSelectImage "1" (handleSelectImage "1" (Samples.viewing 3 "5x5" 0 0)))
    = images (Samples.viewing 3 "5x5" 0 0) /\
  exists m,
    images (handleSelectImage "1" (Samples.viewing 3 "5x5" 0 0)) !! 1%nat = Some m /\
    selected m = true /\ fileName m = "1"%string.
Proof.
  destruct (toggle_selection_is_involution "1" (Samples.viewing 3 "5x5" 0 0))
    as (Hback & _ & Hone).
  split; [exact Hback|].
  destruct (Hone 1%nat (Samples.item 1) eq_refl)
    as (m & Hm & _ & _ & Hname & _ & _ & _ & _ & _ & Hsel & _).
  exists m. split; [exact Hm|]. split; [rewrite Hsel; reflexivity | rewrite Hname; reflexivity].
Defined.

End SelectionFacts.

(* ===================================================================== *)
(** ** Grid navigation                                                    *)
(* ===================================================================== *)

Section NavigationFacts.

Import FileSystem App.

Lemma itemCount_nonempty (st : AppState) : images st <> [] -> itemCount st <> 0.
Proof. unfold itemCount. destruct (images st); [congruence | cbn; lia]. Qed.

(** C2: for a non-empty item list and a cursor in [0, itemCount), each
    of the four arrow keys, on any page and in any grid mode, leaves the
    item list as it is and the cursor in [0, itemCount). *)
Theorem arrow_key_keeps_focus_in_range
    (createObjectURL : FileHandle -> option string) (now : Z) (key : Key)
    (st : AppState) :
  isArrow key = true ->
  images st <> [] ->
  focusInRange st ->
  images (handleKeyDown createObjectURL now key st) = images st /\
  focusInRange (handleKeyDown createObjectURL now key st).
Proof.
  intros Hk Hne Hr.
  destruct (handleKeyDown_arrow createObjectURL now key st Hk
              (itemCount_nonempty st Hne)) as [m ->].
  destruct (commitFocus_frame now st (fst m) (applyPage (snd m) st)) as (Hi & _ & Hf).
  destruct (applyPage_frame (snd m) st) as (Hi' & Hf').
  rewrite Hi' in Hi. split; [exact Hi|].
  unfold focusInRange in *. rewrite (itemCount_images _ _ Hi), Hf, Hf'.
  destruct ((0 <=? fst m) && (fst m <? itemCount st)) eqn:E; [|exact Hr].
  apply andb_true_iff in E as [E1 E2]. lia.
Qed.

(** Bottom-right corner of the last, partly filled page of 70 items. *)
Lemma arrow_key_keeps_focus_in_range_witness :
  focusInRange (handleKeyDown Samples.blobOf 0 ArrowRight (Samples.viewing 70 "5x5" 2 69)).
Proof.
  refine (proj2 (arrow_key_keeps_focus_in_range Samples.blobOf 0 ArrowRight
                   (Samples.viewing 70 "5x5" 2 69) eq_refl _ _)).
  - discriminate.
  - unfold focusInRange. change (itemCount _) with 70. cbn. lia.
Defined.

Lemma grid_shape (mode : string) :
  (cols mode = 5 /\ rows mode = 5 /\ pageSize mode = 25) \/
  (cols mode = 6 /\ rows mode = 4 /\ pageSize mode = 24).
Proof. unfold cols, rows, pageSize. destruct (is5x5 mode); auto. Qed.

Lemma arrowUp_first_row (st : AppState) :
  inFirstRowOfFirstPage st -> arrowUp st = (focusedIndex st, None).
Proof.
  intros [Hp Hrow]. unfold arrowUp. rewrite Hrow, Hp. reflexivity.
Qed.

(** On the last page no item lies one row below the row of the last
    item. *)
Lemma nothing_below_last_item (st : AppState) :
  0 < itemCount st ->
  currentPage st = totalPages st - 1 ->
  startIdx st <= focusedIndex st < itemCount st ->
  rowOf (gridMode st) (focusedIndex st) = rowOf (gridMode st) (itemCount st - 1) ->
  itemCount st <= focusedIndex st + cols (gridMode st).
Proof.
  unfold rowOf, startIdx, totalPages, imagesPerPage, ceilDiv.
  destruct (grid_shape (gridMode st)) as [(Hc & Hr & Hs)|(Hc & Hr & Hs)];
    rewrite Hc, Hr, Hs; intros Hlen Hp Hf Hrow;
    [change (5 * 5) with 25 in Hrow | change (6 * 4) with 24 in Hrow];
    Z.to_euclidean_division_equations; lia.
Qed.

Lemma arrowDown_last_row (st : AppState) :
  0 < itemCount st -> inLastRowOfLastPage st -> arrowDown st = (focusedIndex st, None).
Proof.
  intros Hlen (Hp & Hrow). unfold arrowDown.
  assert (Hlast : (currentPage st <? totalPages st - 1) = false)
    by (apply Z.ltb_ge; lia).
  rewrite Hlast.
  assert (Hcond : (row st <? rows (gridMode st) - 1)
                  && (focusedIndex st + cols (gridMode st) <? itemCount st) = false).
  { apply andb_false_iff. destruct Hrow as [Hbottom|[Hf Hsame]].
    - left. apply Z.ltb_ge. lia.
    - right. apply Z.ltb_ge. now apply nothing_below_last_item. }
  rewrite Hcond. reflexivity.
Qed.

(** C5 (as amended): ArrowUp with the first page on display and the
    cursor in its first row, and ArrowDown with the last page on display
    and the cursor in its last row, change nothing: cursor, page and
    every other part of the state stay as they were, for any item count
    and any grid mode. *)
Theorem up_and_down_stop_at_the_grid_ends
    (createObjectURL : FileHandle -> option string) (now : Z) (st : AppState) :
  (inFirstRowOfFirstPage st ->
     handleKeyDown createObjectURL now ArrowUp st = st) /\
  (inLastRowOfLastPage st ->
     handleKeyDown createObjectURL now ArrowDown st = st).
Proof.
  split; intros H; unfold handleKeyDown;
    destruct (itemCount st =? 0) eqn:E; try reflexivity; apply Z.eqb_neq in E.
  - rewrite (arrowUp_first_row st H). cbn [fst snd applyPage]. unfold commitFocus.
    rewrite Z.eqb_refl. cbn [negb].
    destruct ((0 <=? focusedIndex st) && (focusedIndex st <? itemCount st));
      [apply setFocusedIndex_same | reflexivity].
  - assert (Hlen : 0 < itemCount st) by (unfold itemCount in *; lia).
    rewrite (arrowDown_last_row st Hlen H). cbn [fst snd applyPage]. unfold commitFocus.
    rewrite Z.eqb_refl. cbn [negb].
    destruct ((0 <=? focusedIndex st) && (focusedIndex st <? itemCount st));
      [apply setFocusedIndex_same | reflexivity].
Qed.

(** 70 items, 5x5: the cursor at index 2 on page 0 and at index 67 on
    the last page (rows 0..3 hold items there). *)
Lemma up_and_down_stop_at_the_grid_ends_witness :
  handleKeyDown Samples.blobOf 0 ArrowUp (Samples.viewing 70 "5x5" 0 2)
    = Samples.viewing 70 "5x5" 0 2 /\
  handleKeyDown Samples.blobOf 0 ArrowDown (Samples.viewing 70 "5x5" 2 67)
    = Samples.viewing 70 "5x5" 2 67.
Proof.
  split.
  - refine (proj1 (up_and_down_stop_at_the_grid_ends Samples.blobOf 0
                     (Samples.viewing 70 "5x5" 0 2)) _).
    split; reflexivity.
  - refine (proj2 (up_and_down_stop_at_the_grid_ends Samples.blobOf 0
                     (Samples.viewing 70 "5x5" 2 67)) _).
    split; [reflexivity | right].
    split; [change (itemCount _) with 70; change (startIdx _) with 50; cbn; lia
           | reflexivity].
Defined.

(** C5 (as stated) fails when the page on display is not the page of
    the cursor. After a click on Next the cursor is still on item 2, in
    the first row of the first page, and page 1 is displayed: ArrowUp
    moves the cursor to item 22 and the page to 0. After a click on
    Previous the cursor is still on item 67, in the last row of the last
    page (the row of the last item, 69), and page 1 is displayed:
    ArrowDown moves the cursor to item 52 and the page to 2. *)
Lemma up_and_down_move_cursor_when_another_page_is_displayed :
  (reachable Samples.blobOf (Samples.viewing 70 "5x5" 0 2) Samples.pagedAway /\
   focusedIndex Samples.pagedAway = 2 /\
   focusedIndex Samples.pagedAway / imagesPerPage Samples.pagedAway = 0 /\
   rowOf (gridMode Samples.pagedAway) (focusedIndex Samples.pagedAway) = 0 /\
   currentPage Samples.pagedAway = 1 /\
   focusedIndex (handleKeyDown Samples.blobOf 0 ArrowUp Samples.pagedAway) = 22 /\
   currentPage (handleKeyDown Samples.blobOf 0 ArrowUp Samples.pagedAway) = 0) /\
  (reachable Samples.blobOf (Samples.viewing 70 "5x5" 2 67) Samples.pagedBack /\
   focusedIndex Samples.pagedBack = 67 /\
   focusedIndex Samples.pagedBack / imagesPerPage Samples.pagedBack
     = totalPages Samples.pagedBack - 1 /\
   rowOf (gridMode Samples.pagedBack) (focusedIndex Samples.pagedBack)
     = rowOf (gridMode Samples.pagedBack) (itemCount Samples.pagedBack - 1) /\
   currentPage Samples.pagedBack = 1 /\
   focusedIndex (handleKeyDown Samples.blobOf 0 ArrowDown Samples.pagedBack) = 52 /\
   currentPage (handleKeyDown Samples.blobOf 0 ArrowDown Samples.pagedBack) = 2).
Proof.
  split.
  - split; [apply reach_step, reach_start|].
    repeat split; vm_compute; reflexivity.
  - split; [apply reach_step, reach_start|].
    repeat split; vm_compute; reflexivity.
Qed.

End NavigationFacts.

(* ===================================================================== *)
(** ** Grid-mode toggle                                                   *)
(* ===================================================================== *)

Section GridModeFacts.

Import FileSystem App.

(** C4 (as amended): toggling the grid mode switches between the 25- and
    the 24-per-page layout and resets [currentPage] to 0; the item list
    and [focusedIndex] are left exactly as they were, so a cursor that
    was in [0, itemCount) is still in [0, itemCount). *)
Theorem toggle_grid_mode_resets_page_keeps_focus (now : Z) (st : AppState) :
  currentPage (handleToggleGridMode now st) = 0 /\
  imagesPerPage (handleToggleGridMode now st)
    = (if is5x5 (gridMode st) then 24 else 25) /\
  images (handleToggleGridMode now st) = images st /\
  focusedIndex (handleToggleGridMode now st) = focusedIndex st /\
  (focusInRange st -> focusInRange (handleToggleGridMode now st)).
Proof.
  unfold handleToggleGridMode.
  set (newMode := if is5x5 (gridMode st) then "6x4"%string else "5x5"%string).
  destruct (withSession_frame
              (fun sid => Database.updateSession sid newMode 0 None now) st)
    as (Hi & _ & _ & Hf & _).
  assert (Hpp : pageSize newMode = if is5x5 (gridMode st) then 24 else 25)
    by (unfold newMode; destruct (is5x5 (gridMode st)); reflexivity).
  split; [reflexivity|]. split; [exact Hpp|].
  split; [exact Hi|]. split; [exact Hf|].
  unfold focusInRange, itemCount. cbn [images focusedIndex setCurrentPage setGridMode].
  now rewrite Hi, Hf.
Qed.

Lemma toggle_grid_mode_resets_page_keeps_focus_witness :
  focusInRange (handleToggleGridMode 0 (Samples.viewing 70 "5x5" 2 60)).
Proof.
  destruct (toggle_grid_mode_resets_page_keeps_focus 0 (Samples.viewing 70 "5x5" 2 60))
    as (_ & _ & _ & _ & H).
  apply H. unfold focusInRange. change (itemCount _) with 70. cbn. lia.
Defined.

(** C4 (as stated) fails. With 70 items in 5x5 mode, page 2 on display
    and the cursor on item 60 of that page, the toggle leaves the cursor
    on 60 while page 0 (items 0..23) is displayed. And a cursor that is
    beyond the item list before the toggle (60 with 10 items) is still
    beyond it afterwards: nothing recomputes it. *)
Lemma toggle_grid_mode_leaves_focus_off_page :
  focusOnDisplayedPage (Samples.viewing 70 "5x5" 2 60) /\
  currentPage (handleToggleGridMode 0 (Samples.viewing 70 "5x5" 2 60)) = 0 /\
  focusedIndex (handleToggleGridMode 0 (Samples.viewing 70 "5x5" 2 60)) = 60 /\
  ~ focusOnDisplayedPage (handleToggleGridMode 0 (Samples.viewing 70 "5x5" 2 60)) /\
  images (Samples.viewing 10 "5x5" 0 60) <> [] /\
  ~ focusInRange (handleToggleGridMode 0 (Samples.viewing 10 "5x5" 0 60)).
Proof.
  repeat split; try reflexivity; try discriminate.
  - intros [_ H]. revert H.
    change (endIdx _) with 24. change (focusedIndex _) with 60. lia.
  - unfold focusInRange.
    change (itemCount _) with 10. change (focusedIndex _) with 60. lia.
Qed.

End GridModeFacts.

(* ===================================================================== *)
(** ** Full-resolution cache                                              *)
(* ===================================================================== *)

Section FullResFacts.

Import FileSystem App.

(** A predicate that holds only at positions of a window of [n]
    consecutive indices selects at most [n] elements. *)
Lemma filter_length_window {A : Type} (P : A -> Prop) `{!forall x, Decision (P x)}
    (l : list A) :
  forall a n : nat,
    (forall i x, l !! i = Some x -> P x -> (a <= i < a + n)%nat) ->
    (length (filter P l) <= n)%nat.
Proof.
  induction l as [|x l IH]; intros a n Hwin; [cbn; lia|].
  rewrite filter_cons. destruct (decide (P x)) as [Hx|Hx].
  - pose proof (Hwin 0%nat x eq_refl Hx) as H0.
    cbn. specialize (IH 0%nat (n - 1)%nat).
    assert (length (filter P l) <= n - 1)%nat; [|lia].
    apply IH. intros i y Hi Hy. pose proof (Hwin (S i) y Hi Hy). lia.
  - destruct a as [|a].
    + destruct n as [|n].
      * apply (IH 0%nat 0%nat). intros i y Hi Hy. pose proof (Hwin (S i) y Hi Hy). lia.
      * assert (length (filter P l) <= n)%nat; [|lia].
        apply (IH 0%nat n). intros i y Hi Hy. pose proof (Hwin (S i) y Hi Hy). lia.
    + apply (IH a n). intros i y Hi Hy. pose proof (Hwin (S i) y Hi Hy). lia.
Qed.

Lemma release_keeps_only_window (st : AppState) (i : nat) (img : ImageItem) :
  Js.truthy (fullResUrl (release st i img)) = true ->
  imagePage st i ∈ pagesToKeep st.
Proof.
  unfold release, mustRelease.
  destruct (bool_decide (imagePage st i ∈ pagesToKeep st)) eqn:E.
  - intros _. now apply bool_decide_eq_true in E.
  - cbn [negb andb]. destruct (Js.truthy (fullResUrl img)) eqn:Et.
    + cbn. discriminate.
    + rewrite Et. discriminate.
Qed.

Lemma cleanupFullRes_frame (st : AppState) :
  currentPage (cleanupFullRes st) = currentPage st /\
  gridMode (cleanupFullRes st) = gridMode st /\
  length (images (cleanupFullRes st)) = length (images st).
Proof.
  unfold cleanupFullRes. destruct (itemCount st =? 0); [easy|].
  cbn. now rewrite length_imap.
Qed.

Lemma within_window_bounds (st : AppState) (i : nat) :
  imagePage st i ∈ pagesToKeep st ->
  (currentPage st - 1) * imagesPerPage st <= Z.of_nat i
    < (currentPage st - 1) * imagesPerPage st + 3 * imagesPerPage st.
Proof.
  unfold pagesToKeep, imagePage, imagesPerPage.
  rewrite !elem_of_union, !elem_of_singleton.
  destruct (grid_shape (gridMode st)) as [(_ & _ & ->)|(_ & _ & ->)];
    intros H; Z.to_euclidean_division_equations; lia.
Qed.

(** The cleanup effect establishes the window: afterwards every item
    that still holds a full-resolution URL lies on the previous, current
    or next page, which bounds their number by three pages. *)
Lemma cleanupFullRes_window (st : AppState) :
  fullResWithinWindow (cleanupFullRes st) /\
  Z.of_nat (fullResCount (cleanupFullRes st)) <= 3 * imagesPerPage (cleanupFullRes st).
Proof.
  assert (Hw : fullResWithinWindow (cleanupFullRes st)).
  { unfold fullResWithinWindow, cleanupFullRes.
    destruct (itemCount st =? 0) eqn:E.
    - apply Z.eqb_eq in E. unfold itemCount in E.
      destruct (images st) eqn:Hl; [|cbn in E; lia].
      intros i img Hi. now rewrite lookup_nil in Hi.
    - intros i img Hi Ht. cbn in Hi.
      rewrite list_lookup_imap in Hi.
      destruct (images st !! i) as [img0|]; [|discriminate Hi].
      cbn in Hi. injection Hi as <-.
      apply (release_keeps_only_window st i img0 Ht). }
  split; [exact Hw|].
  set (st' := cleanupFullRes st) in *.
  pose proof (filter_length_window
                (fun img => Js.truthy (fullResUrl img) = true) (images st')
                (Z.to_nat ((currentPage st' - 1) * imagesPerPage st'))
                (Z.to_nat (3 * imagesPerPage st'))) as Hlen.
  unfold fullResCount.
  assert (Hpp : 0 < imagesPerPage st')
    by (unfold imagesPerPage, pageSize; destruct (is5x5 (gridMode st')); lia).
  assert (length (filter (fun img => Js.truthy (fullResUrl img) = true) (images st'))
          <= Z.to_nat (3 * imagesPerPage st'))%nat; [|lia].
  apply Hlen. intros i img Hi Ht.
  pose proof (within_window_bounds st' i (Hw i img Hi Ht)). lia.
Qed.

(** A blob URL dropped by the cleanup is handed to
    [URL.revokeObjectURL]. *)
Lemma cleanupFullRes_revokes (st : AppState) (i : nat) (img : ImageItem) (url : string) :
  images st !! i = Some img ->
  fullResUrl img = Some url ->
  mustRelease st i img = true ->
  Js.startsWith "blob:" url = true ->
  url ∈ revoked (cleanupFullRes st).
Proof.
  intros Hi Hu Hm Hb. unfold cleanupFullRes.
  destruct (itemCount st =? 0) eqn:E.
  - apply Z.eqb_eq in E. unfold itemCount in E.
    destruct (images st); [now rewrite lookup_nil in Hi | cbn in E; lia].
  - cbn. apply elem_of_app. right. apply list_elem_of_omap.
    exists (Some url). split; [|reflexivity].
    apply elem_of_lookup_imap. exists i, img. split; [|exact Hi].
    unfold releasedBlob. now rewrite Hm, Hu, Hb.
Qed.

Lemma initFocusedIndex_frame (st : AppState) :
  currentPage (initFocusedIndex st) = currentPage st /\
  gridMode (initFocusedIndex st) = gridMode st /\
  images (initFocusedIndex st) = images st.
Proof. unfold initFocusedIndex. now destruct (_ && _ && _). Qed.

(** X25: whenever an event changes [currentPage], the state after that
    event has full-resolution URLs only on items whose page is the new
    previous, current or next page, hence at most three pages' worth of
    them: the release runs on every page change. *)
Theorem page_change_releases_full_res_outside_window
    (createObjectURL : FileHandle -> option string) (now : Z) (ev : Event)
    (st : AppState) :
  currentPage (step createObjectURL now ev st) <> currentPage st ->
  fullResWithinWindow (step createObjectURL now ev st) /\
  Z.of_nat (fullResCount (step createObjectURL now ev st))
    <= 3 * imagesPerPage (step createObjectURL now ev st).
Proof.
  unfold step, runEffects.
  set (after := dispatch createObjectURL now ev st).
  set (after1 := if negb (itemCount st =? itemCount after)
                 then initFocusedIndex after else after).
  destruct (negb (currentPage st =? currentPage after1)
            || negb (itemCount st =? itemCount after)
            || negb (imagesPerPage st =? imagesPerPage after1)) eqn:E.
  - intros _. apply cleanupFullRes_window.
  - intros H. exfalso. apply H.
    apply orb_false_iff in E as [E _]. apply orb_false_iff in E as [E _].
    apply negb_false_iff, Z.eqb_eq in E. congruence.
Qed.

End FullResFacts.

Section FullResExamples.

Import FileSystem App.

(** Items 0..2 of page 0 are cached while page 1 is shown; going to page
    2 releases them. *)
Lemma page_change_releases_full_res_outside_window_witness :
  fullResCount (Samples.browsing 100 3 "5x5" 1 25) = 3%nat /\
  fullResWithinWindow (step Samples.blobOf 0 ClickNext (Samples.browsing 100 3 "5x5" 1 25)) /\
  fullResCount (step Samples.blobOf 0 ClickNext (Samples.browsing 100 3 "5x5" 1 25)) = 0%nat.
Proof.
  split; [vm_compute; reflexivity|].
  split; [|vm_compute; reflexivity].
  refine (proj1 (page_change_releases_full_res_outside_window
                   Samples.blobOf 0 ClickNext (Samples.browsing 100 3 "5x5" 1 25) _)).
  vm_compute. discriminate.
Defined.

Lemma reachable_iter (createObjectURL : FileHandle -> option string)
    (now : Z) (ev : Event) (st0 st : AppState) (n : nat) :
  reachable createObjectURL st0 st ->
  reachable createObjectURL st0 (Nat.iter n (step createObjectURL now ev) st).
Proof.
  intros H. induction n as [|n IH]; [exact H|].
  cbn [Nat.iter]. now apply reach_step.
Qed.

(** C3: the code does not keep the window while the lightbox is
    walked. From 100 items on page 0 with nothing cached, a long press on
    the first thumbnail followed by 80 steps to the next image in the
    lightbox never changes [currentPage], so the cleanup effect never
    runs and nothing is released: items 0..81 hold a full-resolution
    URL, item 81 lies on page 3, outside the window of page 0, and 82
    URLs exceed three pages' worth (75). The keyboard handler of the
    grid switches the page when the cursor crosses a page end;
    [handleNavigateLightbox] moves the cursor only. *)
Lemma lightbox_navigation_escapes_window :
  reachable Samples.blobOf (Samples.viewing 100 "5x5" 0 0) (Samples.lightboxWalk 80) /\
  currentPage (Samples.lightboxWalk 80) = 0 /\
  fullResCount (Samples.lightboxWalk 80) = 82%nat /\
  3 * imagesPerPage (Samples.lightboxWalk 80)
    < Z.of_nat (fullResCount (Samples.lightboxWalk 80)) /\
  ~ fullResWithinWindow (Samples.lightboxWalk 80).
Proof.
  assert (Hpage : currentPage (Samples.lightboxWalk 80) = 0) by (vm_compute; reflexivity).
  assert (Hcount : fullResCount (Samples.lightboxWalk 80) = 82%nat)
    by (vm_compute; reflexivity).
  split; [apply reachable_iter, reach_step, reach_start|].
  split; [exact Hpage|]. split; [exact Hcount|].
  split; [rewrite Hcount; vm_compute; reflexivity|].
  intros Hw.
  assert (Hitem : exists img,
             images (Samples.lightboxWalk 80) !! 81%nat = Some img /\
             Js.truthy (fullResUrl img) = true).
  { eexists. split; vm_compute; reflexivity. }
  destruct Hitem as (img & Hi & Ht).
  pose proof (within_window_bounds _ _ (Hw 81%nat img Hi Ht)) as Hb.
  rewrite Hpage in Hb.
  change (imagesPerPage (Samples.lightboxWalk 80)) with 25 in Hb. lia.
Qed.

End FullResExamples.

(* ===================================================================== *)
(** ** Store: ORDER BY                                                     *)
(* ===================================================================== *)

Section OrderByFacts.

Import Database.

Lemma insertRow_Permutation {A : Type} (R : relation A) `{!RelDecision R}
    (x : A) (l : list A) :
  insertRow R x l ≡ₚ x :: l.
Proof.
  induction l as [|y l IH]; [reflexivity|]. cbn [insertRow].
  destruct (decide (R x y)); [reflexivity|].
  rewrite IH. apply perm_swap.
Qed.

Lemma orderBy_Permutation {A : Type} (R : relation A) `{!RelDecision R} (l : list A) :
  orderBy R l ≡ₚ l.
Proof.
  unfold orderBy. induction l as [|x l IH]; [reflexivity|].
  cbn [foldr]. now rewrite insertRow_Permutation, IH.
Qed.

Lemma insertRow_Sorted {A : Type} (R : relation A) `{!RelDecision R} `{!Total R}
    (x : A) (l : list A) :
  Sorted R l -> Sorted R (insertRow R x l).
Proof.
  induction l as [|y l IH]; intros Hs; cbn [insertRow].
  - repeat constructor.
  - destruct (decide (R x y)) as [Hxy|Hxy].
    + constructor; [exact Hs | now constructor].
    + apply Sorted_inv in Hs as [Hs Hhd].
      assert (Hyx : R y x) by (destruct (total R x y); [contradiction | assumption]).
      constructor; [now apply IH|].
      destruct l as [|z l]; cbn [insertRow].
      * now constructor.
      * apply HdRel_inv in Hhd. destruct (decide (R x z)); now constructor.
Qed.

Lemma orderBy_Sorted {A : Type} (R : relation A) `{!RelDecision R} `{!Total R}
    (l : list A) :
  Sorted R (orderBy R l).
Proof.
  unfold orderBy. induction l as [|x l IH]; cbn [foldr].
  - constructor.
  - now apply insertRow_Sorted.
Qed.

(** A row update that leaves the sort key alone does not move rows. *)
Lemma orderBy_fmap {A : Type} (R : relation A) `{!RelDecision R}
    (f : A -> A) (l : list A) :
  (forall a b, R (f a) (f b) <-> R a b) ->
  orderBy R (f <$> l) = f <$> orderBy R l.
Proof.
  intros Hf.
  assert (Hins : forall x m, insertRow R (f x) (f <$> m) = f <$> insertRow R x m).
  { intros x m. induction m as [|y m IH]; [reflexivity|].
    cbn [fmap list_fmap insertRow].
    destruct (decide (R (f x) (f y))) as [H1|H1], (decide (R x y)) as [H2|H2];
      try (exfalso; pose proof (Hf x y); tauto); cbn [fmap list_fmap].
    - reflexivity.
    - f_equal. exact IH. }
  unfold orderBy. induction l as [|x l IH]; [reflexivity|].
  cbn [fmap list_fmap foldr]. now rewrite IH, Hins.
Qed.

End OrderByFacts.

(* ===================================================================== *)
(** ** Reconciliation of a rescan with a saved session                    *)
(* ===================================================================== *)

Section ReconcileFacts.

Import FileSystem App.

(** [x || undefined] returns [x] itself unless [x] is the empty string. *)
Lemma or_undefined_nonempty (x : option string) :
  x <> Some ""%string -> Js.or_undefined x = x.
Proof.
  intros H. unfold Js.or_undefined. destruct x as [s|]; [|reflexivity].
  destruct (decide (s = ""%string)) as [->|_]; [contradiction | reflexivity].
Qed.

Lemma or_undefined_empty : Js.or_undefined (Some ""%string) = None.
Proof. reflexivity. Qed.

Lemma savedDataMap_fold (l : list Database.SavedImage) :
  forall (m : gmap string (bool * option string)) (k : string),
    foldl (fun m img =>
             <[Database.filePath img :=
                 (Database.selected img, Database.thumbnailData img)]> m) m l !! k
    = match last (filter (fun img => Database.filePath img = k) l) with
      | Some img => Some (Database.selected img, Database.thumbnailData img)
      | None => m !! k
      end.
Proof.
  induction l as [|a l IH]; intros m k; [reflexivity|].
  cbn [foldl]. rewrite IH, filter_cons.
  destruct (decide (Database.filePath a = k)) as [Ha|Ha].
  - rewrite last_cons.
    destruct (last (filter (fun img => Database.filePath img = k) l)); [reflexivity|].
    subst k. apply lookup_insert_eq.
  - destruct (last (filter (fun img => Database.filePath img = k) l)); [reflexivity|].
    now apply lookup_insert_ne.
Qed.

(** [savedDataMap.get(k)]: the data of the last saved row with path [k]. *)
Lemma savedDataMap_lookup (l : list Database.SavedImage) (k : string) :
  savedDataMap l !! k
  = (fun img => (Database.selected img, Database.thumbnailData img))
      <$> last (filter (fun img => Database.filePath img = k) l).
Proof.
  unfold savedDataMap. rewrite savedDataMap_fold.
  destruct (last _); [reflexivity | apply lookup_empty].
Qed.

Lemma savedDataMap_Some (l : list Database.SavedImage) (k : string)
    (d : bool * option string) :
  savedDataMap l !! k = Some d ->
  exists s, s ∈ l /\ Database.filePath s = k /\
            d = (Database.selected s, Database.thumbnailData s).
Proof.
  rewrite savedDataMap_lookup.
  destruct (last (filter (fun img => Database.filePath img = k) l)) as [s|] eqn:E;
    [|discriminate].
  intros [= <-]. apply last_Some_elem_of, list_elem_of_filter in E as [Hk Hs].
  eauto.
Qed.

Lemma savedDataMap_None (l : list Database.SavedImage) (k : string) :
  savedDataMap l !! k = None ->
  forall s, s ∈ l -> Database.filePath s <> k.
Proof.
  rewrite savedDataMap_lookup.
  destruct (last (filter (fun img => Database.filePath img = k) l)) as [s|] eqn:E;
    [discriminate|].
  intros _ s Hs Hk. apply last_None in E.
  assert (Hin : s ∈ filter (fun img => Database.filePath img = k) l)
    by (apply list_elem_of_filter; auto).
  rewrite E in Hin. now apply elem_of_nil in Hin.
Qed.

Lemma getSessionImages_open (sessionId : Z) (st : Database.Store) (d : Database.Db) :
  Database.db st = Some d ->
  Database.getSessionImages sessionId st
  = (Database.Ok (map Database.toSavedImage
                    (Database.orderBy Database.by_fileName (Database.sessionRows sessionId d))),
     st).
Proof.
  intros H. unfold Database.getSessionImages, Database.bind.
  now rewrite (getDatabase_open st d H).
Qed.

Lemma updateSession_open (sessionId : Z) (mode : string) (page : Z)
    (focused : option Z) (now : Z) (st : Database.Store) (d : Database.Db) :
  Database.db st = Some d ->
  Database.updateSession sessionId mode page focused now st
  = (Database.Ok tt,
     Database.mkStore
       (Some (Database.updateSessionRows sessionId mode page focused now d))
       (Some (Database.updateSessionRows sessionId mode page focused now d))).
Proof.
  intros H. destruct st as [o i]. cbn in H. subst o. reflexivity.
Qed.

(** A saved row is among the objects [getSessionImages] returns. *)
Lemma saved_rows (sessionId : Z) (d : Database.Db) (s : Database.SavedImage) :
  s ∈ map Database.toSavedImage
        (Database.orderBy Database.by_fileName (Database.sessionRows sessionId d))
  <-> exists r, r ∈ Database.sessionRows sessionId d /\ s = Database.toSavedImage r.
Proof.
  rewrite list_elem_of_fmap. split; intros (r & H1 & H2); exists r.
  - split; [|exact H1]. now rewrite orderBy_Permutation in H2.
  - split; [exact H2|]. now rewrite orderBy_Permutation.
Qed.

(** With a session found for the folder, [handleSelectFolder] takes the
    restore branch: the items are the merged scan, the store has the
    session row updated and is flushed. *)
Lemma handleSelectFolder_restores (st : AppState) (d : Database.Db)
    (es : Database.SessionRow) (folder : string) (scanned : list ImageItem) (now : Z) :
  isSupported st = true ->
  dbInitialized st = true ->
  Database.db (store st) = Some d ->
  fst (Database.findSessionByFolderName folder (store st)) = Database.Ok (Some es) ->
  images (handleSelectFolder (Some folder) (Some scanned) now st)
  = map (mergeImage
           (savedDataMap
              (map Database.toSavedImage
                 (Database.orderBy Database.by_fileName
                    (Database.sessionRows (Database.id es) d))))) scanned /\
  store (handleSelectFolder (Some folder) (Some scanned) now st)
  = (let d' := Database.updateSessionRows (Database.id es) (Database.gridMode es)
                 (Database.currentPage es) (Some (Database.focusedIndex es)) now d in
     Database.mkStore (Some d') (Some d')).
Proof.
  intros Hsup Hinit Hdb Hfind. unfold handleSelectFolder.
  rewrite Hsup, Hinit, Hfind. cbn [negb]. unfold restoreSession.
  cbn [store setFocusedIndex setCurrentPage setGridMode setCurrentSessionId setIsLoading].
  rewrite (getSessionImages_open _ _ d Hdb).
  cbn [store setImages].
  rewrite (updateSession_open _ _ _ _ _ _ d Hdb).
  split; reflexivity.
Qed.

(** What [mergeImage] gives an item, read off the saved rows. *)
Lemma mergeImage_saved (sessionId : Z) (d : Database.Db) (img : ImageItem) :
  let rows := Database.sessionRows sessionId d in
  let m := mergeImage
             (savedDataMap
                (map Database.toSavedImage (Database.orderBy Database.by_fileName rows))) img in
  (exists r, r ∈ rows /\ Database.row_filePath r = path img /\
             selected m = (Database.row_selected r =? 1) /\
             thumbnailUrl m = Js.or_undefined (Database.row_thumbnailData r))
  \/
  ((forall r, r ∈ rows -> Database.row_filePath r <> path img) /\
   selected m = false /\ thumbnailUrl m = None).
Proof.
  intros rows m. unfold m, mergeImage. cbn [selected thumbnailUrl].
  destruct (savedDataMap _ !! path img) as [data|] eqn:E.
  - left. apply savedDataMap_Some in E as (s & Hs & Hk & ->).
    apply saved_rows in Hs as (r & Hr & ->). exists r. cbn in *. auto.
  - right. split; [|split; reflexivity].
    intros r Hr Hk.
    apply (savedDataMap_None _ _ E (Database.toSavedImage r)); [|exact Hk].
    apply saved_rows. eauto.
Qed.

(** C1: selecting a folder for which a session exists merges the fresh
    scan with the saved rows of that session by path. The saved rows are
    the rows of the images table whose session id is the id of the
    session found; rows of other sessions play no part. The merged list
    has the scanned items in scan order, each with its scan-time fields.
    An item whose path occurs in the saved rows takes the selected flag
    and the thumbnail data of a saved row with that path (of the row
    with that path when there is just one); an item whose path occurs in
    no saved row is unselected and has no thumbnail. Thumbnail data is
    read with [|| undefined] ([or_undefined_nonempty]): it is carried
    over as it is, NULL and the empty string both meaning no
    thumbnail. *)
Theorem reconciliation_merges_saved_state_by_path
    (st : AppState) (d : Database.Db) (es : Database.SessionRow)
    (folder : string) (scanned : list ImageItem) (now : Z) :
  isSupported st = true ->
  dbInitialized st = true ->
  Database.db (store st) = Some d ->
  fst (Database.findSessionByFolderName folder (store st)) = Database.Ok (Some es) ->
  let st' := handleSelectFolder (Some folder) (Some scanned) now st in
  let saved := fun r : Database.ImageRow =>
                 r ∈ Database.images d /\
                 Database.row_sessionId r = Database.id es in
  length (images st') = length scanned /\
  forall (i : nat) (img : ImageItem),
    scanned !! i = Some img ->
    exists m,
      images st' !! i = Some m /\
      (id m = id img /\ fileHandle m = fileHandle img /\ fileName m = fileName img /\
       path m = path img /\ size m = size img /\ lastModified m = lastModified img) /\
      ((exists r, saved r /\ Database.row_filePath r = path img) ->
       exists r, saved r /\ Database.row_filePath r = path img /\
                 selected m = (Database.row_selected r =? 1) /\
                 thumbnailUrl m = Js.or_undefined (Database.row_thumbnailData r)) /\
      (forall r, saved r -> Database.row_filePath r = path img ->
         (forall r', saved r' -> Database.row_filePath r' = path img -> r' = r) ->
         selected m = (Database.row_selected r =? 1) /\
         thumbnailUrl m = Js.or_undefined (Database.row_thumbnailData r)) /\
      ((forall r, saved r -> Database.row_filePath r <> path img) ->
       selected m = false /\ thumbnailUrl m = None).
Proof.
  intros Hsup Hinit Hdb Hfind st' saved.
  assert (Hsaved : forall r, r ∈ Database.sessionRows (Database.id es) d <-> saved r).
  { intros r. unfold Database.sessionRows, saved.
    rewrite list_elem_of_filter. tauto. }
  destruct (handleSelectFolder_restores st d es folder scanned now Hsup Hinit Hdb Hfind)
    as [Himg _].
  fold st' in Himg. rewrite Himg. split; [apply length_fmap|].
  intros i img Hi. eexists. split; [rewrite list_lookup_fmap, Hi; reflexivity|].
  split; [repeat split|].
  destruct (mergeImage_saved (Database.id es) d img)
    as [(r & Hr & Hk & Hsel & Hth)|(Hnone & Hsel & Hth)].
  - apply Hsaved in Hr. split; [|split].
    + intros _. eauto.
    + intros r1 Hr1 Hk1 Huniq. rewrite <- (Huniq r Hr Hk). auto.
    + intros Hno. now destruct (Hno r Hr Hk).
  - split; [|split].
    + intros (r & Hr & Hk). apply Hsaved in Hr. now destruct (Hnone r Hr Hk).
    + intros r Hr Hk _. apply Hsaved in Hr. now destruct (Hnone r Hr Hk).
    + auto.
Qed.

(** The "holiday" session against the rescan, with the rows of the
    "archive" session in the same table: a.jpg comes back selected with
    the thumbnail of its holiday row, c.jpg (selected in the archive
    only) starts unselected without one. *)
Lemma reconciliation_merges_saved_state_by_path_witness :
  images (handleSelectFolder (Some "holiday"%string) (Some Samples.rescan) 300
            Samples.resumedShared)
  = [ mkImageItem "a.jpg-5" 0%nat "a.jpg" "a.jpg" 10 (Some "data:a"%string) None 5 true;
      mkImageItem "b.jpg-5" 0%nat "b.jpg" "b.jpg" 10 None None 5 false;
      mkImageItem "c.jpg-5" 0%nat "c.jpg" "c.jpg" 10 None None 5 false ] /\
  length (images (handleSelectFolder (Some "holiday"%string) (Some Samples.rescan) 300
                    Samples.resumedShared)) = length Samples.rescan.
Proof.
  split; [vm_compute; reflexivity|].
  exact (proj1 (reconciliation_merges_saved_state_by_path
                  Samples.resumedShared Samples.sharedDb
                  (Database.mkSessionRow 1 "holiday" 100 200 "5x5" 0 0)
                  "holiday"%string Samples.rescan 300
                  eq_refl eq_refl eq_refl eq_refl)).
Defined.

(** C6: reconciling against an existing session yields exactly the
    scanned paths, so a saved row whose path is absent from the scan has
    no item in the merged list; the store's image rows are the same
    after the step as before, in the open database and in the snapshot
    flushed to IndexedDB. *)
Theorem reconciliation_drops_missing_items_keeps_rows
    (st : AppState) (d : Database.Db) (es : Database.SessionRow)
    (folder : string) (scanned : list ImageItem) (now : Z) :
  isSupported st = true ->
  dbInitialized st = true ->
  Database.db (store st) = Some d ->
  fst (Database.findSessionByFolderName folder (store st)) = Database.Ok (Some es) ->
  let st' := handleSelectFolder (Some folder) (Some scanned) now st in
  map path (images st') = map path scanned /\
  (forall r, r ∈ Database.images d ->
     (forall img, img ∈ scanned -> path img <> Database.row_filePath r) ->
     forall m, m ∈ images st' -> path m <> Database.row_filePath r) /\
  exists d',
    Database.db (store st') = Some d' /\
    Database.idb (store st') = Some d' /\
    Database.images d' = Database.images d.
Proof.
  intros Hsup Hinit Hdb Hfind st'.
  destruct (handleSelectFolder_restores st d es folder scanned now Hsup Hinit Hdb Hfind)
    as [Himg Hst].
  fold st' in Himg, Hst.
  assert (Hpaths : map path (images st') = map path scanned).
  { rewrite Himg, <- list_fmap_compose. apply list_fmap_ext. now intros i x _. }
  split; [exact Hpaths|]. split.
  - intros r _ Habsent m Hm Hpath.
    assert (Hin : path m ∈ map path (images st'))
      by (apply list_elem_of_fmap; eauto).
    rewrite Hpaths in Hin. apply list_elem_of_fmap in Hin as (img & Heq & Himg').
    apply (Habsent img Himg'). congruence.
  - rewrite Hst. cbn. eauto.
Qed.

(** gone.jpg has a saved row and no file: it is not in the merged list,
    and its row is still in the store. *)
Lemma reconciliation_drops_missing_items_keeps_rows_witness :
  map path (images (handleSelectFolder (Some "holiday"%string) (Some Samples.rescan) 300
                      Samples.resumed))
  = ["a.jpg"; "b.jpg"; "c.jpg"]%string /\
  exists d',
    Database.db (store (handleSelectFolder (Some "holiday"%string) (Some Samples.rescan)
                          300 Samples.resumed)) = Some d' /\
    Database.images d' = Database.images Samples.holidayDb.
Proof.
  destruct (reconciliation_drops_missing_items_keeps_rows
              Samples.resumed Samples.holidayDb
              (Database.mkSessionRow 1 "holiday" 100 200 "5x5" 0 0)
              "holiday"%string Samples.rescan 300
              eq_refl eq_refl eq_refl eq_refl) as (Hp & _ & d' & Hd & _ & Hrows).
  split; [exact Hp | exists d'; split; assumption].
Defined.

End ReconcileFacts.

(* ===================================================================== *)
(** ** Store: what is written can be read back                            *)
(* ===================================================================== *)

Section StoreRoundTrips.

Import Database StoreProps.

Lemma by_lastAccessed_desc_trans : Transitive by_lastAccessed_desc.
Proof. intros a b c. unfold by_lastAccessed_desc. lia. Qed.

Lemma by_lastAccessed_desc_total : Total by_lastAccessed_desc.
Proof. intros a b. unfold by_lastAccessed_desc. lia. Qed.

Lemma by_fileName_total : Total by_fileName.
Proof. intros a b. unfold by_fileName. apply String.leb_total. Qed.

#[local] Existing Instances by_lastAccessed_desc_trans by_lastAccessed_desc_total
  by_fileName_total.

(** [getSessionImages] returns its objects ordered by file name. *)
Lemma sessionImages_Sorted (sid : Z) (d : Db) :
  Sorted byName (toSavedImage <$> orderBy by_fileName (sessionRows sid d)).
Proof.
  apply Sorted_fmap with (R1 := by_fileName).
  - intros a b Hab. exact Hab.
  - apply orderBy_Sorted. exact by_fileName_total.
Qed.

Lemma filter_none {A : Type} (P : A -> Prop) `{!forall x, Decision (P x)} (l : list A) :
  (forall x, x ∈ l -> ~ P x) -> filter P l = [].
Proof.
  induction l as [|a l IH]; intros Hn; [reflexivity|].
  rewrite filter_cons. destruct (decide (P a)) as [Ha|_].
  - exfalso. apply (Hn a); [constructor | exact Ha].
  - apply IH. intros x Hx. apply Hn. now constructor.
Qed.

Lemma filter_fmap_stable {A : Type} (P : A -> Prop) `{!forall x, Decision (P x)}
    (f : A -> A) (l : list A) :
  (forall x, P (f x) <-> P x) -> filter P (f <$> l) = f <$> filter P l.
Proof.
  intros Hf. induction l as [|a l IH]; [reflexivity|].
  cbn [fmap list_fmap]. rewrite !filter_cons.
  destruct (decide (P (f a))) as [H1|H1], (decide (P a)) as [H2|H2];
    try (exfalso; pose proof (Hf a); tauto);
    cbn [fmap list_fmap]; now rewrite IH.
Qed.

Lemma fmap_fixed {A : Type} (f : A -> A) (l : list A) :
  (forall x, x ∈ l -> f x = x) -> f <$> l = l.
Proof.
  induction l as [|a l IH]; intros Hf; [reflexivity|].
  cbn [fmap list_fmap]. rewrite (Hf a) by constructor.
  f_equal. apply IH. intros x Hx. apply Hf. now constructor.
Qed.

Lemma head_orderBy_None {A : Type} (R : relation A) `{!RelDecision R} (l : list A) :
  head (orderBy R l) = None <-> l = [].
Proof.
  split.
  - intros Hh. destruct (orderBy R l) as [|x m] eqn:E; [|discriminate].
    apply Permutation_nil_r. rewrite <- E. symmetry. apply orderBy_Permutation.
  - intros ->. reflexivity.
Qed.

(** The head of a sorted list is an element that precedes all others. *)
Lemma head_orderBy_Some {A : Type} (R : relation A) `{!RelDecision R}
    `{!Transitive R} `{!Total R} (l : list A) (x : A) :
  head (orderBy R l) = Some x ->
  x ∈ l /\ forall y, y ∈ l -> R x y.
Proof.
  intros Hh.
  assert (Hs : StronglySorted R (orderBy R l))
    by (apply Sorted_StronglySorted; [assumption | apply orderBy_Sorted; assumption]).
  pose proof (orderBy_Permutation R l) as Hp.
  destruct (orderBy R l) as [|x' m]; [discriminate|]. injection Hh as ->.
  split.
  - rewrite <- Hp. constructor.
  - intros y Hy. rewrite <- Hp in Hy. apply elem_of_cons in Hy as [->|Hy].
    + destruct (total R x x); assumption.
    + apply StronglySorted_inv in Hs as [_ Hall].
      rewrite Forall_forall in Hall. now apply Hall.
Qed.

Lemma getSession_open (k : Z) (st : Store) (d : Db) :
  db st = Some d ->
  getSession k st = (Ok (head (filter (fun s => id s = k) (sessions d))), st).
Proof.
  intros H. unfold getSession, bind. now rewrite (getDatabase_open st d H).
Qed.

(** X1: on an open store whose counter bounds the session ids,
    [createSession] returns the next id, [getSession] on that id returns
    the new row (given folder and grid mode, both timestamps [now], page 0,
    cursor 0), every other id reads as before, the image rows are
    untouched and the change is flushed to the snapshot. *)
Theorem createSession_then_getSession
    (st : Store) (d : Db) (folder mode : string) (now : Z) :
  db st = Some d ->
  sessionIdsBounded d ->
  exists st1 d1,
    createSession folder mode now st = (Ok (sessions_seq d + 1), st1) /\
    getSession (sessions_seq d + 1) st1
      = (Ok (Some (mkSessionRow (sessions_seq d + 1) folder now now mode 0 0)), st1) /\
    (forall k, k <> sessions_seq d + 1 ->
       fst (getSession k st1) = fst (getSession k st)) /\
    db st1 = Some d1 /\ idb st1 = Some d1 /\
    images d1 = images d /\ sessionIdsBounded d1.
Proof.
  intros Hdb Hb. destruct st as [o i]. cbn in Hdb. subst o.
  set (d1 := insertSession folder now mode d).
  exists (mkStore (Some d1) (Some d1)), d1.
  assert (Hfresh : filter (fun s => id s = sessions_seq d + 1) (sessions d) = []).
  { apply filter_none. intros s Hs Hid. specialize (Hb s Hs). lia. }
  split; [reflexivity|]. split.
  - rewrite (getSession_open _ (mkStore (Some d1) (Some d1)) d1 eq_refl).
    unfold d1, insertSession.
    cbn [sessions]. rewrite filter_app, Hfresh.
    rewrite filter_cons. cbn [id]. rewrite decide_True by reflexivity. reflexivity.
  - split.
    + intros k Hk.
      rewrite (getSession_open k (mkStore (Some d1) (Some d1)) d1 eq_refl),
        (getSession_open k (mkStore (Some d) i) d eq_refl).
      unfold d1, insertSession. cbn [sessions fst]. rewrite filter_app.
      rewrite filter_cons. cbn [id]. rewrite decide_False by congruence.
      now rewrite filter_nil, app_nil_r.
    + repeat split; try reflexivity.
      intros s Hs. unfold d1, insertSession in *. cbn [sessions sessions_seq] in *.
      apply elem_of_app in Hs as [Hs|Hs].
      * specialize (Hb s Hs). lia.
      * apply list_elem_of_singleton in Hs as ->. cbn. lia.
Qed.

Lemma createSession_then_getSession_witness :
  exists st1,
    createSession "trip" "6x4" 500 Samples.holidayStore = (Ok 2, st1) /\
    getSession 2 st1 = (Ok (Some (mkSessionRow 2 "trip" 500 500 "6x4" 0 0)), st1).
Proof.
  destruct (createSession_then_getSession Samples.holidayStore Samples.holidayDb
              "trip" "6x4" 500 eq_refl) as (st1 & d1 & H1 & H2 & _).
  - intros s Hs. apply list_elem_of_singleton in Hs as ->. cbn. lia.
  - exists st1. split; [exact H1 | exact H2].
Defined.

Lemma head_filter_holds {A : Type} (P : A -> Prop) `{!forall x, Decision (P x)}
    (l : list A) (x : A) :
  head (filter P l) = Some x -> P x /\ x ∈ l.
Proof.
  intros Hh. apply (list_elem_of_filter P l x).
  destruct (filter P l) as [|y m]; [discriminate|].
  injection Hh as ->. constructor.
Qed.

Lemma head_fmap_list {A B : Type} (f : A -> B) (l : list A) :
  head (f <$> l) = f <$> head l.
Proof. now destruct l. Qed.

(** X2: on an open store [findSessionByFolderName] never throws and
    leaves the store alone; it returns null exactly when no session has
    that folder name, and otherwise a stored session with that folder
    name whose last access is the latest among them. *)
Theorem findSessionByFolderName_returns_most_recent
    (st : Store) (d : Db) (folder : string) :
  db st = Some d ->
  exists o,
    findSessionByFolderName folder st = (Ok o, st) /\
    (o = None <-> forall s, s ∈ sessions d -> folderName s <> folder) /\
    (forall s, o = Some s ->
       s ∈ sessions d /\ folderName s = folder /\
       forall s', s' ∈ sessions d -> folderName s' = folder ->
                  lastAccessed s' <= lastAccessed s).
Proof.
  intros Hdb. unfold findSessionByFolderName, bind.
  rewrite (getDatabase_open st d Hdb). eexists. split; [reflexivity|]. split.
  - rewrite head_orderBy_None. split.
    + intros Hnil s Hs Hf.
      apply (filter_nil_not_elem_of _ _ s Hnil Hf Hs).
    + intros Hno. apply filter_none. intros s Hs Hf. now apply (Hno s).
  - intros s Hs.
    destruct (head_orderBy_Some by_lastAccessed_desc _ s Hs) as [Hin Hmax].
    apply list_elem_of_filter in Hin as [Hf Hin].
    split; [exact Hin|]. split; [exact Hf|].
    intros s' Hin' Hf'. apply (Hmax s'). apply list_elem_of_filter. now split.
Qed.

Lemma findSessionByFolderName_returns_most_recent_witness :
  findSessionByFolderName "holiday" Samples.holidayStore
    = (Ok (Some (mkSessionRow 1 "holiday" 100 200 "5x5" 0 0)), Samples.holidayStore) /\
  exists o, findSessionByFolderName "beach" Samples.holidayStore
            = (Ok o, Samples.holidayStore).
Proof.
  split; [reflexivity|].
  destruct (findSessionByFolderName_returns_most_recent
              Samples.holidayStore Samples.holidayDb "beach" eq_refl) as (o & H & _).
  now exists o.
Defined.

Lemma setSession_id (sid : Z) (mode : string) (page : Z) (focused : option Z)
    (now : Z) (s : SessionRow) :
  id (setSession sid mode page focused now s) = id s.
Proof. unfold setSession. destruct (id s =? sid), focused; reflexivity. Qed.

(** X3: after [updateSession] on an open store, [getSession] of the
    updated id returns the row with the new grid mode and page,
    [lastAccessed] set to [now], the cursor replaced when one was passed
    and kept when it was omitted, folder name and creation time kept;
    every other id, and an id with no session, read exactly as before.
    The image rows are untouched and the change is flushed. *)
Theorem updateSession_then_getSession
    (st : Store) (d : Db) (sid : Z) (mode : string) (page : Z)
    (focused : option Z) (now : Z) :
  db st = Some d ->
  exists st1 d1,
    updateSession sid mode page focused now st = (Ok tt, st1) /\
    (forall s, fst (getSession sid st) = Ok (Some s) ->
       fst (getSession sid st1)
       = Ok (Some (mkSessionRow sid (folderName s) (createdAt s) now mode page
                                (default (focusedIndex s) focused)))) /\
    (forall k, k <> sid -> fst (getSession k st1) = fst (getSession k st)) /\
    (fst (getSession sid st) = Ok None -> fst (getSession sid st1) = Ok None) /\
    db st1 = Some d1 /\ idb st1 = Some d1 /\ images d1 = images d.
Proof.
  intros Hdb. destruct st as [o i]. cbn in Hdb. subst o.
  set (d1 := updateSessionRows sid mode page focused now d).
  exists (mkStore (Some d1) (Some d1)), d1.
  assert (Hget : forall k,
            fst (getSession k (mkStore (Some d1) (Some d1)))
            = Ok (setSession sid mode page focused now
                    <$> head (filter (fun s => id s = k) (sessions d)))).
  { intros k. rewrite (getSession_open k (mkStore (Some d1) (Some d1)) d1 eq_refl).
    unfold d1, updateSessionRows. cbn [sessions fst].
    change (map ?f ?l) with (f <$> l).
    rewrite filter_fmap_stable by (intros x; now rewrite setSession_id).
    now rewrite head_fmap_list. }
  split; [reflexivity|]. split; [|split; [|split]].
  - intros s Hs. rewrite Hget.
    rewrite (getSession_open sid (mkStore (Some d) i) d eq_refl) in Hs.
    cbn [fst] in Hs. injection Hs as Hs. rewrite Hs. cbn [fmap option_fmap option_map].
    assert (Hid : id s = sid) by (now apply head_filter_holds in Hs as [Hs _]).
    unfold setSession. rewrite Hid, Z.eqb_refl. now destruct focused.
  - intros k Hk. rewrite Hget.
    rewrite (getSession_open k (mkStore (Some d) i) d eq_refl). cbn [fst].
    destruct (head (filter (fun s => id s = k) (sessions d))) as [s|] eqn:Hs;
      [|reflexivity].
    cbn [fmap option_fmap option_map].
    assert (Hid : id s = k) by (now apply head_filter_holds in Hs as [Hs _]).
    unfold setSession. rewrite Hid.
    destruct (k =? sid) eqn:E; [apply Z.eqb_eq in E; contradiction | reflexivity].
  - intros Hnone. rewrite Hget.
    rewrite (getSession_open sid (mkStore (Some d) i) d eq_refl) in Hnone.
    cbn [fst] in Hnone. injection Hnone as ->. reflexivity.
  - repeat split; reflexivity.
Qed.

(** The page moves to 3 in 6x4 mode, no cursor passed: the saved cursor
    stays. *)
Lemma updateSession_then_getSession_witness :
  fst (getSession 1 (snd (updateSession 1 "6x4" 3 None 900 Samples.holidayStore)))
  = Ok (Some (mkSessionRow 1 "holiday" 100 900 "6x4" 3 0)).
Proof.
  destruct (updateSession_then_getSession Samples.holidayStore Samples.holidayDb
              1 "6x4" 3 None 900 eq_refl) as (st1 & d1 & Hrun & Hsame & _).
  rewrite Hrun. cbn [snd].
  exact (Hsame (mkSessionRow 1 "holiday" 100 200 "5x5" 0 0) eq_refl).
Defined.

Lemma filter_filter_other (k sid : Z) (l : list SessionRow) :
  k <> sid ->
  filter (fun s => id s = k) (filter (fun s => id s <> sid) l)
  = filter (fun s => id s = k) l.
Proof.
  intros Hk. induction l as [|a l IH]; [reflexivity|].
  rewrite (filter_cons (fun s => id s <> sid)), (filter_cons (fun s => id s = k) a l).
  destruct (decide (id a <> sid)) as [Ha|Ha], (decide (id a = k)) as [Hb|Hb].
  - rewrite filter_cons, decide_True by assumption. now rewrite IH.
  - rewrite filter_cons, decide_False by assumption. exact IH.
  - exfalso. apply Ha. congruence.
  - exact IH.
Qed.

(** X4: after [deleteSession] on an open store the id reads as null and
    every other id reads as before. The call does not flush: the
    snapshot is as it was, so a reload right after it brings back the
    database of the last flush. *)
Theorem deleteSession_removes_session_without_flush
    (st : Store) (d : Db) (sid : Z) :
  db st = Some d ->
  exists st1,
    deleteSession sid st = (Ok tt, st1) /\
    fst (getSession sid st1) = Ok None /\
    (forall k, k <> sid -> fst (getSession k st1) = fst (getSession k st)) /\
    idb st1 = idb st /\
    (forall d0, idb st = Some d0 -> fst (reload st1) = Ok d0).
Proof.
  intros Hdb. destruct st as [o i]. cbn in Hdb. subst o.
  eexists. split; [reflexivity|]. split; [|split; [|split]].
  - cbn. f_equal. rewrite filter_none; [reflexivity|].
    intros s Hs Hid. apply list_elem_of_filter in Hs as [Hne _]. contradiction.
  - intros k Hk. cbn. now rewrite filter_filter_other.
  - reflexivity.
  - intros d0 Hd0. cbn in Hd0. subst i. reflexivity.
Qed.

Lemma deleteSession_removes_session_without_flush_witness :
  fst (getSession 1 (snd (deleteSession 1 Samples.holidayStore))) = Ok None /\
  fst (reload (snd (deleteSession 1 Samples.holidayStore))) = Ok Samples.holidayDb.
Proof.
  destruct (deleteSession_removes_session_without_flush
              Samples.holidayStore Samples.holidayDb 1 eq_refl)
    as (st1 & Hrun & Hgone & _ & _ & Hreload).
  rewrite Hrun. cbn [snd]. split; [exact Hgone | exact (Hreload _ eq_refl)].
Defined.

Lemma sessionRows_fmap (sid k : Z) (f : ImageRow -> ImageRow) (d d1 : Db) :
  images d1 = f <$> images d ->
  (forall r, row_sessionId (f r) = row_sessionId r) ->
  sessionRows k d1 = f <$> sessionRows k d.
Proof.
  intros Himg Hf. unfold sessionRows. rewrite Himg.
  apply filter_fmap_stable. intros r. now rewrite Hf.
Qed.

(** X5: [saveImage] on an open store adds one object to what
    [getSessionImages] returns for that session: the given fields, the
    given selected flag, the thumbnail with an empty string stored as
    none, under the next row id. [getSessionImages] returns its objects
    ordered by file name, before and after; the result after holds the
    objects returned before and the new one (which leaves open only the
    order among equal file names). Other sessions read exactly as
    before, and nothing is flushed. *)
Theorem saveImage_then_getSessionImages
    (st : Store) (d : Db) (sid : Z) (image : NewImage) :
  db st = Some d ->
  exists st1 l0 l1,
    saveImage sid image st = (Ok tt, st1) /\
    getSessionImages sid st = (Ok l0, st) /\
    getSessionImages sid st1 = (Ok l1, st1) /\
    l1 ≡ₚ l0 ++ [savedAs (images_seq d + 1) sid image] /\
    Sorted byName l0 /\ Sorted byName l1 /\
    (forall k, k <> sid ->
       fst (getSessionImages k st1) = fst (getSessionImages k st)) /\
    idb st1 = idb st.
Proof.
  intros Hdb. destruct st as [o i]. cbn in Hdb. subst o.
  set (d1 := insertImage sid image d).
  exists (mkStore (Some d1) i). do 2 eexists.
  split; [reflexivity|].
  split; [apply (getSessionImages_open sid (mkStore (Some d) i) d eq_refl)|].
  split; [apply (getSessionImages_open sid (mkStore (Some d1) i) d1 eq_refl)|].
  split; [|split; [apply sessionImages_Sorted|]; split; [apply sessionImages_Sorted|];
           split; [|reflexivity]].
  - change (map ?f ?k) with (f <$> k). rewrite !orderBy_Permutation.
    unfold sessionRows, d1, insertImage. cbn [images].
    rewrite filter_app, filter_cons. cbn [row_sessionId].
    rewrite decide_True by reflexivity. rewrite filter_nil, fmap_app.
    apply Permutation_app; [reflexivity|]. cbn.
    unfold toSavedImage, savedAs. cbn. now destruct (ni_selected image).
  - intros k Hk.
    rewrite (getSessionImages_open k (mkStore (Some d1) i) d1 eq_refl),
      (getSessionImages_open k (mkStore (Some d) i) d eq_refl).
    unfold sessionRows, d1, insertImage. cbn [images fst].
    rewrite filter_app, filter_cons. cbn [row_sessionId].
    rewrite decide_False by congruence. now rewrite filter_nil, app_nil_r.
Qed.

Lemma saveImage_then_getSessionImages_witness :
  exists l1,
    fst (getSessionImages 1
           (snd (saveImage 1 (mkNewImage "d.jpg" "d.jpg" 7 9 true (Some ""%string))
                           Samples.holidayStore))) = Ok l1 /\
    mkSavedImage 4 1 "d.jpg" "d.jpg" 7 9 true None ∈ l1 /\
    Sorted byName l1.
Proof.
  destruct (saveImage_then_getSessionImages Samples.holidayStore Samples.holidayDb 1
              (mkNewImage "d.jpg" "d.jpg" 7 9 true (Some ""%string)) eq_refl)
    as (st1 & l0 & l1 & Hrun & _ & Hget & Hperm & _ & Hsorted & _).
  exists l1. rewrite Hrun. cbn [snd]. rewrite Hget. split; [reflexivity|].
  split; [|exact Hsorted].
  rewrite Hperm. apply elem_of_app. right. constructor.
Defined.

Lemma toSavedImage_setSelection (sid : Z) (path : string) (sel : bool) (r : ImageRow) :
  row_sessionId r = sid ->
  toSavedImage (setSelection sid path sel r) = withSelection path sel (toSavedImage r).
Proof.
  intros Hs. unfold setSelection, withSelection. rewrite Hs, Z.eqb_refl.
  cbn [andb toSavedImage filePath].
  destruct (decide (row_filePath r = path)) as [Hp|Hp].
  - rewrite bool_decide_eq_true_2 by assumption. unfold toSavedImage. cbn.
    rewrite Hs. now destruct sel.
  - now rewrite bool_decide_eq_false_2 by assumption.
Qed.

Lemma toSavedImage_setThumbnail (sid : Z) (path data : string) (r : ImageRow) :
  row_sessionId r = sid ->
  toSavedImage (setThumbnail sid path data r) = withThumbnail path data (toSavedImage r).
Proof.
  intros Hs. unfold setThumbnail, withThumbnail. rewrite Hs, Z.eqb_refl.
  cbn [andb toSavedImage filePath].
  destruct (decide (row_filePath r = path)) as [Hp|Hp].
  - rewrite bool_decide_eq_true_2 by assumption. unfold toSavedImage. cbn.
    now rewrite Hs.
  - now rewrite bool_decide_eq_false_2 by assumption.
Qed.

(** What a row update that keeps every row in its session does to the
    result of [getSessionImages]: the objects of the updated session are
    transformed by [g], the other sessions read as before. *)
Lemma getSessionImages_after_row_update
    (sid : Z) (f : ImageRow -> ImageRow) (g : SavedImage -> SavedImage)
    (d d1 : Db) (i i1 : option Db) :
  images d1 = f <$> images d ->
  (forall r, row_sessionId (f r) = row_sessionId r) ->
  (forall r, row_fileName (f r) = row_fileName r) ->
  (forall r, row_sessionId r = sid -> toSavedImage (f r) = g (toSavedImage r)) ->
  (forall r, row_sessionId r <> sid -> f r = r) ->
  exists l0 l1,
    getSessionImages sid (mkStore (Some d) i) = (Ok l0, mkStore (Some d) i) /\
    getSessionImages sid (mkStore (Some d1) i1) = (Ok l1, mkStore (Some d1) i1) /\
    l1 = g <$> l0 /\
    (forall k, k <> sid ->
       fst (getSessionImages k (mkStore (Some d1) i1))
       = fst (getSessionImages k (mkStore (Some d) i))).
Proof.
  intros Himg Hkeep Hname Hg Hother. do 2 eexists.
  split; [apply (getSessionImages_open sid (mkStore (Some d) i) d eq_refl)|].
  split; [apply (getSessionImages_open sid (mkStore (Some d1) i1) d1 eq_refl)|].
  split.
  - change (map ?h ?k) with (h <$> k).
    rewrite (sessionRows_fmap sid sid f d d1 Himg Hkeep).
    rewrite (orderBy_fmap by_fileName f)
      by (intros a b; unfold by_fileName; now rewrite !Hname).
    rewrite <- !list_fmap_compose.
    apply list_fmap_ext. intros j r Hr. cbn. apply Hg.
    apply list_elem_of_lookup_2 in Hr.
    rewrite orderBy_Permutation in Hr.
    now apply list_elem_of_filter in Hr as [Hr _].
  - intros k Hk.
    rewrite (getSessionImages_open k (mkStore (Some d1) i1) d1 eq_refl),
      (getSessionImages_open k (mkStore (Some d) i) d eq_refl).
    cbn [fst]. rewrite (sessionRows_fmap sid k f d d1 Himg Hkeep).
    rewrite fmap_fixed; [reflexivity|].
    intros r Hr. apply Hother.
    apply list_elem_of_filter in Hr as [Hr _]. congruence.
Qed.

(** X6: [updateImageSelection] on an open store sets [selected] to the
    given value on every object of that session with that path and
    changes nothing else in what [getSessionImages] returns, for that
    session or any other: the same objects in the same order, those with
    the path carrying the new flag (with no such path, nothing changes);
    the sessions table is untouched and the change is flushed. *)
Theorem updateImageSelection_then_getSessionImages
    (st : Store) (d : Db) (sid : Z) (path : string) (sel : bool) :
  db st = Some d ->
  exists st1 d1 l0 l1,
    updateImageSelection sid path sel st = (Ok tt, st1) /\
    getSessionImages sid st = (Ok l0, st) /\
    getSessionImages sid st1 = (Ok l1, st1) /\
    l1 = withSelection path sel <$> l0 /\
    (forall k, k <> sid ->
       fst (getSessionImages k st1) = fst (getSessionImages k st)) /\
    db st1 = Some d1 /\ idb st1 = Some d1 /\ sessions d1 = sessions d.
Proof.
  intros Hdb. destruct st as [o i]. cbn in Hdb. subst o.
  set (d1 := mkDb (sessions d) (map (setSelection sid path sel) (images d))
                  (sessions_seq d) (images_seq d)).
  destruct (getSessionImages_after_row_update sid (setSelection sid path sel)
              (withSelection path sel) d d1 i (Some d1))
    as (l0 & l1 & H0 & H1 & Hp & Hk).
  - reflexivity.
  - intros r. unfold setSelection. now destruct (_ && _).
  - intros r. unfold setSelection. now destruct (_ && _).
  - intros r. apply toSavedImage_setSelection.
  - intros r Hr. unfold setSelection.
    destruct (row_sessionId r =? sid) eqn:E; [apply Z.eqb_eq in E; contradiction|].
    reflexivity.
  - exists (mkStore (Some d1) (Some d1)), d1, l0, l1.
    repeat split; try assumption; reflexivity.
Qed.

Lemma updateImageSelection_then_getSessionImages_witness :
  exists l1,
    fst (getSessionImages 1
           (snd (updateImageSelection 1 "b.jpg" true Samples.holidayStore))) = Ok l1 /\
    l1 = [ mkSavedImage 1 1 "a.jpg" "a.jpg" 10 5 true (Some "data:a"%string);
           mkSavedImage 2 1 "b.jpg" "b.jpg" 10 5 true None;
           mkSavedImage 3 1 "gone.jpg" "gone.jpg" 10 5 true (Some "data:gone"%string) ].
Proof.
  destruct (updateImageSelection_then_getSessionImages Samples.holidayStore
              Samples.holidayDb 1 "b.jpg" true eq_refl)
    as (st1 & d1 & l0 & l1 & Hrun & H0 & H1 & Heq & _).
  exists l1. rewrite Hrun. cbn [snd]. rewrite H1. split; [reflexivity|].
  rewrite Heq. injection H0 as <-. vm_compute. reflexivity.
Defined.

(** X7: [updateImageThumbnail] on an open store sets the thumbnail on
    every object of that session with that path and changes nothing else
    in what [getSessionImages] returns: the same objects in the same
    order, those with the path carrying the new thumbnail. It does not
    flush, the snapshot stays as it was. *)
Theorem updateImageThumbnail_then_getSessionImages
    (st : Store) (d : Db) (sid : Z) (path data : string) :
  db st = Some d ->
  exists st1 l0 l1,
    updateImageThumbnail sid path data st = (Ok tt, st1) /\
    getSessionImages sid st = (Ok l0, st) /\
    getSessionImages sid st1 = (Ok l1, st1) /\
    l1 = withThumbnail path data <$> l0 /\
    (forall k, k <> sid ->
       fst (getSessionImages k st1) = fst (getSessionImages k st)) /\
    idb st1 = idb st.
Proof.
  intros Hdb. destruct st as [o i]. cbn in Hdb. subst o.
  set (d1 := mkDb (sessions d) (map (setThumbnail sid path data) (images d))
                  (sessions_seq d) (images_seq d)).
  destruct (getSessionImages_after_row_update sid (setThumbnail sid path data)
              (withThumbnail path data) d d1 i i)
    as (l0 & l1 & H0 & H1 & Hp & Hk).
  - reflexivity.
  - intros r. unfold setThumbnail. now destruct (_ && _).
  - intros r. unfold setThumbnail. now destruct (_ && _).
  - intros r. apply toSavedImage_setThumbnail.
  - intros r Hr. unfold setThumbnail.
    destruct (row_sessionId r =? sid) eqn:E; [apply Z.eqb_eq in E; contradiction|].
    reflexivity.
  - exists (mkStore (Some d1) i), l0, l1.
    repeat split; try assumption; reflexivity.
Qed.

Lemma updateImageThumbnail_then_getSessionImages_witness :
  exists l1,
    fst (getSessionImages 1
           (snd (updateImageThumbnail 1 "b.jpg" "data:b" Samples.holidayStore))) = Ok l1 /\
    l1 = [ mkSavedImage 1 1 "a.jpg" "a.jpg" 10 5 true (Some "data:a"%string);
           mkSavedImage 2 1 "b.jpg" "b.jpg" 10 5 false (Some "data:b"%string);
           mkSavedImage 3 1 "gone.jpg" "gone.jpg" 10 5 true (Some "data:gone"%string) ].
Proof.
  destruct (updateImageThumbnail_then_getSessionImages Samples.holidayStore
              Samples.holidayDb 1 "b.jpg" "data:b" eq_refl)
    as (st1 & l0 & l1 & Hrun & H0 & H1 & Heq & _).
  exists l1. rewrite Hrun. cbn [snd]. rewrite H1. split; [reflexivity|].
  rewrite Heq. injection H0 as <-. vm_compute. reflexivity.
Defined.

(** X8: what a page reload gets back. After [saveImagesToDatabase], or
    after a call that flushes by itself ([updateImageSelection],
    [updateSession]), the reloaded database is the one that was open.
    After [updateImageThumbnail] or [saveImage] alone it is the previous
    snapshot: those writes reach the snapshot only through a later
    flush. *)
Theorem reload_returns_last_flushed_database (st : Store) (d : Db) :
  db st = Some d ->
  fst (reload (snd (saveImagesToDatabase st))) = Ok d /\
  (forall sid path sel,
     exists d1, db (snd (updateImageSelection sid path sel st)) = Some d1 /\
                fst (reload (snd (updateImageSelection sid path sel st))) = Ok d1) /\
  (forall sid mode page focused now,
     exists d1, db (snd (updateSession sid mode page focused now st)) = Some d1 /\
                fst (reload (snd (updateSession sid mode page focused now st))) = Ok d1) /\
  (forall d0 sid path data,
     idb st = Some d0 ->
     fst (reload (snd (updateImageThumbnail sid path data st))) = Ok d0 /\
     fst (reload (snd (saveImagesToDatabase
                         (snd (updateImageThumbnail sid path data st)))))
     = Ok (mkDb (sessions d) (map (setThumbnail sid path data) (images d))
                (sessions_seq d) (images_seq d))) /\
  (forall d0 sid image,
     idb st = Some d0 ->
     fst (reload (snd (saveImage sid image st))) = Ok d0).
Proof.
  intros Hdb. destruct st as [o i]. cbn in Hdb. subst o.
  split; [reflexivity|]. split; [intros; eexists; split; reflexivity|].
  split; [intros; eexists; split; reflexivity|].
  split; intros; cbn in *; subst i; [split|]; reflexivity.
Qed.

(** A thumbnail written to a store whose snapshot is up to date is gone
    after a reload, unless the store is flushed first. *)
Lemma reload_returns_last_flushed_database_witness :
  fst (reload (snd (updateImageThumbnail 1 "b.jpg" "data:b" Samples.holidayStore)))
    = Ok Samples.holidayDb /\
  fst (reload (snd (saveImagesToDatabase Samples.holidayStore))) = Ok Samples.holidayDb.
Proof.
  destruct (reload_returns_last_flushed_database Samples.holidayStore Samples.holidayDb
              eq_refl) as (Hflush & _ & _ & Hthumb & _).
  split; [|exact Hflush].
  exact (proj1 (Hthumb Samples.holidayDb 1 "b.jpg"%string "data:b"%string eq_refl)).
Defined.

(** X9: on an open store [getSelectedImages] returns exactly the objects
    of [getSessionImages] for the same session whose [selected] is
    true. *)
Theorem getSelectedImages_are_the_selected_session_images
    (st : Store) (d : Db) (sid : Z) :
  db st = Some d ->
  exists l ls,
    getSessionImages sid st = (Ok l, st) /\
    getSelectedImages sid st = (Ok ls, st) /\
    forall sv, sv ∈ ls <-> sv ∈ l /\ selected sv = true.
Proof.
  intros Hdb. do 2 eexists.
  split; [apply (getSessionImages_open sid st d Hdb)|].
  split; [unfold getSelectedImages, bind; now rewrite (getDatabase_open st d Hdb)|].
  intros sv. rewrite saved_rows. change (map ?f ?l) with (f <$> l).
  rewrite list_elem_of_fmap. split.
  - intros (r & -> & Hr). apply list_elem_of_filter in Hr as [[Hs Hsel] Hr].
    split; [|reflexivity]. exists r. split.
    + apply list_elem_of_filter. now split.
    + unfold toSelectedImage, toSavedImage. now rewrite Hsel.
  - intros [(r & Hr & ->) Hsel]. exists r.
    apply list_elem_of_filter in Hr as [Hs Hr].
    cbn in Hsel. apply Z.eqb_eq in Hsel. split.
    + unfold toSelectedImage, toSavedImage. now rewrite Hsel.
    + apply list_elem_of_filter. auto.
Qed.

Lemma getSelectedImages_are_the_selected_session_images_witness :
  exists ls,
    getSelectedImages 1 Samples.holidayStore = (Ok ls, Samples.holidayStore) /\
    length ls = 2%nat.
Proof.
  destruct (getSelectedImages_are_the_selected_session_images
              Samples.holidayStore Samples.holidayDb 1 eq_refl)
    as (l & ls & _ & Hsel & _).
  exists ls. split; [exact Hsel|]. injection Hsel as <-. reflexivity.
Defined.

End StoreRoundTrips.

(* ===================================================================== *)
(** ** Scanning a folder                                                  *)
(* ===================================================================== *)

Section ScanFacts.

Import FileSystem Scan.

Lemma split_noDot (s : string) : noDot s -> split "."%char s = [s].
Proof.
  induction s as [|c s IH]; intros Hn; [reflexivity|].
  destruct Hn as [Hc Hs]. cbn [split].
  rewrite decide_False by exact Hc. now rewrite (IH Hs).
Qed.

Lemma split_last_piece (base ext : string) :
  noDot ext ->
  exists piece pieces,
    split "."%char (base ++ "." ++ ext)%string = piece :: pieces ++ [ext].
Proof.
  intros Hn. induction base as [|c base (piece & pieces & IH)].
  - exists EmptyString, [].
    change (EmptyString ++ "." ++ ext)%string with (String "."%char ext).
    cbn [split]. rewrite decide_True by reflexivity.
    now rewrite (split_noDot ext Hn).
  - change (String c base ++ "." ++ ext)%string
      with (String c (base ++ "." ++ ext)%string).
    cbn [split]. rewrite IH.
    destruct (decide (c = "."%char)).
    + exists EmptyString, (piece :: pieces). reflexivity.
    + exists (String c piece), pieces. reflexivity.
Qed.

(** X10: [isImageFile] looks only at what follows the last dot, ignoring
    the case of A-Z: a name ending in a dot followed by a dot-free
    [ext] is an image file exactly when [ext] in lower case is one of
    jpg, jpeg, png, gif, webp, bmp. A name without any dot is judged as
    if the whole name were the extension. *)
Theorem isImageFile_tests_last_extension (base ext : string) :
  noDot ext ->
  isImageFile (base ++ "." ++ ext)%string
    = bool_decide (toLowerCase ext ∈ IMAGE_EXTENSIONS) /\
  isImageFile ext = bool_decide (toLowerCase ext ∈ IMAGE_EXTENSIONS).
Proof.
  intros Hn.
  assert (Hempty : forall e, e = EmptyString ->
            bool_decide (e ∈ IMAGE_EXTENSIONS) = false)
    by (intros e ->; reflexivity).
  split; unfold isImageFile.
  - destruct (split_last_piece base ext Hn) as (piece & pieces & ->).
    rewrite last_cons, last_snoc.
    destruct (decide (toLowerCase ext = EmptyString)) as [He|He];
      [now rewrite Hempty | reflexivity].
  - rewrite (split_noDot ext Hn). cbn [last].
    destruct (decide (toLowerCase ext = EmptyString)) as [He|He];
      [now rewrite Hempty | reflexivity].
Qed.

Lemma isImageFile_tests_last_extension_witness :
  isImageFile "holiday.2024.JPeG" = true /\ isImageFile "JPeG" = true.
Proof.
  destruct (isImageFile_tests_last_extension "holiday.2024" "JPeG") as [H1 H2].
  - cbn. repeat split; discriminate.
  - split; [exact H1 | exact H2].
Defined.

Lemma insertSorted_Permutation (le : string -> string -> bool) (x : ImageItem)
    (l : list ImageItem) :
  insertSorted le x l ≡ₚ x :: l.
Proof.
  induction l as [|y l IH]; [reflexivity|]. cbn [insertSorted].
  destruct (le (fileName x) (fileName y)); [reflexivity|].
  rewrite IH. apply perm_swap.
Qed.

Lemma sortByName_Permutation (le : string -> string -> bool) (l : list ImageItem) :
  sortByName le l ≡ₚ l.
Proof.
  unfold sortByName. induction l as [|x l IH]; [reflexivity|].
  cbn [foldr]. now rewrite insertSorted_Permutation, IH.
Qed.

Lemma collect_None (values : Listing) :
  collect values = None <->
  completes values = false \/
  exists e, e ∈ yielded values /\ isImageEntry e = true /\ getFile e = None.
Proof.
  induction values as [| |a l IH]; cbn [collect yielded completes].
  - split; [discriminate|]. intros [H|(e & He & _)]; [discriminate|].
    now apply elem_of_nil in He.
  - split; auto.
  - destruct (isImageEntry a) eqn:Ha.
    + destruct (getFile a) as [file|] eqn:Hf.
      * rewrite fmap_None, IH. split.
        -- intros [H|(e & He & H)]; [now left|].
           right. exists e. split; [now constructor | exact H].
        -- intros [H|(e & He & Hi & Hg)]; [now left|].
           apply elem_of_cons in He as [->|He]; [congruence | eauto 6].
      * split; [|reflexivity]. intros _. right. exists a.
        split; [constructor | auto].
    + rewrite IH. split.
      * intros [H|(e & He & H)]; [now left|].
        right. exists e. split; [now constructor | exact H].
      * intros [H|(e & He & Hi & Hg)]; [now left|].
        apply elem_of_cons in He as [->|He]; [congruence | eauto 6].
Qed.

Lemma collect_Some (values : Listing) (imgs : list ImageItem) :
  collect values = Some imgs ->
  length imgs = length (filter (fun e => isImageEntry e = true) (yielded values)) /\
  forall img, img ∈ imgs <->
    exists e file, e ∈ yielded values /\ isImageEntry e = true /\
                   getFile e = Some file /\ img = itemOf e file.
Proof.
  revert imgs. induction values as [| |a l IH]; intros imgs; cbn [collect yielded].
  - intros [= <-]. split; [reflexivity|]. intros img. split.
    + intros H. now apply elem_of_nil in H.
    + intros (e & file & He & _). now apply elem_of_nil in He.
  - discriminate.
  - rewrite filter_cons. destruct (isImageEntry a) eqn:Ha.
    + rewrite decide_True by reflexivity.
      destruct (getFile a) as [file|] eqn:Hf; [|discriminate].
      destruct (collect l) as [rest|]; [|discriminate].
      intros [= <-]. destruct (IH rest eq_refl) as [Hlen Hin].
      split; [cbn; now rewrite Hlen|].
      intros img. rewrite elem_of_cons, Hin. split.
      * intros [->|(e & f & He & H)].
        -- exists a, file. split; [constructor | auto].
        -- exists e, f. split; [now constructor | exact H].
      * intros (e & f & He & Hi & Hg & ->).
        apply elem_of_cons in He as [->|He].
        -- left. congruence.
        -- right. eauto 6.
    + rewrite decide_False by congruence.
      intros Hc. destruct (IH imgs Hc) as [Hlen Hin]. split; [exact Hlen|].
      intros img. rewrite Hin. split.
      * intros (e & f & He & H). exists e, f. split; [now constructor | exact H].
      * intros (e & f & He & Hi & Hg & ->).
        apply elem_of_cons in He as [->|He]; [congruence | eauto 6].
Qed.

(** X11: [scanFolder] is rejected exactly when the directory listing
    itself is rejected or the read of some image file it yields is
    rejected; sub-directories and files that are not images are never
    read. Otherwise it returns one item per image file and nothing else,
    each unselected, without thumbnail or full-resolution URL, with path
    and file name equal to the entry's name. *)
Theorem scanFolder_returns_fresh_items_for_image_files
    (le : string -> string -> bool) (values : Listing) :
  (scanFolder le values = None <->
   completes values = false \/
   exists e, e ∈ yielded values /\ isImageEntry e = true /\ getFile e = None) /\
  (forall imgs, scanFolder le values = Some imgs ->
     length imgs = length (filter (fun e => isImageEntry e = true) (yielded values)) /\
     (forall img, img ∈ imgs <->
        exists e file, e ∈ yielded values /\ isImageEntry e = true /\
                       getFile e = Some file /\ img = itemOf e file) /\
     (forall img, img ∈ imgs ->
        selected img = false /\ thumbnailUrl img = None /\ fullResUrl img = None /\
        path img = fileName img /\ isImageFile (fileName img) = true)).
Proof.
  unfold scanFolder. split.
  - rewrite fmap_None. apply collect_None.
  - intros imgs Hs. apply fmap_Some in Hs as (raw & Hraw & ->).
    destruct (collect_Some values raw Hraw) as [Hlen Hin].
    assert (Hmem : forall img, img ∈ sortByName le raw <->
              exists e file, e ∈ yielded values /\ isImageEntry e = true /\
                             getFile e = Some file /\ img = itemOf e file).
    { intros img. rewrite sortByName_Permutation. apply Hin. }
    split; [now rewrite sortByName_Permutation|]. split; [exact Hmem|].
    intros img Himg. apply Hmem in Himg as (e & file & _ & Hi & _ & ->).
    cbn. repeat split. unfold isImageEntry in Hi. now destruct (kind e).
Qed.

(** The mixed folder listed to its end gives its two pictures; the same
    folder with a listing that rejects after the last entry gives a
    rejected scan, although no read of a file was rejected. *)
Lemma scanFolder_returns_fresh_items_for_image_files_witness :
  (exists imgs,
     scanFolder ScanSamples.ignoringCase (listing ScanSamples.mixedFolder true)
       = Some imgs /\
     length imgs = 2%nat /\
     map fileName imgs = ["a.jpg"; "B.PNG"]%string) /\
  scanFolder ScanSamples.ignoringCase (listing ScanSamples.mixedFolder false) = None.
Proof.
  split.
  - destruct (scanFolder ScanSamples.ignoringCase
                (listing ScanSamples.mixedFolder true)) as [imgs|] eqn:E.
    + destruct (scanFolder_returns_fresh_items_for_image_files
                  ScanSamples.ignoringCase (listing ScanSamples.mixedFolder true))
        as [_ H].
      destruct (H imgs E) as (Hlen & _). exists imgs.
      split; [reflexivity|]. split; [exact Hlen|].
      vm_compute in E. injection E as <-. reflexivity.
    + vm_compute in E. discriminate E.
  - apply (proj1 (scanFolder_returns_fresh_items_for_image_files
                    ScanSamples.ignoringCase (listing ScanSamples.mixedFolder false))).
    left. reflexivity.
Defined.

End ScanFacts.

(* ===================================================================== *)
(** ** Bulk export: what is written and what is reported                  *)
(* ===================================================================== *)

Section ExportTraceFacts.

Import FileSystem Scan.

Lemma copiedNames_app (a b : list Effect) :
  copiedNames (a ++ b) = copiedNames a ++ copiedNames b.
Proof. apply omap_app. Qed.

Lemma progressCalls_app (a b : list Effect) :
  progressCalls (a ++ b) = progressCalls a ++ progressCalls b.
Proof. apply omap_app. Qed.

Lemma exportOne_copied (env : ExportEnv) (onProgress : ProgressCallback)
    (total i : nat) (image : ImageItem) (acc : ExportResult * list Effect) :
  copiedNames (snd (exportOne env onProgress total i image acc))
  = copiedNames (snd acc) ++ (if copies env image then [fileName image] else []).
Proof.
  destruct acc as [r tr]. unfold exportOne, copies, recordFailure.
  destruct (copyFile env (fileHandle image) (fileName image)) as [e|]; cbn.
  - rewrite copiedNames_app. reflexivity.
  - destruct onProgress as [cb|]; cbn.
    + destruct (cb (S i) total); cbn; rewrite !copiedNames_app; cbn;
        now rewrite <- ?app_assoc, ?app_nil_r.
    + now rewrite copiedNames_app.
Qed.

Lemma exportLoop_copied (env : ExportEnv) (onProgress : ProgressCallback)
    (total : nat) (rest : list ImageItem) :
  forall (i : nat) (acc : ExportResult * list Effect),
    copiedNames (snd (exportLoop env onProgress total i rest acc))
    = copiedNames (snd acc)
      ++ (fileName <$> filter (fun img => copies env img = true) rest).
Proof.
  induction rest as [|image rest IH]; intros i acc; cbn [exportLoop].
  - now rewrite filter_nil, app_nil_r.
  - rewrite IH, exportOne_copied, filter_cons.
    destruct (copies env image); cbn.
    + now rewrite <- app_assoc.
    + now rewrite app_nil_r.
Qed.

(** X12: whatever the progress callback does, the files an export
    writes are exactly the selected items whose copy succeeds, each once
    and in list order; nothing is written when the destination picker is
    rejected. The export returns a result exactly when something is
    selected and a destination is granted. *)
Theorem export_writes_exactly_the_selected_readable_files
    (env : ExportEnv) (images : list ImageItem) (onProgress : ProgressCallback) :
  copiedNames (snd (exportSelectedImages env images onProgress))
  = match showDirectoryPicker env with
    | inr _ => fileName <$> filter (fun img => copies env img = true) (selectedOf images)
    | inl _ => []
    end /\
  ((exists r, fst (exportSelectedImages env images onProgress) = inr r) <->
   selectedOf images <> [] /\ exists dest, showDirectoryPicker env = inr dest).
Proof.
  unfold exportSelectedImages. fold (selectedOf images).
  destruct (selectedOf images) as [|a l] eqn:Hsel.
  - cbn. split; [now destruct (showDirectoryPicker env)|].
    split; [intros [r Hr]; discriminate | intros [H _]; congruence].
  - change ((length (a :: l) =? 0)%nat) with false. cbv iota.
    destruct (showDirectoryPicker env) as [e|dest] eqn:Hp.
    + cbn. split; [reflexivity|].
      split; [intros [r Hr]; discriminate | intros [_ [dest Hd]]; discriminate].
    + pose proof (exportLoop_copied env onProgress (length (a :: l)) (a :: l) 0%nat
                    (mkExportResult 0 0 [], [PromptDestination])) as Hc.
      destruct (exportLoop env onProgress (length (a :: l)) 0 (a :: l)
                  (mkExportResult 0 0 [], [PromptDestination])) as [r tr].
      cbn [fst snd] in *. split; [exact Hc|].
      split; [intros _; split; [discriminate | eauto] | eauto].
Qed.

Lemma export_writes_exactly_the_selected_readable_files_witness :
  copiedNames
    (snd (exportSelectedImages Samples.oneUnreadable
            [Samples.selectedItem 0; Samples.selectedItem 1; Samples.item 7;
             Samples.selectedItem 2]
            Samples.setExportProgress))
  = ["0"; "2"]%string.
Proof.
  rewrite (proj1 (export_writes_exactly_the_selected_readable_files
                    Samples.oneUnreadable
                    [Samples.selectedItem 0; Samples.selectedItem 1; Samples.item 7;
                     Samples.selectedItem 2]
                    Samples.setExportProgress)).
  reflexivity.
Defined.

Lemma exportLoop_throwing (env : ExportEnv) (e : Js.Thrown) (total : nat)
    (rest : list ImageItem) :
  forall (i : nat) (acc : ExportResult * list Effect),
    let r := fst acc in
    let r' := fst (exportLoop env (throwing e) total i rest acc) in
    (success r' = success r + length (filter (fun img => copies env img = true) rest))%nat /\
    (failed r' = failed r + length rest)%nat /\
    (length (errors r') = length (errors r) + length rest)%nat.
Proof.
  induction rest as [|image rest IH]; intros i acc; cbn [exportLoop].
  - cbn. rewrite ?filter_nil. cbn. lia.
  - specialize (IH (S i) (exportOne env (throwing e) total i image acc)).
    cbn zeta in IH. destruct IH as (IH1 & IH2 & IH3). cbn zeta.
    rewrite IH1, IH2, IH3, filter_cons. destruct acc as [r tr].
    unfold exportOne, copies, throwing, recordFailure.
    destruct (copyFile env (fileHandle image) (fileName image)); cbn;
      rewrite ?length_app; cbn; split_and?;
      repeat case_decide; try discriminate; cbn; lia.
Qed.

(** X13: a progress callback that throws is caught by the same [try] as
    the copy, after the item was counted as copied. With such a callback
    every selected item is counted as failed and gets a message, and the
    items that were copied are counted as successes too: [success] is the
    number of copied files, [failed] the number of selected items. *)
Theorem throwing_progress_callback_counts_copies_as_failures
    (env : ExportEnv) (images : list ImageItem) (e : Js.Thrown) (destination : string) :
  showDirectoryPicker env = inr destination ->
  selectedOf images <> [] ->
  exists r tr,
    exportSelectedImages env images (throwing e) = (inr r, tr) /\
    success r = length (filter (fun img => copies env img = true) (selectedOf images)) /\
    failed r = length (selectedOf images) /\
    length (errors r) = length (selectedOf images).
Proof.
  intros Hpick Hne. unfold exportSelectedImages. fold (selectedOf images).
  destruct (selectedOf images) as [|a l] eqn:Hsel; [congruence|].
  rewrite Hpick. change ((length (a :: l) =? 0)%nat) with false. cbv iota.
  pose proof (exportLoop_throwing env e (length (a :: l)) (a :: l) 0%nat
                (mkExportResult 0 0 [], [PromptDestination])) as H.
  cbn zeta in H. cbn [fst success failed errors] in H.
  destruct (exportLoop env (throwing e) (length (a :: l)) 0 (a :: l)
              (mkExportResult 0 0 [], [PromptDestination])) as [r tr].
  cbn [fst] in H. exists r, tr. split; [reflexivity|].
  cbn [length] in H. cbn [length]. lia.
Qed.

(** Two selected files, both copied, the callback throwing: 2 successes
    and 2 failures. *)
Lemma throwing_progress_callback_counts_copies_as_failures_witness :
  exists r tr,
    exportSelectedImages Samples.oneUnreadable
      [Samples.selectedItem 0; Samples.selectedItem 2] (throwing None) = (inr r, tr) /\
    success r = 2%nat /\ failed r = 2%nat.
Proof.
  destruct (throwing_progress_callback_counts_copies_as_failures Samples.oneUnreadable
              [Samples.selectedItem 0; Samples.selectedItem 2] None "export"%string
              eq_refl) as (r & tr & Hrun & Hs & Hf & _).
  - discriminate.
  - exists r, tr. split; [exact Hrun|]. split; [exact Hs | exact Hf].
Defined.

Lemma exportLoop_progress (env : ExportEnv) (cb : nat -> nat -> option Js.Thrown)
    (total : nat) (rest : list ImageItem) :
  quiet (Some cb) ->
  forall (i : nat) (acc : ExportResult * list Effect),
    progressCalls (snd (exportLoop env (Some cb) total i rest acc))
    = progressCalls (snd acc)
      ++ omap (fun x => x)
           (imap (fun j img => if copies env img then Some (S (i + j), total) else None)
                 rest).
Proof.
  intros Hq. induction rest as [|image rest IH]; intros i acc; cbn [exportLoop].
  - cbn. now rewrite app_nil_r.
  - rewrite IH. destruct acc as [r tr]. unfold exportOne, copies, recordFailure.
    cbn [imap omap].
    assert (Hext : imap ((fun j img => if copies env img
                                       then Some (S (i + j), total) else None) ∘ S) rest
                   = imap (fun j img => if copies env img
                                        then Some (S (S i + j), total) else None) rest).
    { apply imap_ext. intros j img _. cbn. unfold copies.
      replace (i + S j)%nat with (S (i + j)) by lia. reflexivity. }
    unfold copies in Hext. rewrite Hext.
    destruct (copyFile env (fileHandle image) (fileName image)); cbn.
    + rewrite progressCalls_app. cbn. now rewrite app_nil_r.
    + rewrite (Hq cb (S i) total eq_refl). cbn.
      rewrite !progressCalls_app. cbn. rewrite Nat.add_0_r, app_nil_r.
      now rewrite <- app_assoc.
Qed.

(** X14: with a progress callback that returns normally, the callback
    is called once for each item that was copied and for no other, in
    order, with the item's 1-based position among the selected items and
    their total; a failed item is skipped, so the reports need not reach
    the total. *)
Theorem progress_is_reported_for_copied_items_only
    (env : ExportEnv) (images : list ImageItem) (cb : nat -> nat -> option Js.Thrown)
    (destination : string) :
  quiet (Some cb) ->
  showDirectoryPicker env = inr destination ->
  progressCalls (snd (exportSelectedImages env images (Some cb)))
  = omap (fun x => x)
      (imap (fun j img => if copies env img
                          then Some (S j, length (selectedOf images)) else None)
            (selectedOf images)).
Proof.
  intros Hq Hpick. unfold exportSelectedImages. fold (selectedOf images).
  destruct (selectedOf images) as [|a l] eqn:Hsel; [reflexivity|].
  rewrite Hpick. change ((length (a :: l) =? 0)%nat) with false. cbv iota.
  pose proof (exportLoop_progress env cb (length (a :: l)) (a :: l) Hq 0%nat
                (mkExportResult 0 0 [], [PromptDestination])) as H.
  destruct (exportLoop env (Some cb) (length (a :: l)) 0 (a :: l)
              (mkExportResult 0 0 [], [PromptDestination])) as [r tr].
  cbn [snd] in *. exact H.
Qed.

(** Three selected, the second unreadable: reports 1/3 and 3/3, never
    2/3. *)
Lemma progress_is_reported_for_copied_items_only_witness :
  progressCalls
    (snd (exportSelectedImages Samples.oneUnreadable
            [Samples.selectedItem 0; Samples.selectedItem 1; Samples.selectedItem 2]
            (Some (fun _ _ => None))))
  = [(1, 3); (3, 3)]%nat.
Proof.
  rewrite (progress_is_reported_for_copied_items_only Samples.oneUnreadable
             [Samples.selectedItem 0; Samples.selectedItem 1; Samples.selectedItem 2]
             (fun _ _ => None) "export"%string).
  - reflexivity.
  - intros cb i n Hcb. injection Hcb as <-. reflexivity.
  - reflexivity.
Defined.

End ExportTraceFacts.

(* ===================================================================== *)
(** ** Grid navigation: cursor and page move together                     *)
(* ===================================================================== *)

Section CursorFacts.

Import FileSystem App AppProps.

Ltac grid_arith st :=
  unfold focusOnDisplayedPage, focusInRange, row, col, indexInPage, endIdx,
    startIdx, totalPages, imagesPerPage, ceilDiv in *;
  destruct (grid_shape (gridMode st)) as [(Hc & Hr & Hs)|(Hc & Hr & Hs)];
  rewrite ?Hc, ?Hr, ?Hs in *;
  [change (5 * 5) with 25 in * | change (6 * 4) with 24 in *];
  cbn [fst snd from_option Datatypes.id] in *;
  Z.to_euclidean_division_equations; lia.

(** Where an arrow case points: an item of the list, on the page the
    case switches to (or on the current page when it switches to
    none). *)
Lemma arrow_target_on_page (key : Key) (st : AppState) (m : Z * option Z) :
  focusOnDisplayedPage st ->
  (key = ArrowUp /\ m = arrowUp st) \/ (key = ArrowDown /\ m = arrowDown st) \/
  (key = ArrowLeft /\ m = arrowLeft st) \/ (key = ArrowRight /\ m = arrowRight st) ->
  0 <= fst m < itemCount st /\
  default (currentPage st) (snd m) * imagesPerPage st <= fst m
    < default (currentPage st) (snd m) * imagesPerPage st + imagesPerPage st.
Proof.
  intros Hon [[_ ->]|[[_ ->]|[[_ ->]|[_ ->]]]].
  - unfold arrowUp.
    destruct (0 <? row st) eqn:E1; [apply Z.ltb_lt in E1; grid_arith st|].
    apply Z.ltb_ge in E1.
    destruct (0 <? currentPage st) eqn:E2;
      [apply Z.ltb_lt in E2 | apply Z.ltb_ge in E2]; grid_arith st.
  - unfold arrowDown.
    destruct ((row st <? rows (gridMode st) - 1)
              && (focusedIndex st + cols (gridMode st) <? itemCount st)) eqn:E1.
    + apply andb_true_iff in E1 as [E1 E1']. apply Z.ltb_lt in E1, E1'.
      destruct (focusedIndex st + cols (gridMode st)
                <? Z.min (startIdx st + cols (gridMode st) * rows (gridMode st))
                         (itemCount st)) eqn:E2;
        [apply Z.ltb_lt in E2 | apply Z.ltb_ge in E2]; grid_arith st.
    + destruct (currentPage st <? totalPages st - 1) eqn:E2;
        [apply Z.ltb_lt in E2 | apply Z.ltb_ge in E2]; grid_arith st.
  - unfold arrowLeft.
    destruct (0 <? col st) eqn:E1; [apply Z.ltb_lt in E1; grid_arith st|].
    apply Z.ltb_ge in E1.
    destruct (0 <? focusedIndex st) eqn:E2;
      [apply Z.ltb_lt in E2 | apply Z.ltb_ge in E2; grid_arith st].
    destruct ((focusedIndex st - 1 <? startIdx st) && (0 <? currentPage st)) eqn:E3.
    + apply andb_true_iff in E3 as [E3 E3']. apply Z.ltb_lt in E3, E3'. grid_arith st.
    + apply andb_false_iff in E3 as [E3|E3]; apply Z.ltb_ge in E3; grid_arith st.
  - unfold arrowRight.
    destruct ((col st <? cols (gridMode st) - 1)
              && (focusedIndex st + 1 <? itemCount st)) eqn:E1.
    + apply andb_true_iff in E1 as [E1 E1']. apply Z.ltb_lt in E1, E1'.
      destruct (focusedIndex st + 1
                <? Z.min (startIdx st + cols (gridMode st) * rows (gridMode st))
                         (itemCount st)) eqn:E2;
        [apply Z.ltb_lt in E2 | apply Z.ltb_ge in E2]; grid_arith st.
    + destruct (focusedIndex st + 1 <? itemCount st) eqn:E2;
        [apply Z.ltb_lt in E2 | apply Z.ltb_ge in E2; grid_arith st].
      destruct ((endIdx st <=? focusedIndex st + 1)
                && (currentPage st <? totalPages st - 1)) eqn:E3.
      * apply andb_true_iff in E3 as [E3 E3']. apply Z.leb_le in E3.
        apply Z.ltb_lt in E3'. grid_arith st.
      * rewrite andb_true_r in E1. apply Z.ltb_ge in E1.
        apply andb_false_iff in E3 as [E3|E3];
          [apply Z.leb_gt in E3 | apply Z.ltb_ge in E3]; grid_arith st.
Qed.

(** An arrow key pressed with the cursor on the displayed page: the
    cursor goes where the case points, the page where the case switches
    to, and the cursor is on the displayed page again. *)
Lemma handleKeyDown_arrow_on_page (createObjectURL : FileHandle -> option string)
    (now : Z) (key : Key) (st : AppState) :
  isArrow key = true ->
  focusOnDisplayedPage st ->
  images (handleKeyDown createObjectURL now key st) = images st /\
  gridMode (handleKeyDown createObjectURL now key st) = gridMode st /\
  currentPage (handleKeyDown createObjectURL now key st)
    = default (currentPage st) (snd (arrowCase key st)) /\
  focusedIndex (handleKeyDown createObjectURL now key st) = fst (arrowCase key st) /\
  focusOnDisplayedPage (handleKeyDown createObjectURL now key st).
Proof.
  intros Hk Hon.
  assert (Hn : itemCount st <> 0) by (destruct Hon as [[? ?] _]; lia).
  assert (Hrun : handleKeyDown createObjectURL now key st
                 = commitFocus now st (fst (arrowCase key st))
                     (applyPage (snd (arrowCase key st)) st)).
  { unfold handleKeyDown. destruct (itemCount st =? 0) eqn:E;
      [apply Z.eqb_eq in E; contradiction|].
    destruct key; try discriminate Hk; reflexivity. }
  assert (Htarget : 0 <= fst (arrowCase key st) < itemCount st /\
            default (currentPage st) (snd (arrowCase key st)) * imagesPerPage st
              <= fst (arrowCase key st)
              < default (currentPage st) (snd (arrowCase key st)) * imagesPerPage st
                + imagesPerPage st).
  { apply (arrow_target_on_page key st _ Hon).
    destruct key; try discriminate Hk; cbn [arrowCase]; auto 6. }
  set (m := arrowCase key st) in *. rewrite Hrun.
  destruct (commitFocus_frame now st (fst m) (applyPage (snd m) st)) as (Hi & Hp & Hf).
  assert (Hguard : (0 <=? fst m) && (fst m <? itemCount st) = true).
  { apply andb_true_iff. split; [apply Z.leb_le | apply Z.ltb_lt]; lia. }
  rewrite Hguard in Hf.
  assert (Himg : images (applyPage (snd m) st) = images st) by (now destruct (snd m)).
  assert (Hmode : gridMode (commitFocus now st (fst m) (applyPage (snd m) st))
                  = gridMode st).
  { unfold commitFocus. rewrite Hguard.
    destruct (negb (fst m =? focusedIndex st)).
    - destruct (withSession_frame
        (fun sid => Database.updateSession sid (gridMode st) (currentPage st)
                      (Some (fst m)) now)
        (setFocusedIndex (fst m) (applyPage (snd m) st))) as (_ & _ & Hg & _).
      rewrite Hg. now destruct (snd m).
    - now destruct (snd m). }
  assert (Hpage : currentPage (applyPage (snd m) st) = default (currentPage st) (snd m))
    by (now destruct (snd m)).
  rewrite Himg in Hi. rewrite Hpage in Hp.
  split; [exact Hi|]. split; [exact Hmode|]. split; [exact Hp|]. split; [exact Hf|].
  unfold focusOnDisplayedPage, focusInRange, endIdx, startIdx, imagesPerPage, itemCount.
  rewrite Hi, Hmode, Hp, Hf. unfold imagesPerPage, itemCount in Htarget. lia.
Qed.

(** X15: with the cursor on an item of the displayed page, each of the
    four arrow keys leaves the cursor on an item of the page that is
    displayed afterwards: cursor and page never drift apart under
    keyboard navigation, in either grid mode. *)
Theorem arrow_keys_keep_cursor_on_displayed_page
    (createObjectURL : FileHandle -> option string) (now : Z) (key : Key)
    (st : AppState) :
  isArrow key = true ->
  focusOnDisplayedPage st ->
  focusOnDisplayedPage (handleKeyDown createObjectURL now key st) /\
  0 <= currentPage (handleKeyDown createObjectURL now key st)
    < totalPages (handleKeyDown createObjectURL now key st).
Proof.
  intros Hk Hon.
  destruct (handleKeyDown_arrow_on_page createObjectURL now key st Hk Hon)
    as (_ & _ & _ & _ & Hon').
  split; [exact Hon'|].
  set (st' := handleKeyDown createObjectURL now key st) in *.
  clear Hon. revert Hon'. generalize st'. clear. intros st Hon. grid_arith st.
Qed.

(** ArrowDown from the bottom row of page 0 of 70 items lands on page
    1. *)
Lemma arrow_keys_keep_cursor_on_displayed_page_witness :
  focusOnDisplayedPage (handleKeyDown Samples.blobOf 0 ArrowDown
                          (Samples.viewing 70 "5x5" 0 22)) /\
  currentPage (handleKeyDown Samples.blobOf 0 ArrowDown
                 (Samples.viewing 70 "5x5" 0 22)) = 1.
Proof.
  split; [|reflexivity].
  refine (proj1 (arrow_keys_keep_cursor_on_displayed_page Samples.blobOf 0 ArrowDown
                   (Samples.viewing 70 "5x5" 0 22) eq_refl _)).
  unfold focusOnDisplayedPage, focusInRange.
  change (itemCount _) with 70. change (startIdx _) with 0. change (endIdx _) with 25.
  cbn. lia.
Defined.

Lemma arrowRight_index (st : AppState) :
  focusOnDisplayedPage st ->
  fst (arrowRight st) = Z.min (focusedIndex st + 1) (itemCount st - 1).
Proof.
  intros Hon. unfold arrowRight.
  destruct ((col st <? cols (gridMode st) - 1)
            && (focusedIndex st + 1 <? itemCount st)) eqn:E1.
  - apply andb_true_iff in E1 as [E1 E1']. apply Z.ltb_lt in E1, E1'.
    destruct (focusedIndex st + 1
              <? Z.min (startIdx st + cols (gridMode st) * rows (gridMode st))
                       (itemCount st)) eqn:E2;
      [apply Z.ltb_lt in E2 | apply Z.ltb_ge in E2]; grid_arith st.
  - destruct (focusedIndex st + 1 <? itemCount st) eqn:E2;
      [apply Z.ltb_lt in E2 | apply Z.ltb_ge in E2; grid_arith st].
    destruct ((endIdx st <=? focusedIndex st + 1)
              && (currentPage st <? totalPages st - 1)); cbn [fst]; lia.
Qed.

Lemma arrowLeft_index (st : AppState) :
  focusOnDisplayedPage st ->
  fst (arrowLeft st) = Z.max (focusedIndex st - 1) 0.
Proof.
  intros Hon. unfold arrowLeft.
  destruct (0 <? col st) eqn:E1; [apply Z.ltb_lt in E1; grid_arith st|].
  destruct (0 <? focusedIndex st) eqn:E2;
    [apply Z.ltb_lt in E2 | apply Z.ltb_ge in E2; grid_arith st].
  destruct ((focusedIndex st - 1 <? startIdx st) && (0 <? currentPage st));
    cbn [fst]; lia.
Qed.

(** X16: with the cursor on the displayed page, ArrowRight moves it to
    the next item of the list and ArrowLeft to the previous one, across
    row and page ends alike, and they stop at the last and at the first
    item. ArrowLeft after ArrowRight brings back both the cursor and the
    page. *)
Theorem left_and_right_walk_the_item_list
    (createObjectURL : FileHandle -> option string) (now : Z) (st : AppState) :
  focusOnDisplayedPage st ->
  focusedIndex (handleKeyDown createObjectURL now ArrowRight st)
    = Z.min (focusedIndex st + 1) (itemCount st - 1) /\
  focusedIndex (handleKeyDown createObjectURL now ArrowLeft st)
    = Z.max (focusedIndex st - 1) 0 /\
  (focusedIndex st + 1 < itemCount st ->
   focusedIndex (handleKeyDown createObjectURL now ArrowLeft
                   (handleKeyDown createObjectURL now ArrowRight st))
     = focusedIndex st /\
   currentPage (handleKeyDown createObjectURL now ArrowLeft
                  (handleKeyDown createObjectURL now ArrowRight st))
     = currentPage st).
Proof.
  intros Hon.
  destruct (handleKeyDown_arrow_on_page createObjectURL now ArrowRight st eq_refl Hon)
    as (Hi1 & Hg1 & _ & Hf1 & Hon1).
  destruct (handleKeyDown_arrow_on_page createObjectURL now ArrowLeft st eq_refl Hon)
    as (_ & _ & _ & Hf2 & _).
  cbn [arrowCase] in Hf1, Hf2.
  rewrite (arrowRight_index st Hon) in Hf1. rewrite (arrowLeft_index st Hon) in Hf2.
  split; [exact Hf1|]. split; [exact Hf2|]. intros Hmore.
  set (st1 := handleKeyDown createObjectURL now ArrowRight st) in *.
  destruct (handleKeyDown_arrow_on_page createObjectURL now ArrowLeft st1 eq_refl Hon1)
    as (Hi3 & Hg3 & _ & Hf3 & Hon3).
  cbn [arrowCase] in Hf3. rewrite (arrowLeft_index st1 Hon1) in Hf3.
  set (st2 := handleKeyDown createObjectURL now ArrowLeft st1) in *.
  assert (Hback : focusedIndex st2 = focusedIndex st).
  { rewrite Hf3, Hf1. destruct Hon as [[H0 _] _]. lia. }
  split; [exact Hback|].
  unfold focusOnDisplayedPage, focusInRange, endIdx, startIdx, imagesPerPage in Hon, Hon3.
  rewrite Hg3, Hg1, Hback in Hon3.
  destruct (grid_shape (gridMode st)) as [(_ & _ & Hs)|(_ & _ & Hs)];
    rewrite Hs in *; lia.
Qed.

(** From the last cell of page 0 (item 24 of 70): right goes to item 25
    on page 1, left comes back to item 24 on page 0. *)
Lemma left_and_right_walk_the_item_list_witness :
  focusedIndex (handleKeyDown Samples.blobOf 0 ArrowRight (Samples.viewing 70 "5x5" 0 24))
    = 25 /\
  currentPage (handleKeyDown Samples.blobOf 0 ArrowRight (Samples.viewing 70 "5x5" 0 24))
    = 1 /\
  currentPage (handleKeyDown Samples.blobOf 0 ArrowLeft
                 (handleKeyDown Samples.blobOf 0 ArrowRight
                    (Samples.viewing 70 "5x5" 0 24))) = 0.
Proof.
  destruct (left_and_right_walk_the_item_list Samples.blobOf 0
              (Samples.viewing 70 "5x5" 0 24)) as (Hr & _ & Hback).
  - unfold focusOnDisplayedPage, focusInRange.
    change (itemCount _) with 70. change (startIdx _) with 0. change (endIdx _) with 25.
    cbn. lia.
  - split; [rewrite Hr; reflexivity|]. split; [reflexivity|].
    apply Hback. change (itemCount _) with 70. cbn. lia.
Defined.

(** X17: the Previous and Next buttons keep the displayed page within
    the existing pages (Previous stops at page 0, Next at the last page)
    and leave the item list, the grid mode and the cursor as they are,
    so the cursor may end up on a page that is not displayed. *)
Theorem page_buttons_stay_within_pages (now : Z) (st : AppState) :
  pageInRange st ->
  (pageInRange (handlePreviousPage now st) /\
   currentPage (handlePreviousPage now st) = Z.max 0 (currentPage st - 1) /\
   images (handlePreviousPage now st) = images st /\
   gridMode (handlePreviousPage now st) = gridMode st /\
   focusedIndex (handlePreviousPage now st) = focusedIndex st) /\
  (pageInRange (handleNextPage now st) /\
   currentPage (handleNextPage now st)
     = Z.min (totalPages st - 1) (currentPage st + 1) /\
   images (handleNextPage now st) = images st /\
   gridMode (handleNextPage now st) = gridMode st /\
   focusedIndex (handleNextPage now st) = focusedIndex st).
Proof.
  intros Hin. unfold handlePreviousPage, handleNextPage.
  destruct (withSession_frame
              (fun sid => Database.updateSession sid (gridMode st)
                            (Z.max 0 (currentPage st - 1)) None now) st)
    as (Hi1 & _ & Hg1 & Hf1 & _).
  destruct (withSession_frame
              (fun sid => Database.updateSession sid (gridMode st)
                            (Z.min (totalPages st - 1) (currentPage st + 1)) None now) st)
    as (Hi2 & _ & Hg2 & Hf2 & _).
  unfold pageInRange, totalPages, imagesPerPage, itemCount in *.
  cbn [currentPage images gridMode focusedIndex setCurrentPage].
  rewrite Hi1, Hg1, Hf1, Hi2, Hg2, Hf2.
  repeat split; try reflexivity; lia.
Qed.

Lemma page_buttons_stay_within_pages_witness :
  currentPage (handleNextPage 0 (Samples.viewing 70 "5x5" 2 60)) = 2 /\
  currentPage (handlePreviousPage 0 (Samples.viewing 70 "5x5" 0 0)) = 0 /\
  pageInRange (handleNextPage 0 (Samples.viewing 70 "5x5" 2 60)).
Proof.
  destruct (page_buttons_stay_within_pages 0 (Samples.viewing 70 "5x5" 2 60))
    as [_ (Hin & _)].
  - unfold pageInRange. change (totalPages _) with 3. cbn. lia.
  - split; [reflexivity|]. split; [reflexivity | exact Hin].
Defined.

End CursorFacts.

(* ===================================================================== *)
(** ** Full-resolution images: loading and releasing                      *)
(* ===================================================================== *)

Section LoadFacts.

Import FileSystem App AppProps.

Lemma truthy_nonempty (url : string) :
  url <> ""%string -> Js.truthy (Some url) = true.
Proof.
  intros H. unfold Js.truthy, Js.or_undefined.
  now destruct (decide (url = ""%string)).
Qed.

Lemma sameButFullRes_refl (a : ImageItem) : sameButFullRes a a.
Proof. unfold sameButFullRes. tauto. Qed.

Lemma ahead_refl (l : list ImageItem) : ahead l l.
Proof.
  unfold ahead. apply Forall2_same_length_lookup_2; [reflexivity|].
  intros i c u Hc Hu. rewrite Hc in Hu. injection Hu as <-.
  split; [apply sameButFullRes_refl | auto].
Qed.

Lemma find_by_id (l : list ImageItem) :
  NoDup (id <$> l) ->
  forall (k : nat) (c : ImageItem),
    l !! k = Some c ->
    find (fun img => bool_decide (id img = id c)) l = Some c.
Proof.
  induction l as [|a l IH]; intros Hnd k c Hk; [now rewrite lookup_nil in Hk|].
  cbn [fmap list_fmap] in Hnd. apply NoDup_cons in Hnd as [Hnotin Hnd].
  cbn [find]. destruct k as [|k].
  - cbn in Hk. injection Hk as ->. now rewrite bool_decide_eq_true_2.
  - cbn in Hk. destruct (bool_decide (id a = id c)) eqn:E.
    + exfalso. apply bool_decide_eq_true in E. apply Hnotin. rewrite E.
      apply list_elem_of_fmap. exists c. split; [reflexivity|].
      eapply list_elem_of_lookup_2; eauto.
    + now apply (IH Hnd k).
Qed.

Lemma findIndexFrom_found (l : list ImageItem) :
  NoDup (id <$> l) ->
  forall (k : nat) (c : ImageItem) (off : Z),
    l !! k = Some c ->
    findIndexFrom (id c) l off = off + Z.of_nat k.
Proof.
  induction l as [|a l IH]; intros Hnd k c off Hk; [now rewrite lookup_nil in Hk|].
  cbn [fmap list_fmap] in Hnd. apply NoDup_cons in Hnd as [Hnotin Hnd].
  cbn [findIndexFrom]. destruct k as [|k].
  - cbn in Hk. injection Hk as ->. rewrite bool_decide_eq_true_2 by reflexivity. lia.
  - cbn in Hk. destruct (bool_decide (id a = id c)) eqn:E.
    + exfalso. apply bool_decide_eq_true in E. apply Hnotin. rewrite E.
      apply list_elem_of_fmap. exists c. split; [reflexivity|].
      eapply list_elem_of_lookup_2; eauto.
    + rewrite (IH Hnd k c (off + 1) Hk). lia.
Qed.

Lemma load_ahead (createObjectURL : FileHandle -> option string)
    (closure cur : list ImageItem) (y : string) :
  allReadable createObjectURL ->
  ahead closure cur ->
  ahead closure (loadFullResImage createObjectURL closure y cur).
Proof.
  intros Hread Ha. unfold loadFullResImage.
  destruct (find _ closure) as [image|]; [|exact Ha].
  destruct (Js.truthy (fullResUrl image)); [exact Ha|].
  destruct (Hread (fileHandle image)) as (url & -> & Hurl).
  unfold ahead in *. change (map ?f ?l) with (f <$> l).
  apply Forall2_fmap_r. eapply Forall2_impl; [exact Ha|].
  intros c u [Hsame Hmono]. unfold compose. cbn beta. case_bool_decide.
  - split; [unfold sameButFullRes in *; cbn; exact Hsame
           | intros _; now apply truthy_nonempty].
  - split; assumption.
Qed.

Lemma load_loads (createObjectURL : FileHandle -> option string)
    (closure cur : list ImageItem) (k : nat) (c : ImageItem) :
  allReadable createObjectURL ->
  NoDup (id <$> closure) ->
  ahead closure cur ->
  closure !! k = Some c ->
  exists u,
    loadFullResImage createObjectURL closure (id c) cur !! k = Some u /\
    Js.truthy (fullResUrl u) = true.
Proof.
  intros Hread Hnd Ha Hk. unfold loadFullResImage.
  rewrite (find_by_id closure Hnd k c Hk).
  destruct (Forall2_lookup_l _ _ _ k c Ha Hk) as (u & Hu & Hsame & Hmono).
  destruct (Js.truthy (fullResUrl c)) eqn:Ht; [eauto|].
  destruct (Hread (fileHandle c)) as (url & -> & Hurl).
  change (map ?f ?l) with (f <$> l). rewrite list_lookup_fmap, Hu. cbn.
  eexists. split; [reflexivity|].
  destruct Hsame as (Hid & _). rewrite bool_decide_eq_true_2 by congruence.
  now apply truthy_nonempty.
Qed.

(** A URL present in [closure] at [k] is still present after any number
    of loads. *)
Lemma ahead_keeps (closure cur : list ImageItem) (k : nat) (u0 u : ImageItem) :
  ahead closure cur ->
  closure !! k = Some u0 -> Js.truthy (fullResUrl u0) = true ->
  cur !! k = Some u -> Js.truthy (fullResUrl u) = true.
Proof.
  intros Ha H0 Ht Hu.
  destruct (Forall2_lookup_l _ _ _ k u0 Ha H0) as (u' & Hu' & _ & Hmono).
  rewrite Hu in Hu'. injection Hu' as <-. auto.
Qed.

Lemma load_mono (createObjectURL : FileHandle -> option string)
    (closure cur : list ImageItem) (y : string) (j : nat) (u : ImageItem) :
  allReadable createObjectURL ->
  cur !! j = Some u -> Js.truthy (fullResUrl u) = true ->
  exists u', loadFullResImage createObjectURL closure y cur !! j = Some u' /\
             Js.truthy (fullResUrl u') = true.
Proof.
  intros Hread Hu Ht. unfold loadFullResImage.
  destruct (find _ closure) as [image|]; [|eauto].
  destruct (Js.truthy (fullResUrl image)); [eauto|].
  destruct (Hread (fileHandle image)) as (url & -> & Hurl).
  change (map ?f ?l) with (f <$> l). rewrite list_lookup_fmap, Hu. cbn.
  eexists. split; [reflexivity|]. case_bool_decide; [now apply truthy_nonempty | exact Ht].
Qed.

Lemma imageAt_nat (l : list ImageItem) (j : nat) : imageAt l (Z.of_nat j) = l !! j.
Proof.
  unfold imageAt. rewrite (proj2 (Z.leb_le 0 (Z.of_nat j))) by lia.
  now rewrite Nat2Z.id.
Qed.

Lemma preload_ahead (createObjectURL : FileHandle -> option string)
    (closure cur : list ImageItem) (index : Z) :
  allReadable createObjectURL ->
  ahead closure cur ->
  ahead closure (preloadAdjacent createObjectURL closure index cur).
Proof.
  intros Hread Ha. unfold preloadAdjacent.
  set (cur1 := if 0 <? index then _ else cur).
  assert (Ha1 : ahead closure cur1).
  { unfold cur1. destruct (0 <? index); [|exact Ha].
    destruct (imageAt closure (index - 1)); [now apply load_ahead | exact Ha]. }
  destruct (index <? Z.of_nat (length closure) - 1); [|exact Ha1].
  destruct (imageAt closure (index + 1)); [now apply load_ahead | exact Ha1].
Qed.

Lemma preload_mono (createObjectURL : FileHandle -> option string)
    (closure cur : list ImageItem) (index : Z) (j : nat) (u : ImageItem) :
  allReadable createObjectURL ->
  cur !! j = Some u -> Js.truthy (fullResUrl u) = true ->
  exists u', preloadAdjacent createObjectURL closure index cur !! j = Some u' /\
             Js.truthy (fullResUrl u') = true.
Proof.
  intros Hread Hu Ht. unfold preloadAdjacent.
  set (cur1 := if 0 <? index then _ else cur).
  assert (H1 : exists u1, cur1 !! j = Some u1 /\ Js.truthy (fullResUrl u1) = true).
  { unfold cur1. destruct (0 <? index); [|eauto].
    destruct (imageAt closure (index - 1)); [now apply (load_mono _ _ _ _ _ u) | eauto]. }
  destruct H1 as (u1 & Hu1 & Ht1).
  destruct (index <? Z.of_nat (length closure) - 1); [|eauto].
  destruct (imageAt closure (index + 1)); [now apply (load_mono _ _ _ _ _ u1) | eauto].
Qed.

Lemma preload_loads (createObjectURL : FileHandle -> option string)
    (closure cur : list ImageItem) (i j : nat) (c : ImageItem) :
  allReadable createObjectURL ->
  NoDup (id <$> closure) ->
  ahead closure cur ->
  S j = i \/ j = S i ->
  closure !! j = Some c ->
  exists u,
    preloadAdjacent createObjectURL closure (Z.of_nat i) cur !! j = Some u /\
    Js.truthy (fullResUrl u) = true.
Proof.
  intros Hread Hnd Ha Hj Hc. unfold preloadAdjacent.
  set (cur1 := if 0 <? Z.of_nat i then _ else cur).
  assert (Ha1 : ahead closure cur1).
  { unfold cur1. destruct (0 <? Z.of_nat i); [|exact Ha].
    destruct (imageAt closure (Z.of_nat i - 1)); [now apply load_ahead | exact Ha]. }
  destruct Hj as [Hj|Hj].
  - assert (H1 : exists u1, cur1 !! j = Some u1 /\ Js.truthy (fullResUrl u1) = true).
    { unfold cur1. rewrite (proj2 (Z.ltb_lt 0 (Z.of_nat i))) by lia.
      replace (Z.of_nat i - 1) with (Z.of_nat j) by lia.
      rewrite imageAt_nat, Hc. now apply (load_loads _ _ _ j c). }
    destruct H1 as (u1 & Hu1 & Ht1).
    destruct (Z.of_nat i <? Z.of_nat (length closure) - 1); [|eauto].
    destruct (imageAt closure (Z.of_nat i + 1));
      [now apply (load_mono _ _ _ _ _ u1) | eauto].
  - pose proof (lookup_lt_Some _ _ _ Hc) as Hlt.
    rewrite (proj2 (Z.ltb_lt (Z.of_nat i) (Z.of_nat (length closure) - 1))) by lia.
    replace (Z.of_nat i + 1) with (Z.of_nat j) by lia.
    rewrite imageAt_nat, Hc. now apply (load_loads _ _ _ j c).
Qed.

(** After loading the item at [i] and preloading around it, the items
    at [i] and next to it hold a URL and nothing but URLs changed. *)
Lemma load_and_preload (createObjectURL : FileHandle -> option string)
    (closure : list ImageItem) (i : nat) (c : ImageItem) :
  allReadable createObjectURL ->
  NoDup (id <$> closure) ->
  closure !! i = Some c ->
  let result := preloadAdjacent createObjectURL closure (Z.of_nat i)
                  (loadFullResImage createObjectURL closure (id c) closure) in
  Forall2 sameButFullRes closure result /\
  forall j u, near i j -> result !! j = Some u -> Js.truthy (fullResUrl u) = true.
Proof.
  intros Hread Hnd Hc result.
  assert (Ha0 : ahead closure (loadFullResImage createObjectURL closure (id c) closure))
    by (apply load_ahead; [exact Hread | apply ahead_refl]).
  assert (Ha : ahead closure result) by (now apply preload_ahead).
  split; [eapply Forall2_impl; [exact Ha | now intros ? ? [? _]]|].
  intros j u Hnear Hu.
  assert (Hex : exists u', result !! j = Some u' /\ Js.truthy (fullResUrl u') = true).
  { destruct Hnear as [->|Hnear].
    - destruct (load_loads createObjectURL closure closure i c Hread Hnd
                  (ahead_refl closure) Hc) as (u0 & Hu0 & Ht0).
      now apply (preload_mono _ _ _ _ _ u0).
    - destruct (Forall2_lookup_r _ _ _ j u Ha Hu) as (cj & Hcj & _).
      now apply (preload_loads _ _ _ i j cj). }
  destruct Hex as (u' & Hu' & Ht'). rewrite Hu in Hu'. now injection Hu' as <-.
Qed.

(** X18: with readable files and distinct ids, a long press on an item
    opens the lightbox on it and leaves the item itself and its two
    neighbours in the list holding a full-resolution URL; no item
    changes in anything but its full-resolution URL, and page and cursor
    stay where they were. *)
Theorem long_press_loads_item_and_neighbours
    (createObjectURL : FileHandle -> option string) (st : AppState)
    (i : nat) (c : ImageItem) :
  allReadable createObjectURL ->
  NoDup (id <$> images st) ->
  images st !! i = Some c ->
  lightboxImageId (handleLongPress createObjectURL (id c) st) = Some (id c) /\
  Forall2 sameButFullRes (images st)
          (images (handleLongPress createObjectURL (id c) st)) /\
  (forall j u, near i j ->
     images (handleLongPress createObjectURL (id c) st) !! j = Some u ->
     Js.truthy (fullResUrl u) = true) /\
  currentPage (handleLongPress createObjectURL (id c) st) = currentPage st /\
  focusedIndex (handleLongPress createObjectURL (id c) st) = focusedIndex st.
Proof.
  intros Hread Hnd Hc. unfold handleLongPress.
  cbn [lightboxImageId images currentPage focusedIndex setImages setLightboxImageId].
  unfold findIndex. rewrite (findIndexFrom_found (images st) Hnd i c 0 Hc).
  replace (0 + Z.of_nat i) with (Z.of_nat i) by lia.
  destruct (load_and_preload createObjectURL (images st) i c Hread Hnd Hc) as [H1 H2].
  repeat split; assumption.
Qed.

Lemma long_press_loads_item_and_neighbours_witness :
  map (fun img => Js.truthy (fullResUrl img))
      (images (handleLongPress Samples.blobOf "2" (Samples.viewing 5 "5x5" 0 0)))
  = [false; true; true; true; false].
Proof.
  destruct (long_press_loads_item_and_neighbours Samples.blobOf
              (Samples.viewing 5 "5x5" 0 0) 2 (Samples.item 2))
    as (_ & Hsame & _).
  - intros h. eexists. split; [reflexivity | discriminate].
  - apply (bool_decide_unpack _). vm_compute. exact I.
  - reflexivity.
  - apply Forall2_length in Hsame. vm_compute. reflexivity.
Defined.

Lemma lightboxTarget_lookup (direction : Direction) (l : list ImageItem)
    (i : nat) (c : ImageItem) :
  l !! i = Some c -> is_Some (l !! lightboxTarget direction i (length l)).
Proof.
  intros Hc. pose proof (lookup_lt_Some _ _ _ Hc) as Hlt.
  apply lookup_lt_is_Some. unfold lightboxTarget.
  destruct direction.
  - destruct (0 <? i)%nat; lia.
  - destruct (S i <? length l)%nat eqn:E; [apply Nat.ltb_lt in E|]; lia.
Qed.

(** X19: with the lightbox open on an item (readable files, distinct
    non-empty ids), a step to the previous or next image moves the
    lightbox and the cursor to that item (they stay put at the first and
    last item), loads it and its two neighbours, and leaves the displayed
    page and the grid mode untouched; no item changes in anything but
    its full-resolution URL. *)
Theorem lightbox_step_moves_cursor_but_not_page
    (createObjectURL : FileHandle -> option string) (now : Z)
    (direction : Direction) (st : AppState) (i : nat) (c : ImageItem) :
  allReadable createObjectURL ->
  NoDup (id <$> images st) ->
  images st !! i = Some c ->
  id c <> ""%string ->
  lightboxImageId st = Some (id c) ->
  let t := lightboxTarget direction i (length (images st)) in
  let st' := handleNavigateLightbox createObjectURL now direction st in
  focusedIndex st' = Z.of_nat t /\
  lightboxImageId st' = id <$> images st !! t /\
  currentPage st' = currentPage st /\
  gridMode st' = gridMode st /\
  Forall2 sameButFullRes (images st) (images st') /\
  (forall j u, near t j -> images st' !! j = Some u ->
               Js.truthy (fullResUrl u) = true).
Proof.
  intros Hread Hnd Hc Hid Hlb t st'.
  destruct (lightboxTarget_lookup direction (images st) i c Hc) as [ct Hct].
  fold t in Hct.
  pose proof (lookup_lt_Some _ _ _ Hc) as Hlt.
  set (newIndex :=
         match direction with
         | Prev => if 0 <? Z.of_nat i then Z.of_nat i - 1 else Z.of_nat i
         | Next => if Z.of_nat i <? Z.of_nat (length (images st)) - 1
                   then Z.of_nat i + 1 else Z.of_nat i
         end).
  assert (Hnew : newIndex = Z.of_nat t).
  { unfold newIndex, t, lightboxTarget. destruct direction.
    - destruct (0 <? i)%nat eqn:E.
      + apply Nat.ltb_lt in E. rewrite (proj2 (Z.ltb_lt _ _)) by lia. lia.
      + apply Nat.ltb_ge in E. rewrite (proj2 (Z.ltb_ge _ _)) by lia. lia.
    - destruct (S i <? length (images st))%nat eqn:E.
      + apply Nat.ltb_lt in E. rewrite (proj2 (Z.ltb_lt _ _)) by lia. lia.
      + apply Nat.ltb_ge in E. rewrite (proj2 (Z.ltb_ge _ _)) by lia. lia. }
  assert (Hrun : st' =
    setImages
      (preloadAdjacent createObjectURL (images st) (Z.of_nat t)
         (loadFullResImage createObjectURL (images st) (id ct) (images st)))
      (withSession (fun sid => Database.updateSession sid (gridMode st)
                                 (currentPage st) (Some (Z.of_nat t)) now)
         (setFocusedIndex (Z.of_nat t)
            (if Z.of_nat t =? Z.of_nat i then st
             else setLightboxImageId (Some (id ct)) st)))).
  { unfold st', handleNavigateLightbox. rewrite Hlb.
    unfold Js.or_undefined. rewrite decide_False by exact Hid.
    unfold findIndex. rewrite (findIndexFrom_found (images st) Hnd i c 0 Hc).
    replace (0 + Z.of_nat i) with (Z.of_nat i) by lia.
    rewrite (proj2 (Z.eqb_neq (Z.of_nat i) (-1))) by lia.
    fold newIndex. rewrite Hnew, imageAt_nat, Hct. reflexivity. }
  rewrite Hrun.
  set (st1 := if Z.of_nat t =? Z.of_nat i then st
              else setLightboxImageId (Some (id ct)) st).
  destruct (withSession_frame
              (fun sid => Database.updateSession sid (gridMode st) (currentPage st)
                            (Some (Z.of_nat t)) now)
              (setFocusedIndex (Z.of_nat t) st1))
    as (_ & Hp & Hg & Hf & _ & _ & Hl).
  cbn [focusedIndex lightboxImageId currentPage gridMode images setImages].
  rewrite Hf, Hl, Hp, Hg.
  cbn [focusedIndex lightboxImageId currentPage gridMode setFocusedIndex].
  destruct (load_and_preload createObjectURL (images st) t ct Hread Hnd Hct) as [H1 H2].
  split; [reflexivity|]. split.
  - rewrite Hct. cbn. unfold st1. destruct (Z.of_nat t =? Z.of_nat i) eqn:E.
    + apply Z.eqb_eq in E. apply Nat2Z.inj in E. rewrite E in Hct.
      rewrite Hc in Hct. injection Hct as <-. exact Hlb.
    + reflexivity.
  - assert (Hst1 : currentPage st1 = currentPage st /\ gridMode st1 = gridMode st)
      by (unfold st1; now destruct (Z.of_nat t =? Z.of_nat i)).
    destruct Hst1 as [-> ->]. repeat split; assumption.
Qed.

(** Lightbox on item 24 of 70, the last of page 0: Next moves the cursor
    to 25 and leaves page 0 displayed. *)
Lemma lightbox_step_moves_cursor_but_not_page_witness :
  focusedIndex (handleNavigateLightbox Samples.blobOf 0 Next
                  (setLightboxImageId (Some "24"%string) (Samples.viewing 70 "5x5" 0 24)))
    = 25 /\
  currentPage (handleNavigateLightbox Samples.blobOf 0 Next
                 (setLightboxImageId (Some "24"%string) (Samples.viewing 70 "5x5" 0 24)))
    = 0.
Proof.
  destruct (lightbox_step_moves_cursor_but_not_page Samples.blobOf 0 Next
              (setLightboxImageId (Some "24"%string) (Samples.viewing 70 "5x5" 0 24))
              24 (Samples.item 24)) as (Hf & _ & Hp & _).
  - intros h. eexists. split; [reflexivity | discriminate].
  - apply (bool_decide_unpack _). vm_compute. exact I.
  - reflexivity.
  - discriminate.
  - reflexivity.
  - split; [rewrite Hf; reflexivity | exact Hp].
Defined.

(** X20: the cleanup effect changes nothing but full-resolution URLs,
    and only outside the window: an item on the previous, current or next
    page is left exactly as it is, any other item keeps every field
    except that its URL may be dropped. Every URL it revokes is a blob:
    URL that an item outside the window held. *)
Theorem cleanup_only_drops_urls_outside_window (st : AppState) :
  (forall i img, images st !! i = Some img ->
     exists img',
       images (cleanupFullRes st) !! i = Some img' /\
       sameButFullRes img img' /\
       (imagePage st i ∈ pagesToKeep st -> img' = img) /\
       (fullResUrl img' = fullResUrl img \/ fullResUrl img' = None)) /\
  (forall url, url ∈ revoked (cleanupFullRes st) ->
     url ∈ revoked st \/
     (Js.startsWith "blob:" url = true /\
      exists j item, images st !! j = Some item /\ fullResUrl item = Some url /\
                     imagePage st j ∉ pagesToKeep st)).
Proof.
  unfold cleanupFullRes. destruct (itemCount st =? 0) eqn:E.
  - split; [|auto]. intros i img Hi. exists img.
    split; [exact Hi|]. split; [apply sameButFullRes_refl | auto].
  - cbn [images revoked setImages revokeObjectURLs]. split.
    + intros i img Hi. exists (release st i img).
      split; [now rewrite list_lookup_imap, Hi|].
      unfold release, mustRelease.
      destruct (bool_decide (imagePage st i ∈ pagesToKeep st)) eqn:Ew.
      * cbn. split; [apply sameButFullRes_refl | auto].
      * apply bool_decide_eq_false in Ew. cbn [negb andb].
        destruct (Js.truthy (fullResUrl img)).
        -- split; [unfold sameButFullRes; cbn; tauto|].
           split; [intros; contradiction | right; reflexivity].
        -- split; [apply sameButFullRes_refl | auto].
    + intros url Hurl. apply elem_of_app in Hurl as [Hurl|Hurl]; [now left|].
      right. apply list_elem_of_omap in Hurl as (o & Ho & Heq). cbn in Heq. subst o.
      apply elem_of_lookup_imap in Ho as (j & item & Hrel & Hj).
      unfold releasedBlob, mustRelease in Hrel.
      destruct (bool_decide (imagePage st j ∈ pagesToKeep st)) eqn:Ew;
        [discriminate|].
      apply bool_decide_eq_false in Ew. cbn [negb andb] in Hrel.
      destruct (Js.truthy (fullResUrl item)); [|discriminate].
      destruct (fullResUrl item) as [u|] eqn:Hu; [|discriminate].
      destruct (Js.startsWith "blob:" u) eqn:Hb; [|discriminate].
      injection Hrel as <-. split; [exact Hb | eauto].
Qed.

(** Items 0..2 cached, page 2 displayed: item 0 (page 0) loses its URL,
    nothing else about it changes. *)
Lemma cleanup_only_drops_urls_outside_window_witness :
  exists img',
    images (cleanupFullRes (Samples.browsing 100 3 "5x5" 2 50)) !! 0%nat = Some img' /\
    thumbnailUrl img' = None /\ fileName img' = "0"%string.
Proof.
  destruct (proj1 (cleanup_only_drops_urls_outside_window
                     (Samples.browsing 100 3 "5x5" 2 50))
                  0%nat (setFullResUrl (Samples.blobOf 0%nat) (Samples.item 0)) eq_refl)
    as (img' & Hi & Hsame & _).
  exists img'. split; [exact Hi|].
  destruct Hsame as (_ & _ & Hn & _ & _ & Ht & _).
  split; [rewrite <- Ht | rewrite <- Hn]; reflexivity.
Defined.

End LoadFacts.

(* ===================================================================== *)
(** ** Folder selection: failures and the first visit                     *)
(* ===================================================================== *)

Section SessionFacts.

Import FileSystem App AppProps StoreProps.

(** X21: when the browser lacks the API, the picker is dismissed or the
    scan is rejected, [handleSelectFolder] leaves the item list, page,
    grid mode, cursor, session and store exactly as they were; in the
    last two cases it ends with [isLoading] cleared. *)
Theorem failed_folder_selection_changes_nothing
    (picked : option string) (scanned : option (list ImageItem)) (now : Z)
    (st : AppState) :
  isSupported st = false \/ picked = None \/ scanned = None ->
  images (handleSelectFolder picked scanned now st) = images st /\
  currentPage (handleSelectFolder picked scanned now st) = currentPage st /\
  gridMode (handleSelectFolder picked scanned now st) = gridMode st /\
  focusedIndex (handleSelectFolder picked scanned now st) = focusedIndex st /\
  currentSessionId (handleSelectFolder picked scanned now st) = currentSessionId st /\
  store (handleSelectFolder picked scanned now st) = store st /\
  (isSupported st = true -> isLoading (handleSelectFolder picked scanned now st) = false).
Proof.
  intros H. unfold handleSelectFolder.
  destruct (isSupported st) eqn:Hs; cbn [negb].
  - destruct H as [H|[H|H]]; [discriminate| |]; subst.
    + repeat split; reflexivity.
    + destruct picked as [folder|]; [|repeat split; reflexivity].
      destruct (if dbInitialized st
                then fst (Database.findSessionByFolderName folder (store st))
                else Database.Ok None); repeat split; reflexivity.
  - repeat split; try reflexivity. discriminate.
Qed.

Lemma failed_folder_selection_changes_nothing_witness :
  store (handleSelectFolder (Some "holiday"%string) None 300 Samples.resumed)
    = Samples.holidayStore /\
  isLoading (handleSelectFolder (Some "holiday"%string) None 300 Samples.resumed) = false.
Proof.
  destruct (failed_folder_selection_changes_nothing (Some "holiday"%string) None 300
              Samples.resumed) as (_ & _ & _ & _ & _ & Hst & Hl).
  - right. right. reflexivity.
  - split; [exact Hst | exact (Hl eq_refl)].
Defined.

(** The rows [forEach(saveImage)] appends for a scan. *)
Lemma forEach_saveImage_open (sid : Z) (l : list ImageItem) :
  forall (d0 : Database.Db) (i0 : option Database.Db),
  exists rows d1,
    forEach (fun img => Database.saveImage sid (toNewImage img)) l
            (Database.mkStore (Some d0) i0)
      = (Database.Ok tt, Database.mkStore (Some d1) i0) /\
    Database.sessions d1 = Database.sessions d0 /\
    Database.sessions_seq d1 = Database.sessions_seq d0 /\
    Database.images d1 = Database.images d0 ++ rows /\
    Forall2 (fun r img =>
               Database.row_sessionId r = sid /\
               Database.row_filePath r = path img /\
               Database.row_fileName r = fileName img /\
               (Database.row_selected r =? 1) = selected img /\
               Database.row_thumbnailData r = None) rows l.
Proof.
  induction l as [|img l IH]; intros d0 i0.
  - exists [], d0. cbn. rewrite app_nil_r. repeat split. constructor.
  - destruct (IH (Database.insertImage sid (toNewImage img) d0) i0)
      as (rows & d1 & Hrun & Hs & Hq & Hi & Hall).
    eexists (_ :: rows), d1. split; [|split; [|split; [|split]]].
    + cbn [forEach]. unfold Database.bind at 1.
      change (Database.saveImage sid (toNewImage img) (Database.mkStore (Some d0) i0))
        with (Database.Ok tt,
              Database.mkStore (Some (Database.insertImage sid (toNewImage img) d0)) i0).
      exact Hrun.
    + exact Hs.
    + exact Hq.
    + rewrite Hi. unfold Database.insertImage. cbn [Database.images].
      rewrite <- app_assoc. reflexivity.
    + constructor; [|exact Hall]. cbn. repeat split. now destruct (selected img).
Qed.

Lemma findSessionByFolderName_none (folder : string) (d : Database.Db)
    (i : option Database.Db) :
  (forall s, s ∈ Database.sessions d -> Database.folderName s <> folder) ->
  Database.findSessionByFolderName folder (Database.mkStore (Some d) i)
  = (Database.Ok None, Database.mkStore (Some d) i).
Proof.
  intros Hno. unfold Database.findSessionByFolderName, Database.bind.
  cbn [Database.getDatabase Database.db Database.ret].
  rewrite (filter_none _ _ Hno). reflexivity.
Qed.

Lemma findSessionByFolderName_new (folder mode : string) (now : Z)
    (d d1 : Database.Db) (i : option Database.Db) :
  (forall s, s ∈ Database.sessions d -> Database.folderName s <> folder) ->
  Database.sessions d1 = Database.sessions (Database.insertSession folder now mode d) ->
  Database.findSessionByFolderName folder (Database.mkStore (Some d1) i)
  = (Database.Ok (Some (Database.mkSessionRow (Database.sessions_seq d + 1)
                          folder now now mode 0 0)),
     Database.mkStore (Some d1) i).
Proof.
  intros Hno Hs. unfold Database.findSessionByFolderName, Database.bind.
  cbn [Database.getDatabase Database.db Database.ret]. rewrite Hs.
  unfold Database.insertSession. cbn [Database.sessions].
  rewrite filter_app, (filter_none _ _ Hno), filter_cons.
  cbn [Database.folderName]. rewrite decide_True by reflexivity. reflexivity.
Qed.

(** X22: the first visit of a folder (store open, no session under that
    name yet, image rows only for sessions created so far) shows the scan
    as it is on page 0, creates a session with the current grid mode that
    [findSessionByFolderName] then returns, and stores one row per
    scanned item, in scan order, with the item's path and selected flag
    and no thumbnail; everything is flushed. *)
Theorem first_visit_creates_session_and_rows
    (st : AppState) (d : Database.Db) (folder : string)
    (scanned : list ImageItem) (now : Z) :
  isSupported st = true ->
  dbInitialized st = true ->
  Database.db (store st) = Some d ->
  (forall s, s ∈ Database.sessions d -> Database.folderName s <> folder) ->
  imageOwnersBounded d ->
  let st' := handleSelectFolder (Some folder) (Some scanned) now st in
  let sid := Database.sessions_seq d + 1 in
  images st' = scanned /\ currentPage st' = 0 /\ currentSessionId st' = Some sid /\
  exists d',
    Database.db (store st') = Some d' /\ Database.idb (store st') = Some d' /\
    fst (Database.findSessionByFolderName folder (store st'))
      = Database.Ok (Some (Database.mkSessionRow sid folder now now (gridMode st) 0 0)) /\
    synced sid d' scanned /\
    (forall r, r ∈ Database.sessionRows sid d' -> Database.row_thumbnailData r = None) /\
    (forall k, k <> sid -> Database.sessionRows k d' = Database.sessionRows k d).
Proof.
  intros Hsup Hinit Hdb Hno Hown st' sid.
  destruct st as [imgs page mode loading sup cs init lb fi [o i] rv].
  cbn in Hsup, Hinit, Hdb. subst sup init o.
  set (dI := Database.insertSession folder now mode d).
  destruct (forEach_saveImage_open sid scanned dI (Some dI))
    as (rows & d1 & Hrun & Hs & Hq & Hi & Hall).
  assert (Hst : st' = mkApp scanned 0 mode false true (Some sid) true lb fi
                        (Database.mkStore (Some d1) (Some d1)) rv).
  { unfold st', handleSelectFolder.
    cbn [isSupported dbInitialized store negb setIsLoading].
    rewrite (findSessionByFolderName_none folder d i Hno). cbn [fst].
    unfold createNewSession.
    cbn [dbInitialized gridMode store setCurrentPage setImages setIsLoading].
    change (Database.createSession folder mode now (Database.mkStore (Some d) i))
      with (Database.Ok sid, Database.mkStore (Some dI) (Some dI)).
    cbn [store setStore setCurrentSessionId]. unfold Database.bind at 1.
    fold sid. rewrite Hrun. reflexivity. }
  rewrite Hst. cbn [images currentPage currentSessionId store gridMode
                    Database.db Database.idb].
  repeat split. exists d1. split; [reflexivity|]. split; [reflexivity|].
  assert (Hold : forall k, Database.sessions_seq d < k ->
            filter (fun r => Database.row_sessionId r = k) (Database.images d) = []).
  { intros k Hk. apply filter_none. intros r Hr Hid. specialize (Hown r Hr). lia. }
  assert (Hnew : filter (fun r => Database.row_sessionId r = sid) rows = rows).
  { clear -Hall. induction Hall as [|r img rows l (Hsid & _) _ IH]; [reflexivity|].
    rewrite filter_cons, decide_True by exact Hsid. now rewrite IH. }
  assert (Hrows : Database.sessionRows sid d1 = rows).
  { unfold Database.sessionRows. rewrite Hi. unfold dI, Database.insertSession.
    cbn [Database.images]. rewrite filter_app, Hnew, (Hold sid) by (unfold sid; lia).
    reflexivity. }
  split; [|split; [|split]].
  - rewrite (findSessionByFolderName_new folder mode now d d1 (Some d1) Hno Hs).
    reflexivity.
  - unfold synced. rewrite Hrows. eapply Forall2_impl; [exact Hall|].
    intros r img (_ & Hp & _ & Hsel & _). auto.
  - intros r Hr. rewrite Hrows in Hr.
    apply list_elem_of_lookup in Hr as [j Hj].
    destruct (Forall2_lookup_l _ _ _ j r Hall Hj) as (img & _ & _ & _ & _ & _ & Ht).
    exact Ht.
  - intros k Hk. unfold Database.sessionRows. rewrite Hi. unfold dI, Database.insertSession.
    cbn [Database.images]. rewrite filter_app.
    rewrite (filter_none (fun r => Database.row_sessionId r = k) rows);
      [now rewrite app_nil_r|].
    intros r Hr Hid. apply list_elem_of_lookup in Hr as [j Hj].
    destruct (Forall2_lookup_l _ _ _ j r Hall Hj) as (img & _ & Hsid & _). congruence.
Qed.

(** An empty store, three scanned files: session 1 is created with three
    rows. *)
Lemma first_visit_creates_session_and_rows_witness :
  currentSessionId
    (handleSelectFolder (Some "trip"%string) (Some Samples.rescan) 300
       (setStore Samples.openStore Samples.resumed)) = Some 1 /\
  exists d',
    Database.db (store (handleSelectFolder (Some "trip"%string) (Some Samples.rescan) 300
                          (setStore Samples.openStore Samples.resumed))) = Some d' /\
    synced 1 d' Samples.rescan.
Proof.
  destruct (first_visit_creates_session_and_rows
              (setStore Samples.openStore Samples.resumed) Database.emptyDb
              "trip"%string Samples.rescan 300 eq_refl eq_refl eq_refl)
    as (_ & _ & Hsid & d' & Hd & _ & _ & Hsync & _).
  - intros s Hs. now apply elem_of_nil in Hs.
  - intros r Hr. now apply elem_of_nil in Hr.
  - split; [exact Hsid|]. exists d'. split; [exact Hd | exact Hsync].
Defined.

Lemma setSelection_keeps (sid : Z) (p : string) (sel : bool) (r : Database.ImageRow) :
  Database.row_sessionId (Database.setSelection sid p sel r) = Database.row_sessionId r /\
  Database.row_filePath (Database.setSelection sid p sel r) = Database.row_filePath r.
Proof. unfold Database.setSelection. now destruct (_ && _). Qed.

Lemma toggleWrites_keeps (sid : Z) (x : string) (l : list ImageItem) :
  forall r,
    Database.row_sessionId (toggleWrites sid x l r) = Database.row_sessionId r /\
    Database.row_filePath (toggleWrites sid x l r) = Database.row_filePath r.
Proof.
  induction l as [|img l IH]; intros r; [split; reflexivity|].
  unfold toggleWrites in *. cbn [foldl]. case_bool_decide.
  - destruct (IH (Database.setSelection sid (path img) (negb (selected img)) r))
      as [H1 H2].
    destruct (setSelection_keeps sid (path img) (negb (selected img)) r) as [H3 H4].
    split; congruence.
  - apply IH.
Qed.

(** The flag a row of the session ends with: the one written for the
    last item with id [x] and the row's path, or its own when there is
    none. *)
Lemma toggleWrites_flag (sid : Z) (x : string) (l : list ImageItem) :
  forall r,
    Database.row_sessionId r = sid ->
    (Database.row_selected (toggleWrites sid x l r) =? 1)
    = match last (filter (fun img => id img = x /\ path img = Database.row_filePath r) l)
      with
      | Some img => negb (selected img)
      | None => Database.row_selected r =? 1
      end.
Proof.
  induction l as [|img l IH]; intros r Hsid; [reflexivity|].
  unfold toggleWrites in *. cbn [foldl]. rewrite filter_cons.
  destruct (decide (id img = x /\ path img = Database.row_filePath r)) as [[Hx Hp]|Hn].
  - rewrite bool_decide_eq_true_2 by exact Hx.
    set (r1 := Database.setSelection sid (path img) (negb (selected img)) r).
    destruct (setSelection_keeps sid (path img) (negb (selected img)) r) as [H3 H4].
    fold r1 in H3, H4. rewrite (IH r1) by congruence. rewrite H4, last_cons.
    destruct (last _); [reflexivity|].
    unfold r1, Database.setSelection. rewrite Hsid, Z.eqb_refl.
    rewrite bool_decide_eq_true_2 by congruence. cbn.
    now destruct (selected img).
  - case_bool_decide as Hx.
    + assert (Hp : path img <> Database.row_filePath r) by tauto.
      assert (Hsame : Database.setSelection sid (path img) (negb (selected img)) r = r).
      { unfold Database.setSelection.
        rewrite (bool_decide_eq_false_2 (Database.row_filePath r = path img))
          by congruence.
        now rewrite andb_false_r. }
      rewrite Hsame. now apply IH.
    + now apply IH.
Qed.

(** [handleSelectImage]'s store writes, on an open store with a session:
    every image row is passed through [toggleWrites]; the sessions table
    is untouched, and the result is flushed when some item has the id. *)
Lemma persistToggle_fold (sid : Z) (x : string) (l : list ImageItem) :
  sid <> 0 ->
  forall (st : AppState) (d : Database.Db),
    currentSessionId st = Some sid ->
    dbInitialized st = true ->
    Database.db (store st) = Some d ->
    exists d',
      Database.db (store (foldl (persistToggle x) st l)) = Some d' /\
      Database.sessions d' = Database.sessions d /\
      Database.images d' = toggleWrites sid x l <$> Database.images d /\
      images (foldl (persistToggle x) st l) = images st /\
      ((exists img, img ∈ l /\ id img = x) ->
       Database.idb (store (foldl (persistToggle x) st l)) = Some d').
Proof.
  intros Hsid. induction l as [|img l IH]; intros st d Hcs Hinit Hdb.
  - exists d. cbn [foldl]. split; [exact Hdb|]. split; [reflexivity|].
    split; [symmetry; apply fmap_fixed; now intros|]. split; [reflexivity|].
    intros (img & Hin & _). now apply elem_of_nil in Hin.
  - cbn [foldl]. destruct (decide (id img = x)) as [Hx|Hx].
    + set (d1 := Database.mkDb (Database.sessions d)
                   (map (Database.setSelection sid (path img) (negb (selected img)))
                        (Database.images d))
                   (Database.sessions_seq d) (Database.images_seq d)).
      assert (Hstep : persistToggle x st img
                      = setStore (Database.mkStore (Some d1) (Some d1)) st).
      { unfold persistToggle. rewrite bool_decide_eq_true_2 by exact Hx.
        unfold withSession. rewrite Hcs, Hinit. cbn [Js.truthy_num].
        rewrite (proj2 (Z.eqb_neq sid 0)) by exact Hsid. cbn [negb andb].
        destruct (store st) as [o i]. cbn in Hdb. subst o. reflexivity. }
      rewrite Hstep.
      destruct (IH (setStore (Database.mkStore (Some d1) (Some d1)) st) d1)
        as (d' & Hd' & Hs' & Hi' & Him' & Hflush'); try assumption; try reflexivity.
      exists d'. split; [exact Hd'|]. split; [exact Hs'|]. split.
      * rewrite Hi'. unfold d1. cbn [Database.images].
        change (map ?f ?k) with (f <$> k). rewrite <- list_fmap_compose.
        apply list_fmap_ext. intros j r _. unfold toggleWrites. cbn [foldl compose].
        now rewrite bool_decide_eq_true_2 by exact Hx.
      * split; [exact Him'|]. intros _.
        destruct (decide (Exists (fun img' => id img' = x) l)) as [Hex|Hnex].
        -- apply Hflush'. now apply Exists_exists in Hex.
        -- clear IH Hflush'. revert Hd'.
           assert (Hfix : forall st0, foldl (persistToggle x) st0 l = st0).
           { clear -Hnex. induction l as [|a l IHl]; intros st0; [reflexivity|].
             cbn [foldl].
             assert (Ha : persistToggle x st0 a = st0).
             { unfold persistToggle. rewrite bool_decide_eq_false_2; [reflexivity|].
               intros Ha. apply Hnex. now constructor. }
             rewrite Ha. apply IHl. intros Hl. apply Hnex. now constructor. }
           rewrite Hfix. cbn. now intros [= <-].
    + assert (Hstep : persistToggle x st img = st)
        by (unfold persistToggle; now rewrite bool_decide_eq_false_2 by exact Hx).
      rewrite Hstep.
      destruct (IH st d Hcs Hinit Hdb) as (d' & Hd' & Hs' & Hi' & Him' & Hflush').
      exists d'. split; [exact Hd'|]. split; [exact Hs'|]. split.
      * rewrite Hi'. apply list_fmap_ext. intros j r _. unfold toggleWrites.
        cbn [foldl]. now rewrite bool_decide_eq_false_2 by exact Hx.
      * split; [exact Him'|]. intros (b & Hb & Hbx). apply Hflush'.
        apply elem_of_cons in Hb as [->|Hb]; [contradiction | eauto].
Qed.

Lemma toggleWrites_other (sid : Z) (x : string) (l : list ImageItem) :
  forall r, Database.row_sessionId r <> sid -> toggleWrites sid x l r = r.
Proof.
  induction l as [|img l IH]; intros r Hr; [reflexivity|].
  unfold toggleWrites in *. cbn [foldl].
  assert (Hsame : Database.setSelection sid (path img) (negb (selected img)) r = r).
  { unfold Database.setSelection.
    now rewrite (proj2 (Z.eqb_neq (Database.row_sessionId r) sid)) by exact Hr. }
  rewrite Hsame. case_bool_decide; now apply IH.
Qed.

Lemma NoDup_fmap_inj {A B : Type} (f : A -> B) (l : list A) (a b : A) :
  NoDup (f <$> l) -> a ∈ l -> b ∈ l -> f a = f b -> a = b.
Proof.
  intros Hnd Ha Hb Hf.
  apply list_elem_of_lookup in Ha as [i Hi]. apply list_elem_of_lookup in Hb as [j Hj].
  assert (Hij : i = j).
  { apply (NoDup_lookup (f <$> l) i j (f a) Hnd).
    - now rewrite list_lookup_fmap, Hi.
    - now rewrite list_lookup_fmap, Hj, Hf. }
  subst j. congruence.
Qed.

(** X23: with a session open and the session's rows mirroring the item
    list (distinct paths), toggling the selection of an id leaves them
    mirroring it: after [handleSelectImage] every row of the session
    carries the selected flag its item now has. The sessions table and
    the rows of other sessions are untouched, and the store is flushed
    when some item has the id. *)
Theorem selection_toggle_is_mirrored_in_store
    (x : string) (st : AppState) (sid : Z) (d : Database.Db) :
  currentSessionId st = Some sid ->
  sid <> 0 ->
  dbInitialized st = true ->
  Database.db (store st) = Some d ->
  synced sid d (images st) ->
  NoDup (path <$> images st) ->
  exists d',
    Database.db (store (handleSelectImage x st)) = Some d' /\
    synced sid d' (images (handleSelectImage x st)) /\
    Database.sessions d' = Database.sessions d /\
    (forall k, k <> sid -> Database.sessionRows k d' = Database.sessionRows k d) /\
    ((exists img, img ∈ images st /\ id img = x) ->
     Database.idb (store (handleSelectImage x st)) = Some d').
Proof.
  intros Hcs Hsid Hinit Hdb Hsync Hnd.
  destruct (persistToggle_fold sid x (images st) Hsid st d Hcs Hinit Hdb)
    as (d' & Hd' & Hs' & Hi' & _ & Hflush').
  exists d'. unfold handleSelectImage. cbn [store images setImages].
  split; [exact Hd'|].
  assert (Hrows : forall k,
            Database.sessionRows k d'
            = toggleWrites sid x (images st) <$> Database.sessionRows k d).
  { intros k. unfold Database.sessionRows. rewrite Hi'.
    apply filter_fmap_stable. intros r.
    now destruct (toggleWrites_keeps sid x (images st) r) as [-> _]. }
  split; [|split; [exact Hs'|split; [|exact Hflush']]].
  - unfold synced in *. rewrite Hrows. change (map ?f ?k) with (f <$> k).
    apply Forall2_fmap. apply Forall2_same_length_lookup.
    apply Forall2_same_length_lookup in Hsync as [Hlen Hpt].
    split; [exact Hlen|]. intros j r img Hr Himg.
    destruct (Hpt j r img Hr Himg) as [Hp Hf].
    assert (Hrs : Database.row_sessionId r = sid).
    { apply list_elem_of_lookup_2 in Hr.
      now apply list_elem_of_filter in Hr as [Hr _]. }
    destruct (toggleWrites_keeps sid x (images st) r) as [_ Hkeep].
    rewrite (toggleWrites_flag sid x (images st) r Hrs).
    assert (Hin : img ∈ images st) by (eapply list_elem_of_lookup_2; eauto).
    destruct (last _) as [img'|] eqn:El.
    + apply last_Some_elem_of in El.
      apply list_elem_of_filter in El as [[Hx' Hp'] Hin'].
      assert (img' = img)
        by (apply (NoDup_fmap_inj path (images st)); [assumption..|congruence]).
      subst img'. unfold toggleIfId. rewrite bool_decide_eq_true_2 by exact Hx'.
      cbn. split; [congruence | reflexivity].
    + apply last_None in El. unfold toggleIfId. case_bool_decide as Hx'.
      * exfalso.
        assert (Hin' : img ∈ filter (fun img0 => id img0 = x /\
                                      path img0 = Database.row_filePath r) (images st))
          by (apply list_elem_of_filter; auto).
        rewrite El in Hin'. now apply elem_of_nil in Hin'.
      * split; [congruence | exact Hf].
  - intros k Hk. rewrite Hrows. apply fmap_fixed. intros r Hr.
    apply toggleWrites_other. apply list_elem_of_filter in Hr as [Hr _]. congruence.
Qed.

(** The state after a first visit of three files; toggling b.jpg. *)
Lemma selection_toggle_is_mirrored_in_store_witness :
  exists d',
    Database.db (store (handleSelectImage "b.jpg-5"
                          (handleSelectFolder (Some "trip"%string) (Some Samples.rescan) 300
                             (setStore Samples.openStore Samples.resumed)))) = Some d' /\
    map (fun r => (Database.row_filePath r, Database.row_selected r))
        (Database.sessionRows 1 d')
    = [("a.jpg", 0); ("b.jpg", 1); ("c.jpg", 0)]%string.
Proof.
  destruct (selection_toggle_is_mirrored_in_store "b.jpg-5"
              (handleSelectFolder (Some "trip"%string) (Some Samples.rescan) 300
                 (setStore Samples.openStore Samples.resumed))
              1 (Database.mkDb
                   [Database.mkSessionRow 1 "trip" 300 300 "5x5" 0 0]
                   [Database.mkImageRow 1 1 "a.jpg" "a.jpg" 10 5 0 None;
                    Database.mkImageRow 2 1 "b.jpg" "b.jpg" 10 5 0 None;
                    Database.mkImageRow 3 1 "c.jpg" "c.jpg" 10 5 0 None] 1 3)
              eq_refl ltac:(discriminate) eq_refl eq_refl)
    as (d' & Hd' & _).
  - unfold synced. vm_compute. repeat (constructor; [split; reflexivity|]). constructor.
  - apply (bool_decide_unpack _). vm_compute. exact I.
  - exists d'. split; [exact Hd'|]. vm_compute in Hd'. injection Hd' as <-.
    vm_compute. reflexivity.
Defined.

(** X24: when a session is found whose rows mirror a list of items with
    distinct paths, and the scan returns those paths in the same order,
    the restored list has exactly those items' selected flags: nothing
    selected is lost and nothing is selected that was not. *)
Theorem reopening_folder_restores_selection
    (st : AppState) (d : Database.Db) (es : Database.SessionRow)
    (folder : string) (scanned imgs : list ImageItem) (now : Z) :
  isSupported st = true ->
  dbInitialized st = true ->
  Database.db (store st) = Some d ->
  fst (Database.findSessionByFolderName folder (store st)) = Database.Ok (Some es) ->
  synced (Database.id es) d imgs ->
  NoDup (path <$> imgs) ->
  path <$> scanned = path <$> imgs ->
  selected <$> images (handleSelectFolder (Some folder) (Some scanned) now st)
    = selected <$> imgs /\
  path <$> images (handleSelectFolder (Some folder) (Some scanned) now st)
    = path <$> imgs.
Proof.
  intros Hsup Hinit Hdb Hfind Hsync Hnd Hpaths.
  destruct (handleSelectFolder_restores st d es folder scanned now Hsup Hinit Hdb Hfind)
    as [Himg _].
  rewrite Himg. change (map ?f ?k) with (f <$> k). rewrite <- !list_fmap_compose.
  split; [|rewrite <- Hpaths; apply list_fmap_ext; now intros].
  unfold synced in Hsync.
  apply Forall2_same_length_lookup in Hsync as [Hlen Hpt].
  assert (Hrowpaths : Database.row_filePath <$> Database.sessionRows (Database.id es) d
                      = path <$> imgs).
  { apply list_eq. intros j. rewrite !list_lookup_fmap.
    destruct (Database.sessionRows (Database.id es) d !! j) as [r|] eqn:Hr.
    - destruct (lookup_lt_is_Some_2 imgs j) as [img Hi];
        [rewrite <- Hlen; eapply lookup_lt_Some; eauto|].
      rewrite Hi. cbn. f_equal. now destruct (Hpt j r img Hr Hi).
    - apply lookup_ge_None in Hr. rewrite Hlen in Hr.
      apply lookup_ge_None in Hr. now rewrite Hr. }
  apply list_eq. intros j. rewrite !list_lookup_fmap.
  destruct (scanned !! j) as [sc|] eqn:Hsc.
  - assert (Hpj : (path <$> scanned) !! j = Some (path sc))
      by (now rewrite list_lookup_fmap, Hsc).
    rewrite Hpaths, list_lookup_fmap in Hpj.
    destruct (imgs !! j) as [img|] eqn:Hi; [|discriminate]. cbn in Hpj.
    injection Hpj as Hpj.
    destruct (lookup_lt_is_Some_2 (Database.sessionRows (Database.id es) d) j)
      as [r Hr]; [rewrite Hlen; eapply lookup_lt_Some; eauto|].
    destruct (Hpt j r img Hr Hi) as [Hp Hf].
    unfold compose. cbn [fmap option_fmap option_map]. f_equal.
    destruct (mergeImage_saved (Database.id es) d sc)
      as [(r' & Hr' & Hk & Hsel & _)|(Hnone & _)].
    + assert (r' = r).
      { apply (NoDup_fmap_inj Database.row_filePath
                 (Database.sessionRows (Database.id es) d)).
        - now rewrite Hrowpaths.
        - exact Hr'.
        - eapply list_elem_of_lookup_2; eauto.
        - congruence. }
      subst r'. cbv zeta in Hsel. rewrite Hsel. exact Hf.
    + exfalso. apply (Hnone r); [eapply list_elem_of_lookup_2; eauto | congruence].
  - assert (Hpj : (path <$> scanned) !! j = None)
      by (now rewrite list_lookup_fmap, Hsc).
    rewrite Hpaths, list_lookup_fmap in Hpj.
    destruct (imgs !! j); [discriminate | reflexivity].
Qed.

(** The "holiday" session mirrors a list in which a.jpg and gone.jpg are
    selected; a rescan that finds the same three files restores exactly
    that. *)
Lemma reopening_folder_restores_selection_witness :
  selected <$> images (handleSelectFolder (Some "holiday"%string)
                         (Some [Samples.photo "a.jpg"; Samples.photo "b.jpg";
                                Samples.photo "gone.jpg"]) 300 Samples.resumed)
  = [true; false; true].
Proof.
  refine (proj1 (reopening_folder_restores_selection Samples.resumed Samples.holidayDb
                   (Database.mkSessionRow 1 "holiday" 100 200 "5x5" 0 0)
                   "holiday"%string
                   [Samples.photo "a.jpg"; Samples.photo "b.jpg"; Samples.photo "gone.jpg"]
                   [toggleSelected (Samples.photo "a.jpg"); Samples.photo "b.jpg";
                    toggleSelected (Samples.photo "gone.jpg")]
                   300 eq_refl eq_refl eq_refl eq_refl _ _ eq_refl)).
  - unfold synced. vm_compute. repeat (constructor; [split; reflexivity|]). constructor.
  - apply (bool_decide_unpack _). vm_compute. exact I.
Defined.

End SessionFacts.
